(** * Draw views of Tabbycat: a shallow embedding of [tabbycat/draw/views.py]

    The views are embedded as functions over an explicit store (the database
    tables the views touch, the flash-message queue and the action log).
    A Python exception that escapes a view is an explicit outcome; the store
    that comes with it is the store at the moment of the raise, because the
    views open no transaction and Django then commits every [save()] and
    [delete()] on its own.

    Python values are modelled as follows: [int] is [Z], [str] is [string]
    (one [ascii] per character, so only ASCII text is covered), [None] is
    [option], model instances are records, tables are lists of rows in
    insertion order.  The built-ins follow CPython 3.6 and later: [int]
    accepts single underscores between digits, and a [datetime.time] is
    true also at midnight. *)

From Stdlib Require Import ZArith List String Ascii Bool Lia.
From Stdlib Require Import DecimalString DecimalPos.
Import ListNotations.
Local Open Scope string_scope.
Local Open Scope Z_scope.

Set Implicit Arguments.

(* ====================================================================== *)
(** ** Python built-ins used by the views *)
(* ====================================================================== *)

Module Py.

(** Exceptions the views can let escape. *)
Inductive exn :=
| ValueError
| AttributeError
| KeyError
| IndexError
| DoesNotExist
| MultipleObjectsReturned
| Http404
| DrawError (msg : string).

(** [s.startswith(p)] *)
Definition startswith (s p : string) : bool := String.prefix p s.

(** [s.replace(old, new)] for a non-empty [old]: the occurrences are
    found left to right and do not overlap.  [skip] counts the characters
    of an occurrence that are still to be dropped. *)
Fixpoint replace_from (old new : string) (skip : nat) (s : string) : string :=
  match s with
  | EmptyString => EmptyString
  | String c s' =>
      match skip with
      | S k => replace_from old new k s'
      | O =>
          if String.prefix old s
          then new ++ replace_from old new (Nat.pred (String.length old)) s'
          else String c (replace_from old new O s')
      end
  end.

Definition replace (s old new : string) : string := replace_from old new O s.

(** Truth value of a [str]: the empty string is false. *)
Definition truthy (s : string) : bool :=
  match s with EmptyString => false | _ => true end.

(** [str(n)] and ['%s' % n] for an [int]. *)
Definition str_of_int (n : Z) : string := NilZero.string_of_int (Z.to_int n).

(** Characters that [str.isspace] and the regex class [\s] accept, among
    ASCII: they include the separators 28 to 31. *)
Definition isspace (c : ascii) : bool :=
  let n := nat_of_ascii c in
  ((9 <=? n) && (n <=? 13) || (28 <=? n) && (n <=? 32))%nat.

(** The white space [int] skips around the literal of an ASCII [str]:
    blank, tab, line feed, vertical tab, form feed and carriage return,
    and no other character. *)
Definition isspace_c (c : ascii) : bool :=
  let n := nat_of_ascii c in
  ((9 <=? n) && (n <=? 13) || (n =? 32))%nat.

Definition isdigit (c : ascii) : bool :=
  let n := nat_of_ascii c in ((48 <=? n) && (n <=? 57))%nat.

Definition digit_val (c : ascii) : Z := Z.of_nat (nat_of_ascii c) - 48.

Fixpoint lstrip (l : list ascii) : list ascii :=
  match l with
  | c :: l' => if isspace_c c then lstrip l' else l
  | [] => []
  end.

Definition strip (l : list ascii) : list ascii := rev (lstrip (rev (lstrip l))).

(** The digits of an [int] literal: decimal digits, where a single
    underscore may separate two digits.  [prev_digit] tells whether the
    character before was a digit. *)
Fixpoint int_digits (l : list ascii) (prev_digit : bool) (acc : Z) : option Z :=
  match l with
  | [] => if prev_digit then Some acc else None
  | c :: l' =>
      if isdigit c then int_digits l' true (10 * acc + digit_val c)
      else if Ascii.eqb c "_"%char
           then (if prev_digit then int_digits l' false acc else None)
           else None
  end.

(** [int(s)] for a [str] in base 10: surrounding white space is dropped,
    one sign is allowed.  [None] stands for [ValueError]. *)
Definition int_of_str (s : string) : option Z :=
  match strip (list_ascii_of_string s) with
  | [] => None
  | c :: l =>
      if Ascii.eqb c "-"%char then option_map Z.opp (int_digits l false 0)
      else if Ascii.eqb c "+"%char then int_digits l false 0
      else int_digits (c :: l) false 0
  end.

End Py.

(* ====================================================================== *)
(** ** [datetime] values and [datetime.datetime.strptime] *)
(* ====================================================================== *)

Module Datetime.

(** [datetime.time] *)
Record time := mk_time
  { hour : Z; minute : Z; second : Z; microsecond : Z }.

(** [datetime.datetime] *)
Record datetime := mk_datetime
  { year : Z; month : Z; day : Z; dt_time : time }.

Definition is_leap (y : Z) : bool :=
  (y mod 4 =? 0) && (negb (y mod 100 =? 0) || (y mod 400 =? 0)).

Definition days_in_month (y m : Z) : Z :=
  if m =? 2 then (if is_leap y then 29 else 28)
  else if (m =? 4) || (m =? 6) || (m =? 9) || (m =? 11) then 30
  else 31.

(** The range checks of the [date] and [datetime] constructors. *)
Definition valid_date (y m d : Z) : bool :=
  (1 <=? y) && (y <=? 9999) && (1 <=? m) && (m <=? 12)
  && (1 <=? d) && (d <=? days_in_month y m).

Definition valid_time (h mi s : Z) : bool :=
  (0 <=? h) && (h <=? 23) && (0 <=? mi) && (mi <=? 59)
  && (0 <=? s) && (s <=? 59).

Definition two_digits (n : Z) : string :=
  if n <? 10 then "0" ++ Py.str_of_int n else Py.str_of_int n.

Fixpoint zeros (n : nat) : string :=
  match n with
  | O => ""
  | S n' => "0" ++ zeros n'
  end.

Definition pad_left (w : nat) (s : string) : string :=
  zeros (w - String.length s) ++ s.

(** [str(t)] for a [time]: [HH:MM:SS], followed by [.ffffff] when the
    microseconds are not zero. *)
Definition str_of_time (t : time) : string :=
  two_digits (hour t) ++ ":" ++ two_digits (minute t) ++ ":"
    ++ two_digits (second t)
    ++ (if microsecond t =? 0 then ""
        else "." ++ pad_left 6 (Py.str_of_int (microsecond t))).

(** The directives the views use. *)
Inductive directive := dY | dm | dd | dH | dM | dS.

(** One position of a directive's regular expression. *)
Inductive cls :=
| Digit                       (* \d *)
| Range (lo hi : Z)           (* [lo-hi] over the digits *)
| Chr (c : ascii).

(** The regular expression of each directive in [_strptime.TimeRE]: an
    ordered choice of fixed-width alternatives. *)
Definition alternatives (d : directive) : list (list cls) :=
  match d with
  | dd => [ [Range 3 3; Range 0 1]; [Range 1 2; Digit]; [Range 0 0; Range 1 9];
            [Range 1 9]; [Chr " "; Range 1 9] ]
  | dH => [ [Range 2 2; Range 0 3]; [Range 0 1; Digit]; [Digit] ]
  | dM => [ [Range 0 5; Digit]; [Digit] ]
  | dS => [ [Range 6 6; Range 0 1]; [Range 0 5; Digit]; [Digit] ]
  | dm => [ [Range 1 1; Range 0 2]; [Range 0 0; Range 1 9]; [Range 1 9] ]
  | dY => [ [Digit; Digit; Digit; Digit] ]
  end.

(** A compiled format: literal characters, runs of white space (they
    become [\s+]) and directives. *)
Inductive item :=
| Lit (c : ascii)
| Spaces
| Dir (d : directive).

Definition directive_of (c : ascii) : option directive :=
  if Ascii.eqb c "Y" then Some dY
  else if Ascii.eqb c "m" then Some dm
  else if Ascii.eqb c "d" then Some dd
  else if Ascii.eqb c "H" then Some dH
  else if Ascii.eqb c "M" then Some dM
  else if Ascii.eqb c "S" then Some dS
  else None.

(** Compilation of a format string.  [None]: a directive outside the six
    above, or a lone [%]. *)
Fixpoint compile (f : list ascii) (in_space : bool) : option (list item) :=
  match f with
  | [] => Some []
  | c :: f' =>
      if Py.isspace c then
        if in_space then compile f' true
        else option_map (cons Spaces) (compile f' true)
      else if Ascii.eqb c "%" then
        match f' with
        | d :: f'' =>
            match directive_of d with
            | Some dir => option_map (cons (Dir dir)) (compile f'' false)
            | None => None
            end
        | [] => None
        end
      else option_map (cons (Lit c)) (compile f' false)
  end.

Definition matches_cls (k : cls) (c : ascii) : bool :=
  match k with
  | Digit => Py.isdigit c
  | Range lo hi => Py.isdigit c && (lo <=? Py.digit_val c) && (Py.digit_val c <=? hi)
  | Chr x => Ascii.eqb x c
  end.

(** One alternative against the front of the input: the text it takes
    and what is left. *)
Fixpoint match_alt (a : list cls) (s : list ascii) : option (list ascii * list ascii) :=
  match a with
  | [] => Some ([], s)
  | k :: a' =>
      match s with
      | c :: s' =>
          if matches_cls k c then
            match match_alt a' s' with
            | Some (t, r) => Some (c :: t, r)
            | None => None
            end
          else None
      | [] => None
      end
  end.

Definition found := list (directive * list ascii).

(** Ordered choice with backtracking: the first alternative after which
    the rest of the format [k] matches. *)
Fixpoint first_alt (k : list ascii -> list ascii -> option (found * list ascii))
         (alts : list (list cls)) (s : list ascii) : option (found * list ascii) :=
  match alts with
  | [] => None
  | a :: alts' =>
      match match_alt a s with
      | Some (t, r) =>
          match k t r with
          | Some res => Some res
          | None => first_alt k alts' s
          end
      | None => first_alt k alts' s
      end
  end.

(** [\s+], greedy with backtracking: the rest of the format is tried
    after the longest run of white space first. *)
Fixpoint spaces_star (k : list ascii -> option (found * list ascii))
         (s : list ascii) : option (found * list ascii) :=
  match s with
  | c :: s' =>
      if Py.isspace c then
        match spaces_star k s' with
        | Some res => Some res
        | None => k s
        end
      else k s
  | [] => k s
  end.

Definition spaces_plus (k : list ascii -> option (found * list ascii))
           (s : list ascii) : option (found * list ascii) :=
  match s with
  | c :: s' => if Py.isspace c then spaces_star k s' else None
  | [] => None
  end.

(** [format_regex.match(data_string)]: the groups found and the
    unconsumed rest. *)
Fixpoint regex_match (its : list item) (s : list ascii) : option (found * list ascii) :=
  match its with
  | [] => Some ([], s)
  | Lit c :: its' =>
      match s with
      | x :: s' => if Ascii.eqb c x then regex_match its' s' else None
      | [] => None
      end
  | Spaces :: its' => spaces_plus (regex_match its') s
  | Dir d :: its' =>
      first_alt (fun t r =>
                   match regex_match its' r with
                   | Some (g, rest) => Some ((d, t) :: g, rest)
                   | None => None
                   end)
                (alternatives d) s
  end.

Definition directive_eqb (a b : directive) : bool :=
  match a, b with
  | dY, dY | dm, dm | dd, dd | dH, dH | dM, dM | dS, dS => true
  | _, _ => false
  end.

(** [int(found_dict[d])], or [default] when the format has no [d]. *)
Fixpoint group (g : found) (d : directive) (default : Z) : option Z :=
  match g with
  | [] => Some default
  | (d', t) :: g' =>
      if directive_eqb d d' then Py.int_of_str (string_of_list_ascii t)
      else group g' d default
  end.

(** [datetime.datetime.strptime(data_string, format)]; [None] stands for
    the [ValueError] it raises: no match, unconverted data left, or
    fields that are no date or time of day. *)
Definition strptime (data_string format : string) : option datetime :=
  match compile (list_ascii_of_string format) false with
  | None => None
  | Some its =>
      match regex_match its (list_ascii_of_string data_string) with
      | Some (g, []) =>
          match group g dY 1900, group g dm 1, group g dd 1,
                group g dH 0, group g dM 0, group g dS 0 with
          | Some y, Some m, Some d, Some h, Some mi, Some s =>
              if valid_date y m d && valid_time h mi s
              then Some (mk_datetime y m d (mk_time h mi s 0))
              else None
          | _, _, _, _, _, _ => None
          end
      | _ => None
      end
  end.

End Datetime.

(* ====================================================================== *)
(** ** The store: model rows, tables, messages *)
(* ====================================================================== *)

Module Models.

(** [Round.STATUS_*] *)
Inductive draw_status :=
| STATUS_NONE | STATUS_DRAFT | STATUS_CONFIRMED | STATUS_RELEASED.

Definition draw_status_eqb (a b : draw_status) : bool :=
  match a, b with
  | STATUS_NONE, STATUS_NONE | STATUS_DRAFT, STATUS_DRAFT
  | STATUS_CONFIRMED, STATUS_CONFIRMED | STATUS_RELEASED, STATUS_RELEASED => true
  | _, _ => false
  end.

(** [DebateTeam.POSITION_*] *)
Inductive position := POSITION_AFFIRMATIVE | POSITION_NEGATIVE.

Definition position_eqb (a b : position) : bool :=
  match a, b with
  | POSITION_AFFIRMATIVE, POSITION_AFFIRMATIVE
  | POSITION_NEGATIVE, POSITION_NEGATIVE => true
  | _, _ => false
  end.

Record Round := mk_round
  { round_id : Z;
    round_name : string;
    round_tournament : Z;
    round_draw_status : draw_status;
    round_starts_at : option Datetime.time }.

Record Division := mk_division
  { division_id : Z;
    division_time_slot : option Datetime.time;
    division_venue_group : option Z }.

Record Team := mk_team
  { team_id : Z;
    team_division : option Division }.

Record Debate := mk_debate
  { debate_id : Z;
    debate_round : Z;
    debate_venue : option Z;
    debate_time : option Datetime.datetime }.

Record DebateTeam := mk_debateteam
  { debateteam_id : Z;
    debateteam_debate : Z;
    debateteam_team : Z;
    debateteam_position : position }.

(** [django.contrib.messages] levels. *)
Inductive level := INFO | SUCCESS | WARNING | ERROR.

Record store := mk_store
  { rounds : list Round;
    teams : list Team;
    debates : list Debate;
    debateteams : list DebateTeam;
    next_debate_id : Z;
    next_debateteam_id : Z;
    adjudicator_venue_constraints : nat;
    messages : list (level * string);
    actionlog : list (string * Z) }.

Definition set_rounds (v : list Round) (s : store) : store :=
  mk_store v (teams s) (debates s) (debateteams s) (next_debate_id s)
           (next_debateteam_id s) (adjudicator_venue_constraints s)
           (messages s) (actionlog s).

Definition set_debates (v : list Debate) (s : store) : store :=
  mk_store (rounds s) (teams s) v (debateteams s) (next_debate_id s)
           (next_debateteam_id s) (adjudicator_venue_constraints s)
           (messages s) (actionlog s).

Definition set_debateteams (v : list DebateTeam) (s : store) : store :=
  mk_store (rounds s) (teams s) (debates s) v (next_debate_id s)
           (next_debateteam_id s) (adjudicator_venue_constraints s)
           (messages s) (actionlog s).

Definition set_next_debate_id (v : Z) (s : store) : store :=
  mk_store (rounds s) (teams s) (debates s) (debateteams s) v
           (next_debateteam_id s) (adjudicator_venue_constraints s)
           (messages s) (actionlog s).

Definition set_next_debateteam_id (v : Z) (s : store) : store :=
  mk_store (rounds s) (teams s) (debates s) (debateteams s) (next_debate_id s)
           v (adjudicator_venue_constraints s) (messages s) (actionlog s).

Definition set_messages (v : list (level * string)) (s : store) : store :=
  mk_store (rounds s) (teams s) (debates s) (debateteams s) (next_debate_id s)
           (next_debateteam_id s) (adjudicator_venue_constraints s)
           v (actionlog s).

Definition set_actionlog (v : list (string * Z)) (s : store) : store :=
  mk_store (rounds s) (teams s) (debates s) (debateteams s) (next_debate_id s)
           (next_debateteam_id s) (adjudicator_venue_constraints s)
           (messages s) v.

End Models.
Import Models.

(* ====================================================================== *)
(** ** Store-passing computations that may raise *)
(* ====================================================================== *)

Inductive result (A : Type) :=
| Ok (a : A)
| Raise (e : Py.exn).
Arguments Ok {A} a.
Arguments Raise {A} e.

(** A statement sequence: from a store to an outcome and the store left
    behind.  A raise keeps the writes made before it. *)
Definition M (A : Type) := store -> result A * store.

Definition ret {A} (a : A) : M A := fun s => (Ok a, s).
Definition raise {A} (e : Py.exn) : M A := fun s => (Raise e, s).

Definition bind {A B} (c : M A) (k : A -> M B) : M B :=
  fun s =>
    match c s with
    | (Ok a, s') => k a s'
    | (Raise e, s') => (Raise e, s')
    end.

Definition lift {A} (r : result A) : M A := fun s => (r, s).
Definition modify (f : store -> store) : M unit := fun s => (Ok tt, f s).
Definition gets {A} (f : store -> A) : M A := fun s => (Ok (f s), s).

Declare Scope py_scope.
Delimit Scope py_scope with py.
Notation "x <- c ;; k" := (bind c (fun x => k))
  (at level 61, c at next level, right associativity) : py_scope.
Notation "c ;; k" := (bind c (fun _ => k))
  (at level 61, right associativity) : py_scope.
Local Open Scope py_scope.

(** [for x in l: body(x)] *)
Fixpoint for_each {A} (l : list A) (body : A -> M unit) : M unit :=
  match l with
  | [] => ret tt
  | x :: l' => body x ;; for_each l' body
  end.

(** A list comprehension whose element expression may raise. *)
Fixpoint comprehension {A B} (f : A -> result B) (l : list A) : result (list B) :=
  match l with
  | [] => Ok []
  | x :: l' =>
      match f x with
      | Raise e => Raise e
      | Ok y =>
          match comprehension f l' with
          | Raise e => Raise e
          | Ok ys => Ok (y :: ys)
          end
      end
  end.

(* ====================================================================== *)
(** ** Django: [QueryDict], the ORM calls, messages, responses *)
(* ====================================================================== *)

Module QueryDict.

(** [request.POST]: the submitted pairs in submission order. *)
Definition t := list (string * string).

Fixpoint mem (k : string) (l : list string) : bool :=
  match l with
  | [] => false
  | x :: l' => String.eqb k x || mem k l'
  end.

Fixpoint keys_from (seen : list string) (q : t) : list string :=
  match q with
  | [] => []
  | (k, _) :: q' =>
      if mem k seen then keys_from seen q' else k :: keys_from (k :: seen) q'
  end.

(** [list(q.keys())]: every key once, in order of first appearance. *)
Definition keys (q : t) : list string := keys_from [] q.

(** [q.get(k)]: the last value submitted under [k], [None] without one. *)
Fixpoint get (q : t) (k : string) : option string :=
  match q with
  | [] => None
  | (k', v) :: q' =>
      match get q' k with
      | Some v' => Some v'
      | None => if String.eqb k k' then Some v else None
      end
  end.

(** [q[k]]: as [get], but a missing key raises
    [MultiValueDictKeyError], a [KeyError]. *)
Definition getitem (q : t) (k : string) : M string :=
  match get q k with
  | Some v => ret v
  | None => raise Py.KeyError
  end.

End QueryDict.

Module ORM.

(** [Model.objects.get(id=pk)] over a table. *)
Definition get {Row} (pk_of : Row -> Z) (table : store -> list Row) (pk : Z) : M Row :=
  fun s =>
    match filter (fun r => pk_of r =? pk) (table s) with
    | [] => (Raise Py.DoesNotExist, s)
    | [r] => (Ok r, s)
    | _ => (Raise Py.MultipleObjectsReturned, s)
    end.

(** [row.save()] of an instance that has a primary key: the rows with
    that key are overwritten; without such a row it is inserted. *)
Definition update {Row} (pk_of : Row -> Z) (row : Row) (table : list Row) : list Row :=
  if existsb (fun r => pk_of r =? pk_of row) table
  then map (fun r => if pk_of r =? pk_of row then row else r) table
  else table ++ [row].

Definition Debate_get (pk : Z) : M Debate := get debate_id debates pk.
Definition Team_get (pk : Z) : M Team := get team_id teams pk.

Definition Debate_save (d : Debate) : M unit :=
  modify (fun s => set_debates (update debate_id d (debates s)) s).

Definition Round_save (r : Round) : M unit :=
  modify (fun s => set_rounds (update round_id r (rounds s)) s).

(** [DebateTeam.objects.filter(debate=d).delete()] *)
Definition DebateTeam_delete_of (d : Debate) : M unit :=
  modify (fun s =>
    set_debateteams
      (filter (fun dt => negb (debateteam_debate dt =? debate_id d)) (debateteams s)) s).

(** [d.delete()]: the rows that reference the debate go with it. *)
Definition Debate_delete (d : Debate) : M unit :=
  modify (fun s =>
    set_debates (filter (fun x => negb (debate_id x =? debate_id d)) (debates s))
      (set_debateteams
         (filter (fun dt => negb (debateteam_debate dt =? debate_id d)) (debateteams s)) s)).

(** [DebateTeam(debate=d, team=t, position=p).save()]: a row with the
    next key of the table's sequence. *)
Definition DebateTeam_create (d : Debate) (t : Team) (p : position) : M unit :=
  modify (fun s =>
    set_next_debateteam_id (next_debateteam_id s + 1)
      (set_debateteams
         (debateteams s ++ [mk_debateteam (next_debateteam_id s) (debate_id d) (team_id t) p]) s)).

(** What a name can denote where a [Round] instance is expected. *)
Inductive pyobj :=
| RoundInstance (r : Round)
| BuiltinFunction (name : string).

(** [Debate(round=r, venue=v)]: a foreign key accepts only an instance
    of the model it points to; anything else raises [ValueError].  The
    result is the round the unsaved debate belongs to. *)
Definition Debate_init (r : pyobj) (v : option Z) : M (Z * option Z) :=
  match r with
  | RoundInstance x => ret (round_id x, v)
  | BuiltinFunction _ => raise Py.ValueError
  end.

(** [d.save()] of a debate that has no key yet: inserted under the next
    key of the sequence. *)
Definition Debate_insert (fields : Z * option Z) : M Debate :=
  fun s =>
    let d := mk_debate (next_debate_id s) (fst fields) (snd fields) None in
    (Ok d, set_next_debate_id (next_debate_id s + 1)
             (set_debates (debates s ++ [d]) s)).

(** Modelled from the spec: [Debate.teams] is declared in [draw/models.py],
    which is not part of the sources at hand; the spec speaks of "the
    debate's team".  The teams are those of the debate's [DebateTeam]
    rows, in row order. *)
Definition Debate_teams (d : Debate) (s : store) : list Team :=
  flat_map (fun dt => filter (fun t => team_id t =? debateteam_team dt) (teams s))
           (filter (fun dt => debateteam_debate dt =? debate_id d) (debateteams s)).

End ORM.

Definition add_message (l : level) (text : string) : M unit :=
  modify (fun s => set_messages (messages s ++ [(l, text)]) s).

Inductive response :=
| HttpResponse (content : string)
| HttpResponseBadRequest (content : string)
| HttpResponseRedirect (view_name : string) (round : Z).

(* ====================================================================== *)
(** ** The views *)
(* ====================================================================== *)

(** What a view sees of the request: the submitted form and the round the
    URL names. *)
Record request := mk_request
  { POST : QueryDict.t;
    url_round : Z }.

Definition dq : string := String (ascii_of_nat 34) "".

Section Views.

(** Collaborators that live in other modules of the project:
    [DrawManager(round).create()], [allocate_venues(round)],
    [delete_round_draw(round)] and the [get_context_data] that
    [BaseDrawTableView] inherits. *)
Variable manager_create : Round -> M unit.
Variable allocate_venues : Round -> M unit.
Variable delete_round_draw : Round -> M unit.
Variable Context : Type.
Variable inherited_context_data : list (string * Round) -> M Context.

(** [self.get_round()] of [RoundMixin]: the round of the URL, a 404
    without one. *)
Definition get_round (req : request) : M Round :=
  fun s =>
    match find (fun r => round_id r =? url_round req) (rounds s) with
    | Some r => (Ok r, s)
    | None => (Raise Py.Http404, s)
    end.

(** [try: c except DrawError as e: ...]: the message of a [DrawError]
    raised by [c], [None] when [c] went through; any other exception
    passes. *)
Definition catch_DrawError (c : M unit) : M (option string) :=
  fun s =>
    match c s with
    | (Ok _, s') => (Ok None, s')
    | (Raise (Py.DrawError msg), s') => (Ok (Some msg), s')
    | (Raise e, s') => (Raise e, s')
    end.

(** *** Viewing the draw (public) *)

Definition BaseDrawTableView_template_name : string := "draw_display_by.html".

(** [kwargs[k] = v] *)
Fixpoint setitem {V} (k : string) (v : V) (kw : list (string * V)) : list (string * V) :=
  match kw with
  | [] => [(k, v)]
  | (k', v') :: kw' =>
      if String.eqb k k' then (k, v) :: kw' else (k', v') :: setitem k v kw'
  end.

Definition BaseDrawTableView_get_context_data (req : request)
           (kwargs : list (string * Round)) : M Context :=
  round <- get_round req ;;
  inherited_context_data (setitem "round" round kwargs).

Definition PublicDrawForRoundView_get_template_names (req : request) : M (list string) :=
  round <- get_round req ;;
  if negb (draw_status_eqb (round_draw_status round) STATUS_RELEASED) then
    add_message INFO ("The draw for " ++ round_name round ++ " has yet to be released") ;;
    ret ["base.html"]
  else
    ret [BaseDrawTableView_template_name].

Definition PublicDrawForRoundView_get_context_data (req : request)
           (kwargs : list (string * Round)) : M Context :=
  round <- get_round req ;;
  if negb (draw_status_eqb (round_draw_status round) STATUS_RELEASED) then
    round' <- get_round req ;;
    inherited_context_data (setitem "round" round' kwargs)
  else
    BaseDrawTableView_get_context_data req kwargs.

(** [PublicAllDrawsAllTournamentsView.get_context_data]: the rounds it
    puts under [all_rounds], each with its debates. *)
Definition PublicAllDrawsAllTournamentsView_all_rounds (tournament : Z) (s : store)
  : list (Round * list Debate) :=
  map (fun r => (r, filter (fun d => debate_round d =? round_id r) (debates s)))
      (filter (fun r => (round_tournament r =? tournament)
                        && draw_status_eqb (round_draw_status r) STATUS_RELEASED)
              (rounds s)).

(** *** Draw status POSTs *)

(** [DrawStatusEdit.get_redirect_url] and the [post] of
    [PostOnlyRedirectView]: a redirect to the round's draw page. *)
Definition DrawStatusEdit_post (req : request) : M response :=
  round <- get_round req ;;
  ret (HttpResponseRedirect "draw" (round_id round)).

(** [self.log_action()] *)
Definition log_action (action_log_type : string) (req : request) : M unit :=
  modify (fun s => set_actionlog (actionlog s ++ [(action_log_type, url_round req)]) s).

Definition set_draw_status (st : draw_status) (r : Round) : Round :=
  mk_round (round_id r) (round_name r) (round_tournament r) st (round_starts_at r).

Definition set_starts_at (t : option Datetime.time) (r : Round) : Round :=
  mk_round (round_id r) (round_name r) (round_tournament r) (round_draw_status r) t.

Definition CreateDrawView_post (req : request) : M response :=
  round <- get_round req ;;
  if negb (draw_status_eqb (round_draw_status round) STATUS_NONE) then
    add_message ERROR ("Could not create draw for " ++ round_name round
                       ++ ", there was already a draw!") ;;
    DrawStatusEdit_post req
  else
    failure <- catch_DrawError (manager_create round) ;;
    match failure with
    | Some e =>
        add_message ERROR ("There was a problem creating the draw: " ++ e
                           ++ " If this issue persists, please contact the developers.") ;;
        ret (HttpResponseRedirect "availability_index" (round_id round))
    | None =>
        n <- gets adjudicator_venue_constraints ;;
        (if Nat.eqb n 0 then allocate_venues round
         else add_message WARNING
                ("Venues were not auto-allocated because there are one or more adjudicator venue constraints. "
                 ++ "You should run venue allocations after allocating adjudicators.")) ;;
        log_action "ACTION_TYPE_DRAW_CREATE" req ;;
        DrawStatusEdit_post req
    end.

Definition ConfirmDrawCreationView_post (req : request) : M response :=
  round <- get_round req ;;
  if negb (draw_status_eqb (round_draw_status round) STATUS_DRAFT) then
    ret (HttpResponseBadRequest "Draw status is not DRAFT")
  else
    ORM.Round_save (set_draw_status STATUS_CONFIRMED round) ;;
    DrawStatusEdit_post req.

Definition DrawRegenerateView_post (req : request) : M response :=
  round <- get_round req ;;
  delete_round_draw round ;;
  DrawStatusEdit_post req.

Definition DrawReleaseView_post (req : request) : M response :=
  round <- get_round req ;;
  if negb (draw_status_eqb (round_draw_status round) STATUS_CONFIRMED) then
    ret (HttpResponseBadRequest "Draw status is not CONFIRMED")
  else
    ORM.Round_save (set_draw_status STATUS_RELEASED round) ;;
    DrawStatusEdit_post req.

Definition DrawUnreleaseView_post (req : request) : M response :=
  round <- get_round req ;;
  if negb (draw_status_eqb (round_draw_status round) STATUS_RELEASED) then
    ret (HttpResponseBadRequest "Draw status is not RELEASED")
  else
    ORM.Round_save (set_draw_status STATUS_CONFIRMED round) ;;
    DrawStatusEdit_post req.

Definition SetRoundStartTimeView_post (req : request) : M response :=
  time_text <- QueryDict.getitem (POST req) "start_time" ;;
  match Datetime.strptime time_text "%H:%M" with
  | None =>
      add_message ERROR ("Sorry, " ++ dq ++ time_text ++ dq
                         ++ " isn't a valid time. It must "
                         ++ "be in 24-hour format, with a colon, for "
                         ++ "example: " ++ dq ++ "13:57" ++ dq ++ ".") ;;
      DrawStatusEdit_post req
  | Some parsed =>
      round <- get_round req ;;
      ORM.Round_save (set_starts_at (Some (Datetime.dt_time parsed)) round) ;;
      log_action "ACTION_TYPE_ROUND_START_TIME_SET" req ;;
      DrawStatusEdit_post req
  end.

(** *** Scheduling *)

Definition set_debate_time (t : Datetime.datetime) (d : Debate) : Debate :=
  mk_debate (debate_id d) (debate_round d) (debate_venue d) (Some t).

(** The two [strptime] calls of [ApplyDebateScheduleView.post]: the second
    one runs in the handler of the first one's [ValueError], and its own
    [ValueError] is not caught. *)
Definition parse_schedule_time (time : string) : M Datetime.datetime :=
  match Datetime.strptime time "%Y-%m-%d %H:%M:%S" with
  | Some t => ret t
  | None =>
      match Datetime.strptime time "%d/%m/%Y %H:%M:%S" with
      | Some t => ret t
      | None => raise Py.ValueError
      end
  end.

(** The body of the loop over the round's debates.  A [Division] and a
    [time] are true whatever they hold, [None] is false. *)
Definition schedule_debate (req : request) (debate : Debate) : M unit :=
  teams <- gets (ORM.Debate_teams debate) ;;
  match teams with
  | [] => raise Py.IndexError
  | team0 :: _ =>
      match team_division team0 with
      | None => ret tt
      | Some division =>
          match division_time_slot division with
          | None => ret tt
          | Some time_slot =>
              match division_venue_group division with
              | None => raise Py.AttributeError
              | Some venue_group_id =>
                  date <- QueryDict.getitem (POST req) (Py.str_of_int venue_group_id) ;;
                  if Py.truthy date then
                    t <- parse_schedule_time (date ++ " " ++ Datetime.str_of_time time_slot) ;;
                    ORM.Debate_save (set_debate_time t debate)
                  else ret tt
              end
          end
      end
  end.

Definition ApplyDebateScheduleView_post (req : request) : M response :=
  round <- get_round req ;;
  debates <- gets (fun s => filter (fun d => debate_round d =? round_id round) (debates s)) ;;
  for_each debates (schedule_debate req) ;;
  add_message SUCCESS "Applied schedules to debates" ;;
  DrawStatusEdit_post req.

(** *** Saving edited matchups *)

(** [[int(a.replace(prefix, '')) for a in list(request.POST.keys())
      if a.startswith(prefix)]] *)
Definition ids_with_prefix (prefix : string) (q : QueryDict.t) : result (list Z) :=
  comprehension
    (fun a => match Py.int_of_str (Py.replace a prefix "") with
              | Some n => Ok n
              | None => Raise Py.ValueError
              end)
    (filter (fun a => Py.startswith a prefix) (QueryDict.keys q)).

(** [request.POST.get(side + '%s' % debate_id).replace('team_', '')];
    [None] has no [replace]. *)
Definition submitted_team (q : QueryDict.t) (side : string) (debate_id : Z) : M string :=
  match QueryDict.get q (side ++ Py.str_of_int debate_id) with
  | Some v => ret (Py.replace v "team_" "")
  | None => raise Py.AttributeError
  end.

(** [Team.objects.get(id=int(text))] *)
Definition team_of_text (text : string) : M Team :=
  match Py.int_of_str text with
  | Some n => ORM.Team_get n
  | None => raise Py.ValueError
  end.

(** The body of the first loop of [SaveDrawMatchups.post]. *)
Definition edit_existing_debate (q : QueryDict.t) (debate_id : Z) : M unit :=
  debate <- ORM.Debate_get debate_id ;;
  new_aff_id <- submitted_team q "aff_" debate_id ;;
  new_neg_id <- submitted_team q "neg_" debate_id ;;
  if Py.truthy new_aff_id && Py.truthy new_neg_id then
    ORM.DebateTeam_delete_of debate ;;
    ORM.Debate_save debate ;;
    new_aff_team <- team_of_text new_aff_id ;;
    ORM.DebateTeam_create debate new_aff_team POSITION_AFFIRMATIVE ;;
    new_aff_team <- team_of_text new_neg_id ;;
    ORM.DebateTeam_create debate new_aff_team POSITION_NEGATIVE
  else
    ORM.Debate_delete debate.

(** The body of the second loop; [round] is what the name [round]
    denotes there. *)
Definition add_new_debate (round : ORM.pyobj) (q : QueryDict.t) (debate_id : Z) : M unit :=
  new_aff_id <- submitted_team q "aff_" debate_id ;;
  new_neg_id <- submitted_team q "neg_" debate_id ;;
  if Py.truthy new_aff_id && Py.truthy new_neg_id then
    fields <- ORM.Debate_init round None ;;
    debate <- ORM.Debate_insert fields ;;
    aff_team <- team_of_text new_aff_id ;;
    neg_team <- team_of_text new_neg_id ;;
    ORM.DebateTeam_create debate aff_team POSITION_AFFIRMATIVE ;;
    ORM.DebateTeam_create debate neg_team POSITION_NEGATIVE
  else
    ret tt.

Definition SaveDrawMatchups_post_with (round : ORM.pyobj) (req : request) : M response :=
  existing_debate_ids <- lift (ids_with_prefix "debate_" (POST req)) ;;
  for_each existing_debate_ids (edit_existing_debate (POST req)) ;;
  new_debate_ids <- lift (ids_with_prefix "new_debate_" (POST req)) ;;
  for_each new_debate_ids (add_new_debate round (POST req)) ;;
  ret (HttpResponse "ok").

(** [SaveDrawMatchups.post] assigns no local [round] and the module
    defines none (it imports the class [Round]), so the name in
    [Debate(round=round, venue=None)] is the built-in function. *)
Definition SaveDrawMatchups_post (req : request) : M response :=
  SaveDrawMatchups_post_with (ORM.BuiltinFunction "round") req.

End Views.

(* ====================================================================== *)
(** ** Properties of a store *)
(* ====================================================================== *)

(** The [DebateTeam] rows attached to debate [d]. *)
Definition debateteams_of (s : store) (d : Z) : list DebateTeam :=
  filter (fun dt => debateteam_debate dt =? d) (debateteams s).

Definition debate_exists (s : store) (d : Z) : bool :=
  existsb (fun x => debate_id x =? d) (debates s).

Definition team_exists (s : store) (t : Z) : bool :=
  existsb (fun x => team_id x =? t) (teams s).

(** The round of debate [d], when there is such a debate. *)
Definition round_of (s : store) (d : Z) : option Z :=
  option_map debate_round (find (fun x => debate_id x =? d) (debates s)).

(** At most one [DebateTeam] per debate and position. *)
Definition one_per_position (s : store) : Prop :=
  forall (d : Z) (p : position),
    (List.length (filter (fun dt => Z.eqb (debateteam_debate dt) d
                                    && position_eqb (debateteam_position dt) p)
                         (debateteams s)) <= 1)%nat.

(** A team appears in at most one debate of a round. *)
Definition team_in_one_debate (s : store) : Prop :=
  forall dt1 dt2 r,
    In dt1 (debateteams s) -> In dt2 (debateteams s) ->
    debateteam_team dt1 = debateteam_team dt2 ->
    round_of s (debateteam_debate dt1) = Some r ->
    round_of s (debateteam_debate dt2) = Some r ->
    debateteam_debate dt1 = debateteam_debate dt2.

(** The team identifiers an existing-debate entry asks for, once both
    parse. *)
Definition requested_teams (q : QueryDict.t) (d : Z) : list Z :=
  match QueryDict.get q ("aff_" ++ Py.str_of_int d),
        QueryDict.get q ("neg_" ++ Py.str_of_int d) with
  | Some a, Some n =>
      match Py.int_of_str (Py.replace a "team_" ""),
            Py.int_of_str (Py.replace n "team_" "") with
      | Some ta, Some tn => [ta; tn]
      | _, _ => []
      end
  | _, _ => []
  end.

(** Every round of the store put in draw status [st]. *)
Definition with_draw_status (st : draw_status) (s : store) : store :=
  set_rounds (map (set_draw_status st) (rounds s)) s.

(* ====================================================================== *)
(** ** Sample data *)
(* ====================================================================== *)

Module Sample.

Definition slot : Datetime.time := Datetime.mk_time 14 30 0 0.
Definition division_a : Division := mk_division 1 (Some slot) (Some 7).
Definition division_b : Division := mk_division 2 None (Some 8).

Definition round_none : Round := mk_round 1 "Round 1" 1 STATUS_NONE None.
Definition round_draft : Round := mk_round 2 "Round 2" 1 STATUS_DRAFT None.
Definition round_confirmed : Round := mk_round 3 "Round 3" 1 STATUS_CONFIRMED None.
Definition round_released : Round := mk_round 4 "Round 4" 1 STATUS_RELEASED None.

(** Two debates in round 2: team 1 against team 2, team 3 against team 4.
    One debate in round 3, between teams 5 and 6 that have no division. *)
Definition store0 : store :=
  mk_store
    [round_none; round_draft; round_confirmed; round_released]
    [mk_team 1 (Some division_a); mk_team 2 (Some division_a);
     mk_team 3 (Some division_a); mk_team 4 (Some division_a);
     mk_team 5 None; mk_team 6 (Some division_b)]
    [mk_debate 1 2 None None; mk_debate 2 2 None None; mk_debate 3 3 None None]
    [mk_debateteam 1 1 1 POSITION_AFFIRMATIVE; mk_debateteam 2 1 2 POSITION_NEGATIVE;
     mk_debateteam 3 2 3 POSITION_AFFIRMATIVE; mk_debateteam 4 2 4 POSITION_NEGATIVE;
     mk_debateteam 5 3 5 POSITION_AFFIRMATIVE; mk_debateteam 6 3 6 POSITION_NEGATIVE]
    4 7 0 [] [].

Definition on_round (r : Z) (q : QueryDict.t) : request := mk_request q r.

(** Debate 1 gets teams 3 and 4, debate 2 is left with a blank side. *)
Definition swap_and_drop : QueryDict.t :=
  [("debate_1", ""); ("aff_1", "team_3"); ("neg_1", "team_4");
   ("debate_2", ""); ("aff_2", "team_1"); ("neg_2", "")].

(** Team 1 is asked for in debate 1 and in debate 2. *)
Definition team_twice : QueryDict.t :=
  [("debate_1", ""); ("aff_1", "team_1"); ("neg_1", "team_2");
   ("debate_2", ""); ("aff_2", "team_1"); ("neg_2", "team_3")].

(** The negative team of debate 1 is no team of the tournament. *)
Definition unknown_negative : QueryDict.t :=
  [("debate_1", ""); ("aff_1", "team_3"); ("neg_1", "team_99")].

(** One new debate, both sides filled in. *)
Definition one_new_debate : QueryDict.t :=
  [("new_debate_1", ""); ("aff_1", "team_5"); ("neg_1", "team_6")].

End Sample.

(* ====================================================================== *)
(** ** Stores and conditions the statements speak of *)
(* ====================================================================== *)

(** The rejection of [CreateDrawView.post]: the store it leaves is the
    store it found plus one error message. *)
Definition already_a_draw (round : Round) (s : store) : store :=
  set_messages
    (messages s ++ [(ERROR, "Could not create draw for " ++ round_name round
                            ++ ", there was already a draw!")]) s.

(** The store after the notice of an unreleased draw was queued. *)
Definition not_yet_released (round : Round) (s : store) : store :=
  set_messages
    (messages s ++ [(INFO, "The draw for " ++ round_name round
                           ++ " has yet to be released")]) s.

(** The store after the complaint about a start time was queued. *)
Definition invalid_time (time_text : string) (s : store) : store :=
  set_messages
    (messages s ++ [(ERROR, "Sorry, " ++ dq ++ time_text ++ dq
                            ++ " isn't a valid time. It must "
                            ++ "be in 24-hour format, with a colon, for "
                            ++ "example: " ++ dq ++ "13:57" ++ dq ++ ".")]) s.

(** The store after a start time was saved and logged. *)
Definition start_time_saved (req : request) (t : Datetime.time) (round : Round)
           (s : store) : store :=
  set_actionlog (actionlog s ++ [("ACTION_TYPE_ROUND_START_TIME_SET", url_round req)])
    (set_rounds (ORM.update round_id (set_starts_at (Some t) round) (rounds s)) s).

Module ScheduleSample.

Definition march_15 : Datetime.datetime :=
  Datetime.mk_datetime 2024 3 15 (Datetime.mk_time 14 30 0 0).

(** [Sample.store0] with both debates of round 2 at [march_15]. *)
Definition scheduled : store :=
  set_messages [(SUCCESS, "Applied schedules to debates")]
    (set_debates
       [mk_debate 1 2 None (Some march_15); mk_debate 2 2 None (Some march_15);
        mk_debate 3 3 None None]
       Sample.store0).

End ScheduleSample.

(** What makes the loop pass over a debate: its first team has no
    division, or the division has no time slot, or the date submitted for
    the division's venue group is the empty string. *)
Definition passed_over (req : request) (s : store) (d : Debate) : Prop :=
  exists team0 others,
    ORM.Debate_teams d s = team0 :: others
    /\ (team_division team0 = None
        \/ (exists dv, team_division team0 = Some dv /\ division_time_slot dv = None)
        \/ (exists dv slot g,
               team_division team0 = Some dv
               /\ division_time_slot dv = Some slot
               /\ division_venue_group dv = Some g
               /\ QueryDict.get (POST req) (Py.str_of_int g) = Some "")).

(** What a successful turn of the first loop did, read off the code. *)
Definition existing_entry_effect (q : QueryDict.t) (d : Z) (s s' : store) : Prop :=
  exists a n,
    QueryDict.get q ("aff_" ++ Py.str_of_int d) = Some a
    /\ QueryDict.get q ("neg_" ++ Py.str_of_int d) = Some n
    /\ debate_exists s d = true
    /\ rounds s' = rounds s /\ teams s' = teams s
    /\ next_debate_id s' = next_debate_id s
    /\ if Py.truthy (Py.replace a "team_" "") && Py.truthy (Py.replace n "team_" "")
       then exists ta tn,
           Py.int_of_str (Py.replace a "team_" "") = Some ta
           /\ Py.int_of_str (Py.replace n "team_" "") = Some tn
           /\ team_exists s ta = true /\ team_exists s tn = true
           /\ debates s' = debates s
           /\ debateteams s'
              = (filter (fun dt => negb (debateteam_debate dt =? d)) (debateteams s)
                 ++ [mk_debateteam (next_debateteam_id s) d ta POSITION_AFFIRMATIVE;
                     mk_debateteam (next_debateteam_id s + 1) d tn POSITION_NEGATIVE])%list
           /\ next_debateteam_id s' = next_debateteam_id s + 2
       else debates s' = filter (fun x => negb (debate_id x =? d)) (debates s)
            /\ debateteams s'
               = filter (fun dt => negb (debateteam_debate dt =? d)) (debateteams s)
            /\ next_debateteam_id s' = next_debateteam_id s.

(** What the claim asks of an existing-debate entry in the store [s'] the
    request leaves.  Both sides given: the debate is there and its rows
    are exactly two, an affirmative one and a negative one for the teams
    asked for, numbered from [lo] on.  A side blank: the debate and its
    rows are gone. *)
Definition existing_entry_applied (q : QueryDict.t) (lo : Z) (s' : store) (d : Z) : Prop :=
  exists a n,
    QueryDict.get q ("aff_" ++ Py.str_of_int d) = Some a
    /\ QueryDict.get q ("neg_" ++ Py.str_of_int d) = Some n
    /\ if Py.truthy (Py.replace a "team_" "") && Py.truthy (Py.replace n "team_" "")
       then exists ta tn i j,
           Py.int_of_str (Py.replace a "team_" "") = Some ta
           /\ Py.int_of_str (Py.replace n "team_" "") = Some tn
           /\ team_exists s' ta = true /\ team_exists s' tn = true
           /\ lo <= i /\ i < j
           /\ debate_exists s' d = true
           /\ debateteams_of s' d
              = [mk_debateteam i d ta POSITION_AFFIRMATIVE;
                 mk_debateteam j d tn POSITION_NEGATIVE]
       else debate_exists s' d = false /\ debateteams_of s' d = [].

(** A computation that neither reads nor writes the table of rounds: run
    on a store with other rounds, it answers the same and leaves the same
    store but for those rounds. *)
Definition ignores_rounds {A} (c : M A) : Prop :=
  forall v s, c (set_rounds v s) = (fst (c s), set_rounds v (snd (c s))).

(** Where the rows of a store come from while the first loop runs from
    [s0]: a row is a row of [s0] whose debate had no turn yet, or a row of
    a debate that had its turn, for a team the entry asks for. *)
Definition rows_accounted (q : QueryDict.t) (s0 : store) (done : Z -> Prop) (s : store) : Prop :=
  forall dt,
    In dt (debateteams s) ->
    (In dt (debateteams s0) /\ ~ done (debateteam_debate dt))
    \/ (done (debateteam_debate dt)
        /\ In (debateteam_team dt) (requested_teams q (debateteam_debate dt))).

(** The draw that [BaseDrawTableView.get_table] hands to the table
    builder: the debates of the round of the URL, each with the teams of
    its rows and their positions.  [debate_set_with_prefetches] and the
    table builder live in other modules; the columns are not modelled. *)
Definition BaseDrawTableView_get_table (req : request)
  : M (list (Z * list (Z * position))) :=
  round <- get_round req ;;
  gets (fun s =>
          map (fun d => (debate_id d,
                         map (fun dt => (debateteam_team dt, debateteam_position dt))
                             (debateteams_of s d.(debate_id))))
              (filter (fun d => debate_round d =? round_id round) (debates s))).

(** An inherited [get_context_data] that uses [get_table] as the method
    is meant to be used: the table goes into the context beside the
    keyword arguments. *)
Definition table_in_context (req : request) (kwargs : list (string * Round))
  : M (list (string * Round) * list (Z * list (Z * position))) :=
  table <- BaseDrawTableView_get_table req ;;
  ret (kwargs, table).

(* ====================================================================== *)
(** ** The other views of the module *)
(* ====================================================================== *)

(** The character U+2014 of [TPA_MAP] and of the admin warning, as the
    three bytes of its UTF-8 form. *)
Definition em_dash : string :=
  String (ascii_of_nat 226) (String (ascii_of_nat 128) (String (ascii_of_nat 148) "")).

(** [t.strftime('%H:%M')] *)
Definition strftime_HM (t : Datetime.time) : string :=
  Datetime.two_digits (Datetime.hour t) ++ ":" ++ Datetime.two_digits (Datetime.minute t).

(** [BaseDrawTableView.get_page_title] *)
Definition BaseDrawTableView_get_page_title (req : request) : M string :=
  round <- get_round req ;;
  ret ("Draw for " ++ round_name round).

(** [BaseDrawTableView.get_page_subtitle]; a [time] is true, [None] is
    false. *)
Definition BaseDrawTableView_get_page_subtitle (req : request) : M string :=
  round <- get_round req ;;
  match round_starts_at round with
  | Some t => ret ("debates start at " ++ strftime_HM t)
  | None => ret ""
  end.

(** [AdminDrawDisplayForRoundByTeamView.populate_table]: the doubled draw
    it hands on, and the teams it puts in the [Team] column.  [aff_team]
    and [neg_team] are the properties of [Debate] of those names. *)
Section ByTeam.

Variable TeamObject : Type.
Variable aff_team neg_team : Debate -> TeamObject.

Definition AdminDrawDisplayForRoundByTeamView_populate_table (draw : list Debate)
  : list Debate * list TeamObject :=
  let draw := (draw ++ draw)%list in
  let draw_slice := (List.length draw / 2)%nat in
  (draw, (map aff_team (firstn draw_slice draw) ++ map neg_team (skipn draw_slice draw))%list).

End ByTeam.

(** [AdminDrawView.get_template_names]: the page title it sets and the
    templates it returns.  The four statuses are all there is, so the
    closing [raise] has no case. *)
Definition AdminDrawView_get_template_names (detailed : bool) (req : request)
  : M (string * list string) :=
  round <- get_round req ;;
  if detailed then
    ret ("Draw with Details for " ++ round_name round, ["draw_base.html"])
  else
    match round_draw_status round with
    | STATUS_NONE =>
        add_message WARNING ("No draw exists yet " ++ em_dash ++ " go to the "
                             ++ "check-ins section for this round to generate a draw.") ;;
        ret ("No draw for " ++ round_name round, ["base.html"])
    | STATUS_DRAFT =>
        ret ("Draft draw for " ++ round_name round, ["draw_status_draft.html"])
    | STATUS_CONFIRMED =>
        ret ("Draw for " ++ round_name round, ["draw_status_confirmed.html"])
    | STATUS_RELEASED =>
        ret ("Released draw for " ++ round_name round, ["draw_status_confirmed.html"])
    end.

(** [DrawMatchupsEditView.get_context_data]: the list under
    [possible_debates], one [None] per blank slot of the edit form. *)
Definition DrawMatchupsEditView_possible_debates (unused_teams : list Team)
  : list (option unit) :=
  repeat None (List.length unused_teams / 2 + 1)%nat.

(** *** Side pre-allocations *)

(** What [BaseSideAllocationsView.get_table] reads of a round. *)
Record RoundRef := mk_round_ref
  { ref_id : Z;
    ref_seq : Z;
    ref_abbreviation : string }.

Record TeamPositionAllocation := mk_tpa
  { tpa_team : Z;
    tpa_round : RoundRef;
    tpa_position : option position }.

(** [TPA_MAP[p]]: the dictionary has the two positions and [None] as
    its keys. *)
Definition TPA_MAP (p : option position) : string :=
  match p with
  | Some POSITION_AFFIRMATIVE => "Aff"
  | Some POSITION_NEGATIVE => "Neg"
  | None => em_dash
  end.

Definition key_eqb (a b : Z * Z) : bool := (fst a =? fst b) && (snd a =? snd b).

(** [d[k] = v] on a [dict] with pairs of integers as keys: a key that is
    there keeps its place. *)
Fixpoint dict_set (k : Z * Z) (v : string) (d : list ((Z * Z) * string))
  : list ((Z * Z) * string) :=
  match d with
  | [] => [(k, v)]
  | (k', v') :: d' =>
      if key_eqb k k' then (k, v) :: d' else (k', v') :: dict_set k v d'
  end.

(** [d.get(k, default)] *)
Fixpoint dict_get (d : list ((Z * Z) * string)) (k : Z * Z) (default : string) : string :=
  match d with
  | [] => default
  | (k', v) :: d' => if key_eqb k k' then v else dict_get d' k default
  end.

(** The headers and the rows of cells of
    [BaseSideAllocationsView.get_table], from the tournament's teams, its
    preliminary rounds and the table of allocations. *)
Definition BaseSideAllocationsView_get_table (teams : list Team) (rounds : list RoundRef)
           (allocations : list TeamPositionAllocation)
  : list string * list (list string) :=
  let tpas :=
    fold_left
      (fun tpas tpa =>
         dict_set (tpa_team tpa, ref_seq (tpa_round tpa)) (TPA_MAP (tpa_position tpa)) tpas)
      (filter (fun tpa => existsb (fun r => ref_id r =? ref_id (tpa_round tpa)) rounds)
              allocations)
      [] in
  (map ref_abbreviation rounds,
   map (fun team => map (fun round => dict_get tpas (team_id team, ref_id round) em_dash)
                        rounds)
       teams).

(* ====================================================================== *)
(** ** Further conditions the statements speak of *)
(* ====================================================================== *)

(** A status command: the guard status, the status it writes and the
    text of its refusal. *)
Definition status_command (guard target : draw_status) (refusal : string)
           (req : request) : M response :=
  round <- get_round req ;;
  if negb (draw_status_eqb (round_draw_status round) guard) then
    ret (HttpResponseBadRequest refusal)
  else
    ORM.Round_save (set_draw_status target round) ;;
    DrawStatusEdit_post req.

(** What the body of the scheduling loop decides for a debate before it
    writes: the time to store, nothing to store, or the exception. *)
Definition planned_time (req : request) (s : store) (d : Debate)
  : result (option Datetime.datetime) :=
  match ORM.Debate_teams d s with
  | [] => Raise Py.IndexError
  | team0 :: _ =>
      match team_division team0 with
      | None => Ok None
      | Some division =>
          match division_time_slot division with
          | None => Ok None
          | Some time_slot =>
              match division_venue_group division with
              | None => Raise Py.AttributeError
              | Some g =>
                  match QueryDict.get (POST req) (Py.str_of_int g) with
                  | None => Raise Py.KeyError
                  | Some date =>
                      if Py.truthy date then
                        let time := date ++ " " ++ Datetime.str_of_time time_slot in
                        match Datetime.strptime time "%Y-%m-%d %H:%M:%S" with
                        | Some t => Ok (Some t)
                        | None =>
                            match Datetime.strptime time "%d/%m/%Y %H:%M:%S" with
                            | Some t => Ok (Some t)
                            | None => Raise Py.ValueError
                            end
                        end
                      else Ok None
                  end
              end
          end
      end
  end.

(** A row of the debates table after the round [rid] was scheduled. *)
Definition scheduled_row (req : request) (s : store) (rid : Z) (d : Debate) : Debate :=
  if debate_round d =? rid then
    match planned_time req s d with
    | Ok (Some t) => set_debate_time t d
    | _ => d
    end
  else d.

(** A row of the debates table after the loop went through the debates
    [done]. *)
Definition scheduled_among (req : request) (s : store) (done : list Debate) (d : Debate)
  : Debate :=
  if existsb (fun x => debate_id x =? debate_id d) done then
    match planned_time req s d with
    | Ok (Some t) => set_debate_time t d
    | _ => d
    end
  else d.

(** An existing-debate entry with both team fields filled in. *)
Definition entry_complete (q : QueryDict.t) (d : Z) : bool :=
  match QueryDict.get q ("aff_" ++ Py.str_of_int d),
        QueryDict.get q ("neg_" ++ Py.str_of_int d) with
  | Some a, Some n =>
      Py.truthy (Py.replace a "team_" "") && Py.truthy (Py.replace n "team_" "")
  | _, _ => false
  end.

(** The stores [s] and [s'] differ at most in the debates [ids] and
    their rows, in the counters and in the messages. *)
Definition untouched_outside (ids : list Z) (s s' : store) : Prop :=
  rounds s' = rounds s /\ teams s' = teams s
  /\ forall d, ~ In d ids ->
       debateteams_of s' d = debateteams_of s d
       /\ debate_exists s' d = debate_exists s d.

(** A computation between whose start and end [R] holds, whatever the
    outcome. *)
Definition keeps (R : store -> store -> Prop) {A} (c : M A) : Prop :=
  forall s r s', c s = (r, s') -> R s s'.

(** Two stores with the same debates, the same teams and the same next
    debate key. *)
Definition same_debates_and_teams (s1 s2 : store) : Prop :=
  debates s1 = debates s2 /\ teams s1 = teams s2
  /\ next_debate_id s1 = next_debate_id s2.

(** A computation whose outcome, and whose effect on debates and teams,
    depend on the store through its debates and its teams only. *)
Definition reads_debates_and_teams {A} (c : M A) : Prop :=
  forall s1 s2,
    same_debates_and_teams s1 s2 ->
    fst (c s1) = fst (c s2) /\ same_debates_and_teams (snd (c s1)) (snd (c s2)).

(** What a row says, apart from its key. *)
Definition pairing (dt : DebateTeam) : Z * Z * position :=
  (debateteam_debate dt, debateteam_team dt, debateteam_position dt).

(* ====================================================================== *)
(** ** Evaluating the built-ins *)
(* ====================================================================== *)

Example replace_team : Py.replace "team_12" "team_" "" = "12".
Proof. reflexivity. Qed.
Example replace_twice : Py.replace "debate_debate_7" "debate_" "" = "7".
Proof. reflexivity. Qed.
Example replace_nested : Py.replace "teteam_am_5" "team_" "" = "team_5".
Proof. reflexivity. Qed.
Example int_plain : Py.int_of_str "042" = Some 42.
Proof. reflexivity. Qed.
Example int_neg : Py.int_of_str " -7 " = Some (-7).
Proof. reflexivity. Qed.
Example int_bad : Py.int_of_str "x" = None.
Proof. reflexivity. Qed.
Example int_empty : Py.int_of_str "" = None.
Proof. reflexivity. Qed.
Example int_tab : Py.int_of_str (String (ascii_of_nat 9) "3") = Some 3.
Proof. reflexivity. Qed.
Example int_separator : Py.int_of_str (String (ascii_of_nat 28) "3") = None.
Proof. reflexivity. Qed.
Example str_int : Py.str_of_int 15 = "15" /\ Py.str_of_int (-3) = "-3" /\ Py.str_of_int 0 = "0".
Proof. repeat split. Qed.
Example strptime_iso :
  Datetime.strptime "2024-03-15 14:30:00" "%Y-%m-%d %H:%M:%S"
  = Some (Datetime.mk_datetime 2024 3 15 (Datetime.mk_time 14 30 0 0)).
Proof. reflexivity. Qed.
Example strptime_short :
  Datetime.strptime "2024-3-5   1:2:3" "%Y-%m-%d %H:%M:%S"
  = Some (Datetime.mk_datetime 2024 3 5 (Datetime.mk_time 1 2 3 0)).
Proof. reflexivity. Qed.
Example strptime_feb30 :
  Datetime.strptime "2024-02-30 14:30:00" "%Y-%m-%d %H:%M:%S" = None.
Proof. reflexivity. Qed.
Example strptime_hm :
  Datetime.strptime "13:57" "%H:%M"
  = Some (Datetime.mk_datetime 1900 1 1 (Datetime.mk_time 13 57 0 0)).
Proof. reflexivity. Qed.
Example strptime_hm_bad : Datetime.strptime "25:99" "%H:%M" = None.
Proof. reflexivity. Qed.
Example strptime_hm_trail : Datetime.strptime "13:570" "%H:%M" = None.
Proof. reflexivity. Qed.
Example str_time : Datetime.str_of_time (Datetime.mk_time 14 30 0 0) = "14:30:00"
  /\ Datetime.str_of_time (Datetime.mk_time 9 5 7 1200) = "09:05:07.001200".
Proof. split; reflexivity. Qed.

(* ====================================================================== *)
(** ** The draw status commands *)
(* ====================================================================== *)

Section Lifecycle.

Variable manager_create : Round -> M unit.
Variable allocate_venues : Round -> M unit.

Lemma get_round_found req s round :
  find (fun r => round_id r =? url_round req) (rounds s) = Some round ->
  get_round req s = (Ok round, s).
Proof. intros H. unfold get_round. rewrite H. reflexivity. Qed.

Lemma get_round_messages req s v :
  get_round req (set_messages v s)
  = (fst (get_round req s), set_messages v (snd (get_round req s))).
Proof. unfold get_round; simpl. destruct (find _ (rounds s)); reflexivity. Qed.

Lemma draw_status_eqb_eq a b : draw_status_eqb a b = true <-> a = b.
Proof. destruct a, b; simpl; split; intros H; try reflexivity; discriminate. Qed.

Lemma draw_status_eqb_neq a b : a <> b -> draw_status_eqb a b = false.
Proof.
  intros H. destruct (draw_status_eqb a b) eqn:E; [|reflexivity].
  apply draw_status_eqb_eq in E. contradiction.
Qed.

(** C5: a lifecycle command whose guard fails is rejected and writes
    nothing.  Confirm outside DRAFT, release outside CONFIRMED and
    unrelease outside RELEASED answer with a bad-request response and
    leave the store as it was; create outside NONE queues the error
    message that a draw already exists and redirects, with rounds,
    debates and debate teams untouched and without the pairing generator
    or the venue allocator having any say in the outcome. *)
Theorem C5_guard_failure_rejected req s round :
  find (fun r => round_id r =? url_round req) (rounds s) = Some round ->
  (round_draw_status round <> STATUS_DRAFT ->
     ConfirmDrawCreationView_post req s
     = (Ok (HttpResponseBadRequest "Draw status is not DRAFT"), s))
  /\ (round_draw_status round <> STATUS_CONFIRMED ->
     DrawReleaseView_post req s
     = (Ok (HttpResponseBadRequest "Draw status is not CONFIRMED"), s))
  /\ (round_draw_status round <> STATUS_RELEASED ->
     DrawUnreleaseView_post req s
     = (Ok (HttpResponseBadRequest "Draw status is not RELEASED"), s))
  /\ (round_draw_status round <> STATUS_NONE ->
     CreateDrawView_post manager_create allocate_venues req s
     = (Ok (HttpResponseRedirect "draw" (round_id round)), already_a_draw round s)
     /\ rounds (already_a_draw round s) = rounds s
     /\ debates (already_a_draw round s) = debates s
     /\ debateteams (already_a_draw round s) = debateteams s).
Proof.
  intros Hfind. pose proof (@get_round_found req s round Hfind) as Hget.
  repeat split; try reflexivity.
  - intros Hst. unfold ConfirmDrawCreationView_post, bind. rewrite Hget.
    rewrite (draw_status_eqb_neq Hst). reflexivity.
  - intros Hst. unfold DrawReleaseView_post, bind. rewrite Hget.
    rewrite (draw_status_eqb_neq Hst). reflexivity.
  - intros Hst. unfold DrawUnreleaseView_post, bind. rewrite Hget.
    rewrite (draw_status_eqb_neq Hst). reflexivity.
  - unfold CreateDrawView_post, bind. rewrite Hget.
    rewrite (draw_status_eqb_neq H). simpl.
    unfold DrawStatusEdit_post, bind, already_a_draw.
    rewrite get_round_messages, Hget. reflexivity.
Qed.

(** When the guard holds the command goes through: the three status
    flips write the new status and redirect to the draw page. *)
Lemma confirm_from_draft req s round :
  find (fun r => round_id r =? url_round req) (rounds s) = Some round ->
  round_draw_status round = STATUS_DRAFT ->
  exists s',
    ConfirmDrawCreationView_post req s = (Ok (HttpResponseRedirect "draw" (round_id round)), s')
    /\ rounds s' = ORM.update round_id (set_draw_status STATUS_CONFIRMED round) (rounds s).
Proof.
  intros Hfind Hst. unfold ConfirmDrawCreationView_post, bind.
  rewrite (@get_round_found req s round Hfind), Hst. simpl.
  unfold DrawStatusEdit_post, bind, get_round. simpl.
  assert (Hex : existsb (fun r => round_id r =? round_id round) (rounds s) = true).
  { apply existsb_exists. exists round. apply find_some in Hfind. split; [tauto|].
    apply Z.eqb_refl. }
  assert (Hid : round_id round = url_round req).
  { apply find_some in Hfind. destruct Hfind as [_ H]. now apply Z.eqb_eq in H. }
  unfold ORM.Round_save, modify, ORM.update. simpl. rewrite Hex. simpl.
  rewrite <- Hid.
  assert (Hf : forall l, existsb (fun r => round_id r =? round_id round) l = true ->
     find (fun r => round_id r =? round_id round)
          (map (fun r => if round_id r =? round_id round
                         then set_draw_status STATUS_CONFIRMED round else r) l)
     = Some (set_draw_status STATUS_CONFIRMED round)).
  { induction l as [|x l IH]; simpl; [discriminate|].
    destruct (round_id x =? round_id round) eqn:E; simpl.
    - rewrite Z.eqb_refl. reflexivity.
    - rewrite E. exact IH. }
  rewrite (Hf _ Hex). eexists. split; reflexivity.
Qed.

End Lifecycle.

(** A round in CONFIRMED status: confirm and unrelease are refused, a new
    draw is refused. *)
Lemma C5_guard_failure_rejected_witness :
  ConfirmDrawCreationView_post (Sample.on_round 3 []) Sample.store0
  = (Ok (HttpResponseBadRequest "Draw status is not DRAFT"), Sample.store0)
  /\ DrawReleaseView_post (Sample.on_round 2 []) Sample.store0
     = (Ok (HttpResponseBadRequest "Draw status is not CONFIRMED"), Sample.store0)
  /\ DrawUnreleaseView_post (Sample.on_round 3 []) Sample.store0
     = (Ok (HttpResponseBadRequest "Draw status is not RELEASED"), Sample.store0)
  /\ rounds (snd (CreateDrawView_post (fun _ => raise (Py.DrawError "unused"))
                                      (fun _ => ret tt)
                                      (Sample.on_round 3 []) Sample.store0))
     = rounds Sample.store0.
Proof.
  pose proof (@C5_guard_failure_rejected (fun _ => raise (Py.DrawError "unused"))
                (fun _ => ret tt) (Sample.on_round 3 []) Sample.store0
                Sample.round_confirmed eq_refl) as [Hc [_ [Hu Hn]]].
  pose proof (@C5_guard_failure_rejected (fun _ => raise (Py.DrawError "unused"))
                (fun _ => ret tt) (Sample.on_round 2 []) Sample.store0
                Sample.round_draft eq_refl) as [_ [Hr _]].
  split; [apply Hc; discriminate|].
  split; [apply Hr; discriminate|].
  split; [apply Hu; discriminate|].
  destruct Hn as [Hn _]; [discriminate|]. rewrite Hn. reflexivity.
Defined.

(** With the guard passed the pairing generator does run: when it fails,
    its message is queued and the redirect goes to the availability page. *)
Example create_draw_generator_failure :
  CreateDrawView_post (fun _ => raise (Py.DrawError "odd number of teams."))
                      (fun _ => ret tt) (Sample.on_round 1 []) Sample.store0
  = (Ok (HttpResponseRedirect "availability_index" 1),
     set_messages
       [(ERROR, "There was a problem creating the draw: odd number of teams."
                ++ " If this issue persists, please contact the developers.")]
       Sample.store0).
Proof. reflexivity. Qed.

(* ====================================================================== *)
(** ** The public draw pages *)
(* ====================================================================== *)

(** The context data of the public page is assembled the same way whether
    or not the draw is released: both branches put the round under
    [round] and hand over to the inherited [get_context_data]. *)
Lemma public_context_data_same (Context : Type)
      (inherited : list (string * Round) -> M Context) req kwargs s :
  PublicDrawForRoundView_get_context_data inherited req kwargs s
  = BaseDrawTableView_get_context_data inherited req kwargs s.
Proof.
  unfold PublicDrawForRoundView_get_context_data, BaseDrawTableView_get_context_data, bind.
  destruct (get_round req s) as [[round|e] s1] eqn:E; [|reflexivity].
  assert (s1 = s).
  { unfold get_round in E. destruct (find _ (rounds s)); inversion E; reflexivity. }
  subst s1.
  destruct (negb (draw_status_eqb (round_draw_status round) STATUS_RELEASED));
    rewrite E; reflexivity.
Qed.




(* ====================================================================== *)
(** ** The round's start time *)
(* ====================================================================== *)

Lemma find_after_update (round row : Round) (k : Z) (l : list Round) :
  find (fun r => round_id r =? k) l = Some round ->
  round_id row = k ->
  find (fun r => round_id r =? k) (ORM.update round_id row l) = Some row.
Proof.
  intros Hfind Hid. unfold ORM.update.
  assert (Hex : existsb (fun r => round_id r =? round_id row) l = true).
  { apply existsb_exists. exists round. apply find_some in Hfind.
    rewrite Hid. exact Hfind. }
  rewrite Hex. clear Hex. rewrite Hid. revert Hfind.
  induction l as [|x l IH]; simpl; [discriminate|].
  destruct (round_id x =? k) eqn:E; simpl.
  - intros _. rewrite Hid, Z.eqb_refl. reflexivity.
  - rewrite E. exact IH.
Qed.

Lemma find_other_after_update (row : Round) (k : Z) (l : list Round) :
  k <> round_id row ->
  find (fun r => round_id r =? k) (ORM.update round_id row l)
  = find (fun r => round_id r =? k) l.
Proof.
  intros Hne. unfold ORM.update.
  destruct (existsb (fun r => round_id r =? round_id row) l).
  - induction l as [|x l IH]; simpl; [reflexivity|].
    destruct (Z.eqb_spec (round_id x) (round_id row)) as [E|E].
    + destruct (Z.eqb_spec (round_id row) k); [congruence|].
      destruct (Z.eqb_spec (round_id x) k); [congruence|exact IH].
    + destruct (round_id x =? k); [reflexivity|exact IH].
  - induction l as [|x l IH]; simpl.
    + destruct (Z.eqb_spec (round_id row) k); [congruence|reflexivity].
    + destruct (round_id x =? k); [reflexivity|exact IH].
Qed.

(** The store after [SetRoundStartTimeView.post] took a start time. *)
Lemma start_time_stored req s round time_text parsed :
  QueryDict.get (POST req) "start_time" = Some time_text ->
  find (fun r => round_id r =? url_round req) (rounds s) = Some round ->
  Datetime.strptime time_text "%H:%M" = Some parsed ->
  SetRoundStartTimeView_post req s
  = (Ok (HttpResponseRedirect "draw" (round_id round)),
     start_time_saved req (Datetime.dt_time parsed) round s)
  /\ find (fun r => round_id r =? url_round req)
          (rounds (start_time_saved req (Datetime.dt_time parsed) round s))
     = Some (set_starts_at (Some (Datetime.dt_time parsed)) round).
Proof.
  intros Hget Hfind Hparse.
  assert (Hid : round_id round = url_round req).
  { apply find_some in Hfind. destruct Hfind as [_ H]. now apply Z.eqb_eq in H. }
  assert (Hafter : find (fun r => round_id r =? url_round req)
            (rounds (start_time_saved req (Datetime.dt_time parsed) round s))
       = Some (set_starts_at (Some (Datetime.dt_time parsed)) round)).
  { simpl. apply find_after_update with (round := round); [exact Hfind|exact Hid]. }
  split; [|exact Hafter].
  unfold SetRoundStartTimeView_post, bind, QueryDict.getitem.
  rewrite Hget. simpl. rewrite Hparse.
  rewrite (@get_round_found req s round Hfind).
  unfold ORM.Round_save, log_action, modify, DrawStatusEdit_post, bind, get_round.
  simpl. simpl in Hafter. rewrite Hafter. simpl. reflexivity.
Qed.

(** The store after [SetRoundStartTimeView.post] refused a start time. *)
Lemma start_time_refused req s round time_text :
  QueryDict.get (POST req) "start_time" = Some time_text ->
  find (fun r => round_id r =? url_round req) (rounds s) = Some round ->
  Datetime.strptime time_text "%H:%M" = None ->
  SetRoundStartTimeView_post req s
  = (Ok (HttpResponseRedirect "draw" (round_id round)), invalid_time time_text s).
Proof.
  intros Hget Hfind Hparse.
  unfold SetRoundStartTimeView_post, bind, QueryDict.getitem.
  rewrite Hget. simpl. rewrite Hparse.
  unfold add_message, modify, DrawStatusEdit_post, bind, get_round. simpl.
  rewrite Hfind. reflexivity.
Qed.

(** C9: a start time in 24-hour colon format is parsed and stored as the
    round's start time ("13:57" gives 13:57): after the request the round
    of the URL is found with that time as its [starts_at] and its other
    fields as before, the other rounds, the debates, the debate teams and
    the teams are as they were, and the action is logged.  A text that
    does not parse ("25:99" is one) gets one error message and the
    redirect: the round is found as it was, with the start time it had,
    and rounds, debates and debate teams stay as they were. *)
Theorem C9_start_time_submission req s round time_text :
  QueryDict.get (POST req) "start_time" = Some time_text ->
  find (fun r => round_id r =? url_round req) (rounds s) = Some round ->
  let out := SetRoundStartTimeView_post req s in
  (forall parsed,
      Datetime.strptime time_text "%H:%M" = Some parsed ->
      out = (Ok (HttpResponseRedirect "draw" (round_id round)),
             start_time_saved req (Datetime.dt_time parsed) round s)
      /\ find (fun r => round_id r =? url_round req) (rounds (snd out))
         = Some (set_starts_at (Some (Datetime.dt_time parsed)) round)
      /\ (exists saved,
             find (fun r => round_id r =? url_round req) (rounds (snd out)) = Some saved
             /\ round_starts_at saved = Some (Datetime.dt_time parsed)
             /\ round_id saved = round_id round
             /\ round_name saved = round_name round
             /\ round_tournament saved = round_tournament round
             /\ round_draw_status saved = round_draw_status round)
      /\ (forall k, k <> url_round req ->
             find (fun r => round_id r =? k) (rounds (snd out))
             = find (fun r => round_id r =? k) (rounds s))
      /\ debates (snd out) = debates s
      /\ debateteams (snd out) = debateteams s
      /\ teams (snd out) = teams s
      /\ messages (snd out) = messages s
      /\ actionlog (snd out)
         = (actionlog s ++ [("ACTION_TYPE_ROUND_START_TIME_SET", url_round req)])%list)
  /\ (Datetime.strptime time_text "%H:%M" = None ->
      out = (Ok (HttpResponseRedirect "draw" (round_id round)), invalid_time time_text s)
      /\ rounds (snd out) = rounds s
      /\ debates (snd out) = debates s
      /\ debateteams (snd out) = debateteams s
      /\ find (fun r => round_id r =? url_round req) (rounds (snd out)) = Some round
      /\ actionlog (snd out) = actionlog s
      /\ exists text, messages (snd out) = (messages s ++ [(ERROR, text)])%list)
  /\ Datetime.strptime "13:57" "%H:%M"
     = Some (Datetime.mk_datetime 1900 1 1 (Datetime.mk_time 13 57 0 0))
  /\ Datetime.strptime "25:99" "%H:%M" = None.
Proof.
  intros Hget Hfind out.
  assert (Hid : round_id round = url_round req).
  { apply find_some in Hfind. destruct Hfind as [_ H]. now apply Z.eqb_eq in H. }
  split; [|split; [|repeat split]].
  - intros parsed Hparse.
    destruct (@start_time_stored req s round time_text parsed Hget Hfind Hparse)
      as [Hrun Hafter].
    subst out. rewrite Hrun. cbn [snd].
    split; [reflexivity|]. split; [exact Hafter|]. split.
    { exists (set_starts_at (Some (Datetime.dt_time parsed)) round).
      split; [exact Hafter|]. repeat split. }
    split.
    { intros k Hk. simpl. apply find_other_after_update. simpl. congruence. }
    repeat split.
  - intros Hparse.
    subst out. rewrite (@start_time_refused req s round time_text Hget Hfind Hparse).
    cbn [snd]. split; [reflexivity|]. repeat split; try exact Hfind.
    eexists. reflexivity.
Qed.

(** Round 2 is sent "13:57", then "25:99". *)
Lemma C9_start_time_submission_witness :
  (exists saved,
      find (fun r => round_id r =? 2)
           (rounds (snd (SetRoundStartTimeView_post
                           (Sample.on_round 2 [("start_time", "13:57")]) Sample.store0)))
      = Some saved
      /\ round_starts_at saved = Some (Datetime.mk_time 13 57 0 0))
  /\ find (fun r => round_id r =? 2)
          (rounds (snd (SetRoundStartTimeView_post
                          (Sample.on_round 2 [("start_time", "25:99")]) Sample.store0)))
     = Some Sample.round_draft
  /\ round_starts_at Sample.round_draft = None.
Proof.
  split; [|split; [|reflexivity]].
  - destruct (@C9_start_time_submission (Sample.on_round 2 [("start_time", "13:57")])
                Sample.store0 Sample.round_draft "13:57" eq_refl eq_refl) as [Hok _].
    destruct (Hok (Datetime.mk_datetime 1900 1 1 (Datetime.mk_time 13 57 0 0)) eq_refl)
      as [_ [_ [[saved [Hfound [Htime _]]] _]]].
    exists saved. split; [exact Hfound|exact Htime].
  - destruct (@C9_start_time_submission (Sample.on_round 2 [("start_time", "25:99")])
                Sample.store0 Sample.round_draft "25:99" eq_refl eq_refl) as [_ [Hbad _]].
    destruct (Hbad eq_refl) as [_ [_ [_ [_ [Hfound _]]]]]. exact Hfound.
Defined.

(* ====================================================================== *)
(** ** Scheduling the debates of a round *)
(* ====================================================================== *)

(** C7: the date and the time slot, joined by a space, are read in the
    year-first layout, and in the day/month/year layout when the first one
    fails; when both fail the [ValueError] is raised and nothing is
    stored.  "2024-03-15" and "15/03/2024" with slot 14:30:00 both put the
    debates at 15 March 2024, 14:30:00; "not-a-date" makes the request
    fail with the debates left without a time. *)
Theorem C7_schedule_date_layouts :
  (forall time t s,
      Datetime.strptime time "%Y-%m-%d %H:%M:%S" = Some t ->
      parse_schedule_time time s = (Ok t, s))
  /\ (forall time t s,
      Datetime.strptime time "%Y-%m-%d %H:%M:%S" = None ->
      Datetime.strptime time "%d/%m/%Y %H:%M:%S" = Some t ->
      parse_schedule_time time s = (Ok t, s))
  /\ (forall time s,
      Datetime.strptime time "%Y-%m-%d %H:%M:%S" = None ->
      Datetime.strptime time "%d/%m/%Y %H:%M:%S" = None ->
      parse_schedule_time time s = (Raise Py.ValueError, s))
  /\ Datetime.strptime ("2024-03-15" ++ " " ++ Datetime.str_of_time Sample.slot)
                       "%Y-%m-%d %H:%M:%S" = Some ScheduleSample.march_15
  /\ Datetime.strptime ("15/03/2024" ++ " " ++ Datetime.str_of_time Sample.slot)
                       "%Y-%m-%d %H:%M:%S" = None
  /\ Datetime.strptime ("15/03/2024" ++ " " ++ Datetime.str_of_time Sample.slot)
                       "%d/%m/%Y %H:%M:%S" = Some ScheduleSample.march_15
  /\ ApplyDebateScheduleView_post (Sample.on_round 2 [("7", "2024-03-15")]) Sample.store0
     = (Ok (HttpResponseRedirect "draw" 2), ScheduleSample.scheduled)
  /\ ApplyDebateScheduleView_post (Sample.on_round 2 [("7", "15/03/2024")]) Sample.store0
     = (Ok (HttpResponseRedirect "draw" 2), ScheduleSample.scheduled)
  /\ ApplyDebateScheduleView_post (Sample.on_round 2 [("7", "not-a-date")]) Sample.store0
     = (Raise Py.ValueError, Sample.store0).
Proof.
  split; [|split; [|split]].
  - intros time t s H. unfold parse_schedule_time. rewrite H. reflexivity.
  - intros time t s H1 H2. unfold parse_schedule_time. rewrite H1, H2. reflexivity.
  - intros time s H1 H2. unfold parse_schedule_time. rewrite H1, H2. reflexivity.
  - repeat split; vm_compute; reflexivity.
Qed.

(** The three layouts' outcomes on the texts of the claim. *)
Lemma C7_schedule_date_layouts_witness :
  parse_schedule_time "2024-03-15 14:30:00" Sample.store0
  = (Ok ScheduleSample.march_15, Sample.store0)
  /\ parse_schedule_time "15/03/2024 14:30:00" Sample.store0
     = (Ok ScheduleSample.march_15, Sample.store0)
  /\ parse_schedule_time "not-a-date 14:30:00" Sample.store0
     = (Raise Py.ValueError, Sample.store0).
Proof.
  destruct C7_schedule_date_layouts as [Hiso [Hdmy [Hbad _]]].
  split; [|split].
  - apply Hiso. reflexivity.
  - apply Hdmy; reflexivity.
  - apply Hbad; reflexivity.
Defined.

Lemma for_each_cons A (x : A) l (body : A -> M unit) s :
  for_each (x :: l) body s
  = match body x s with
    | (Ok _, s') => for_each l body s'
    | (Raise e, s') => (Raise e, s')
    end.
Proof. reflexivity. Qed.

Lemma schedule_debate_keeps_teams req x s r s1 :
  schedule_debate req x s = (r, s1) ->
  teams s1 = teams s /\ debateteams s1 = debateteams s.
Proof.
  unfold schedule_debate, bind, gets, QueryDict.getitem, parse_schedule_time.
  destruct (ORM.Debate_teams x s) as [|team0 others].
  { intros H; inversion H; subst; auto. }
  destruct (team_division team0) as [dv|]; [|intros H; inversion H; subst; auto].
  destruct (division_time_slot dv) as [slot|]; [|intros H; inversion H; subst; auto].
  destruct (division_venue_group dv) as [g|]; [|intros H; inversion H; subst; auto].
  destruct (QueryDict.get (POST req) (Py.str_of_int g)) as [date|];
    [|intros H; inversion H; subst; auto].
  unfold ret at 1. cbv beta iota.
  destruct (Py.truthy date); [|intros H; inversion H; subst; auto].
  destruct (Datetime.strptime _ "%Y-%m-%d %H:%M:%S") as [t|].
  { intros H; inversion H; subst; auto. }
  destruct (Datetime.strptime _ "%d/%m/%Y %H:%M:%S") as [t|];
    intros H; inversion H; subst; auto.
Qed.

Lemma passed_over_stable req d s s1 :
  teams s1 = teams s -> debateteams s1 = debateteams s ->
  passed_over req s d -> passed_over req s1 d.
Proof.
  intros Ht Hdt [team0 [others [Hteams Hwhy]]].
  exists team0, others. split; [|exact Hwhy].
  unfold ORM.Debate_teams in *. rewrite Ht, Hdt. exact Hteams.
Qed.

Lemma passed_over_step req s d :
  passed_over req s d -> schedule_debate req d s = (Ok tt, s).
Proof.
  intros [team0 [others [Hteams Hwhy]]].
  unfold schedule_debate, bind, gets. rewrite Hteams.
  destruct Hwhy as [Hnone | [[dv [Hdv Hslot]] | [dv [slot [g [Hdv [Hslot [Hg Hdate]]]]]]]].
  - rewrite Hnone. reflexivity.
  - rewrite Hdv, Hslot. reflexivity.
  - rewrite Hdv, Hslot, Hg. unfold QueryDict.getitem. rewrite Hdate. reflexivity.
Qed.

(** C8, as the code has it: a debate whose first team has no division,
    whose division has no time slot, or whose venue group was sent an
    empty date, is passed over: its turn in the loop changes nothing, and
    the loop does to the other debates what it would do without it. *)
Theorem C8_passed_over_debates req s d :
  passed_over req s d ->
  schedule_debate req d s = (Ok tt, s)
  /\ forall before after,
      for_each (before ++ d :: after) (schedule_debate req) s
      = for_each (before ++ after) (schedule_debate req) s.
Proof.
  intros Hskip. split; [apply passed_over_step; exact Hskip|].
  intros before. revert s Hskip.
  induction before as [|x before IH]; intros s Hskip after.
  - simpl app. rewrite for_each_cons, (passed_over_step Hskip). reflexivity.
  - simpl app. rewrite !for_each_cons.
    destruct (schedule_debate req x s) as [[[]|e] s1] eqn:E; [|reflexivity].
    apply schedule_debate_keeps_teams in E. destruct E as [Ht Hdt].
    apply IH. apply (@passed_over_stable req d s s1 Ht Hdt Hskip).
Qed.

(** Debate 3 of the sample has a first team without a division. *)
Lemma C8_passed_over_debates_witness :
  schedule_debate (Sample.on_round 3 []) (mk_debate 3 3 None None) Sample.store0
  = (Ok tt, Sample.store0).
Proof.
  apply (@C8_passed_over_debates (Sample.on_round 3 []) Sample.store0
           (mk_debate 3 3 None None)).
  exists (mk_team 5 None), [mk_team 6 (Some Sample.division_b)].
  split; [reflexivity|]. left. reflexivity.
Defined.

(** C8 as stated fails where the date is absent: the form for round 2
    carries no entry for venue group 7, the group of debate 1's division,
    and the request ends in a [KeyError] instead of passing over the
    debate. *)
Lemma C8_absent_date_counterexample :
  QueryDict.get (POST (Sample.on_round 2 [])) (Py.str_of_int 7) = None
  /\ schedule_debate (Sample.on_round 2 []) (mk_debate 1 2 None None) Sample.store0
     = (Raise Py.KeyError, Sample.store0)
  /\ ApplyDebateScheduleView_post (Sample.on_round 2 []) Sample.store0
     = (Raise Py.KeyError, Sample.store0).
Proof. repeat split. Qed.

(** A blank date is passed over where an absent one is not. *)
Example blank_date_passed_over :
  ApplyDebateScheduleView_post (Sample.on_round 2 [("7", "")]) Sample.store0
  = (Ok (HttpResponseRedirect "draw" 2),
     set_messages [(SUCCESS, "Applied schedules to debates")] Sample.store0).
Proof. reflexivity. Qed.

(* ====================================================================== *)
(** ** Saving edited matchups: the steps *)
(* ====================================================================== *)

Section TableLemmas.

Variable Row : Type.
Variable pk_of : Row -> Z.

Lemma get_ok (table : store -> list Row) pk s r s' :
  ORM.get pk_of table pk s = (Ok r, s') ->
  s' = s /\ filter (fun x => pk_of x =? pk) (table s) = [r].
Proof.
  unfold ORM.get.
  destruct (filter (fun x => pk_of x =? pk) (table s)) as [|x [|y l]];
    intros H; inversion H; subst; auto.
Qed.

Lemma filter_single_in (f : Row -> bool) l r :
  filter f l = [r] -> In r l /\ f r = true.
Proof.
  intros H. apply filter_In. rewrite H. left. reflexivity.
Qed.

(** Saving a row that was just read, unchanged, leaves the table as it
    is. *)
Lemma update_same (l : list Row) r :
  filter (fun x => pk_of x =? pk_of r) l = [r] -> ORM.update pk_of r l = l.
Proof.
  intros H. unfold ORM.update.
  assert (Hex : existsb (fun x => pk_of x =? pk_of r) l = true).
  { apply existsb_exists. exists r. apply (filter_single_in _ _ H). }
  rewrite Hex. rewrite <- (map_id l) at 2. apply map_ext_in.
  intros x Hx. destruct (pk_of x =? pk_of r) eqn:E; [|reflexivity].
  assert (Hin : In x (filter (fun x => pk_of x =? pk_of r) l)).
  { apply filter_In. auto. }
  rewrite H in Hin. destruct Hin as [Heq|[]]. exact Heq.
Qed.

Lemma filter_of_filter (f g : Row -> bool) l :
  filter f (filter g l) = filter (fun x => f x && g x) l.
Proof.
  induction l as [|x l IH]; simpl; [reflexivity|].
  destruct (g x) eqn:G; simpl.
  - destruct (f x); simpl; rewrite IH; reflexivity.
  - rewrite andb_false_r. exact IH.
Qed.

Lemma filter_none (f : Row -> bool) l :
  (forall x, In x l -> f x = false) -> filter f l = [].
Proof.
  induction l as [|x l IH]; simpl; intros H; [reflexivity|].
  rewrite (H x (or_introl eq_refl)). apply IH. intros y Hy. apply H. right. exact Hy.
Qed.

End TableLemmas.

(** Rows of debate [d] among the rows of the other debates: none. *)
Lemma debateteams_of_removed (l : list DebateTeam) d :
  filter (fun dt => debateteam_debate dt =? d)
         (filter (fun dt => negb (debateteam_debate dt =? d)) l) = [].
Proof.
  rewrite filter_of_filter. apply filter_none. intros x _.
  destruct (debateteam_debate x =? d); reflexivity.
Qed.

(** Removing the rows of debate [d0] keeps the rows of any other debate. *)
Lemma debateteams_of_kept (l : list DebateTeam) d d0 :
  d <> d0 ->
  filter (fun dt => debateteam_debate dt =? d)
         (filter (fun dt => negb (debateteam_debate dt =? d0)) l)
  = filter (fun dt => debateteam_debate dt =? d) l.
Proof.
  intros Hne. rewrite filter_of_filter. apply filter_ext. intros x.
  destruct (Z.eqb_spec (debateteam_debate x) d) as [E|E]; [|reflexivity].
  simpl. destruct (Z.eqb_spec (debateteam_debate x) d0); [congruence|reflexivity].
Qed.

Lemma debate_exists_removed (l : list Debate) d :
  existsb (fun x => debate_id x =? d)
          (filter (fun x => negb (debate_id x =? d)) l) = false.
Proof.
  induction l as [|x l IH]; simpl; [reflexivity|].
  destruct (debate_id x =? d) eqn:E; simpl; [exact IH|].
  rewrite E. exact IH.
Qed.

Lemma debate_exists_kept (l : list Debate) d d0 :
  d <> d0 ->
  existsb (fun x => debate_id x =? d)
          (filter (fun x => negb (debate_id x =? d0)) l)
  = existsb (fun x => debate_id x =? d) l.
Proof.
  intros Hne. induction l as [|x l IH]; simpl; [reflexivity|].
  destruct (Z.eqb_spec (debate_id x) d0) as [E|E]; simpl.
  - destruct (Z.eqb_spec (debate_id x) d); [congruence|exact IH].
  - rewrite IH. reflexivity.
Qed.

Lemma team_of_text_ok text s t s' :
  team_of_text text s = (Ok t, s') ->
  s' = s /\ Py.int_of_str text = Some (team_id t) /\ team_exists s (team_id t) = true.
Proof.
  unfold team_of_text. destruct (Py.int_of_str text) as [k|]; [|discriminate].
  intros H. apply get_ok in H. destruct H as [-> H].
  apply filter_single_in in H. destruct H as [Hin Hid].
  apply Z.eqb_eq in Hid. subst k. repeat split.
  unfold team_exists. apply existsb_exists. exists t. split; [exact Hin|apply Z.eqb_refl].
Qed.

Lemma edit_existing_debate_ok q d s s' :
  edit_existing_debate q d s = (Ok tt, s') -> existing_entry_effect q d s s'.
Proof.
  unfold edit_existing_debate, bind at 1.
  destruct (ORM.Debate_get d s) as [[debate|e] s1] eqn:Hget; [|discriminate].
  apply get_ok in Hget. destruct Hget as [-> Hrow].
  pose proof (filter_single_in _ _ Hrow) as [Hin Hid]. apply Z.eqb_eq in Hid.
  subst d.
  assert (Hex : debate_exists s (debate_id debate) = true).
  { apply existsb_exists. exists debate. split; [exact Hin|]. apply Z.eqb_refl. }
  unfold submitted_team, bind at 1.
  destruct (QueryDict.get q ("aff_" ++ Py.str_of_int (debate_id debate))) as [a|] eqn:Ha;
    [|discriminate].
  unfold ret at 1. cbv beta iota. unfold bind at 1.
  destruct (QueryDict.get q ("neg_" ++ Py.str_of_int (debate_id debate))) as [n|] eqn:Hn;
    [|discriminate].
  unfold ret at 1. cbv beta iota.
  intros Hrun. exists a, n. split; [exact Ha|]. split; [exact Hn|].
  split; [exact Hex|].
  destruct (Py.truthy (Py.replace a "team_" "") && Py.truthy (Py.replace n "team_" "")).
  - unfold ORM.DebateTeam_delete_of, ORM.Debate_save, modify, bind at 1 2 in Hrun.
    cbv beta iota in Hrun. unfold bind at 1 in Hrun.
    match type of Hrun with
    | context [team_of_text ?t ?st] =>
        destruct (team_of_text t st) as [[ta|e] s2] eqn:Hta; [|discriminate]
    end.
    apply team_of_text_ok in Hta. destruct Hta as [-> [Hpa Hea]].
    unfold ORM.DebateTeam_create, modify, bind at 1 in Hrun. cbv beta iota in Hrun.
    unfold bind at 1 in Hrun.
    match type of Hrun with
    | context [team_of_text ?t ?st] =>
        destruct (team_of_text t st) as [[tn|e] s3] eqn:Htn; [|discriminate]
    end.
    apply team_of_text_ok in Htn. destruct Htn as [-> [Hpn Hen]].
    inversion Hrun; subst s'; clear Hrun.
    unfold team_exists in *. simpl in Hea, Hen. simpl.
    rewrite (update_same debate_id _ Hrow).
    split; [reflexivity|]. split; [reflexivity|]. split; [reflexivity|].
    exists (team_id ta), (team_id tn).
    split; [exact Hpa|]. split; [exact Hpn|]. split; [exact Hea|]. split; [exact Hen|].
    split; [reflexivity|]. split.
    + rewrite <- app_assoc. reflexivity.
    + lia.
  - unfold ORM.Debate_delete, modify in Hrun. inversion Hrun; subst s'; clear Hrun.
    simpl. repeat split.
Qed.

(* ====================================================================== *)
(** ** Saving edited matchups: the whole request *)
(* ====================================================================== *)

(** With [round] the built-in function, a turn of the second loop writes
    nothing: it raises, or the entry has a blank side. *)
Lemma add_new_debate_builtin name q d s r s' :
  add_new_debate (ORM.BuiltinFunction name) q d s = (r, s') -> s' = s.
Proof.
  unfold add_new_debate, submitted_team, bind at 1.
  destruct (QueryDict.get q ("aff_" ++ Py.str_of_int d)) as [a|];
    [|intros H; inversion H; reflexivity].
  unfold ret at 1. cbv beta iota. unfold bind at 1.
  destruct (QueryDict.get q ("neg_" ++ Py.str_of_int d)) as [n|];
    [|intros H; inversion H; reflexivity].
  unfold ret at 1. cbv beta iota.
  destruct (Py.truthy (Py.replace a "team_" "") && Py.truthy (Py.replace n "team_" ""));
    intros H; inversion H; reflexivity.
Qed.

Lemma new_loop_builtin name q ids : forall s r s',
  for_each ids (add_new_debate (ORM.BuiltinFunction name) q) s = (r, s') -> s' = s.
Proof.
  induction ids as [|d ids IH]; intros s r s' H.
  - inversion H. reflexivity.
  - rewrite for_each_cons in H.
    destruct (add_new_debate (ORM.BuiltinFunction name) q d s) as [[[]|e] s1] eqn:E;
      apply add_new_debate_builtin in E; subst s1.
    + apply (IH _ _ _ H).
    + inversion H. reflexivity.
Qed.

(** A request that succeeds is one whose first loop ran to its end; the
    store it leaves is the store after that loop. *)
Lemma SaveDrawMatchups_post_ok req s resp s' :
  SaveDrawMatchups_post req s = (Ok resp, s') ->
  resp = HttpResponse "ok"
  /\ exists ids,
      ids_with_prefix "debate_" (POST req) = Ok ids
      /\ for_each ids (edit_existing_debate (POST req)) s = (Ok tt, s').
Proof.
  unfold SaveDrawMatchups_post, SaveDrawMatchups_post_with, bind at 1, lift at 1.
  destruct (ids_with_prefix "debate_" (POST req)) as [ids|e] eqn:Hids; [|discriminate].
  unfold bind at 1.
  destruct (for_each ids (edit_existing_debate (POST req)) s) as [[[]|e] s1] eqn:E1;
    [|discriminate].
  unfold bind at 1, lift at 1.
  destruct (ids_with_prefix "new_debate_" (POST req)) as [news|e]; [|discriminate].
  unfold bind at 1.
  destruct (for_each news (add_new_debate (ORM.BuiltinFunction "round") (POST req)) s1)
    as [[[]|e] s2] eqn:E2; [|discriminate].
  apply new_loop_builtin in E2. subst s2.
  unfold ret. intros H. inversion H; subst. split; [reflexivity|].
  exists ids. split; [reflexivity|exact E1].
Qed.

(** A turn of the first loop settles its own entry. *)
Lemma turn_settles_own q lo d s s' :
  existing_entry_effect q d s s' -> lo <= next_debateteam_id s ->
  existing_entry_applied q lo s' d.
Proof.
  intros [a [n [Ha [Hn [Hex [_ [Ht [_ Hcase]]]]]]]] Hlo.
  exists a, n. split; [exact Ha|]. split; [exact Hn|].
  destruct (Py.truthy (Py.replace a "team_" "") && Py.truthy (Py.replace n "team_" "")).
  - destruct Hcase as [ta [tn [Hpa [Hpn [Hea [Hen [Hd [Hdt _]]]]]]]].
    exists ta, tn, (next_debateteam_id s), (next_debateteam_id s + 1).
    unfold team_exists, debate_exists, debateteams_of in *. rewrite Ht, Hd, Hdt.
    repeat (split; [assumption || lia|]).
    rewrite filter_app, debateteams_of_removed. simpl. rewrite Z.eqb_refl. reflexivity.
  - destruct Hcase as [Hd [Hdt _]]. unfold debate_exists, debateteams_of.
    rewrite Hd, Hdt. split; [apply debate_exists_removed|apply debateteams_of_removed].
Qed.

(** A turn for another debate leaves a settled entry settled. *)
Lemma turn_keeps_other q lo d0 d s s' :
  existing_entry_effect q d0 s s' -> d <> d0 ->
  existing_entry_applied q lo s d -> existing_entry_applied q lo s' d.
Proof.
  intros [a0 [n0 [_ [_ [_ [_ [Ht [_ Hcase]]]]]]]] Hne.
  assert (Hsame : debate_exists s' d = debate_exists s d
                  /\ debateteams_of s' d = debateteams_of s d).
  { unfold debate_exists, debateteams_of.
    destruct (Py.truthy (Py.replace a0 "team_" "") && Py.truthy (Py.replace n0 "team_" "")).
    - destruct Hcase as [ta [tn [_ [_ [_ [_ [Hd [Hdt _]]]]]]]]. rewrite Hd, Hdt.
      split; [reflexivity|]. rewrite filter_app, (debateteams_of_kept _ Hne). simpl.
      destruct (Z.eqb_spec d0 d); [congruence|]. apply app_nil_r.
    - destruct Hcase as [Hd [Hdt _]]. rewrite Hd, Hdt.
      split; [apply (debate_exists_kept _ Hne)|apply (debateteams_of_kept _ Hne)]. }
  destruct Hsame as [Hde Hdts].
  unfold existing_entry_applied, team_exists. rewrite Hde, Hdts, Ht. tauto.
Qed.

Lemma turn_counter q d s s' :
  existing_entry_effect q d s s' -> next_debateteam_id s <= next_debateteam_id s'.
Proof.
  intros [a [n [_ [_ [_ [_ [_ [_ Hcase]]]]]]]].
  destruct (Py.truthy (Py.replace a "team_" "") && Py.truthy (Py.replace n "team_" "")).
  - destruct Hcase as [ta [tn [_ [_ [_ [_ [_ [_ Hnext]]]]]]]]. lia.
  - destruct Hcase as [_ [_ Hnext]]. lia.
Qed.

(** The first loop: every entry it went through is settled at the end. *)
Lemma first_loop_settles q lo ids : forall s s',
  for_each ids (edit_existing_debate q) s = (Ok tt, s') ->
  lo <= next_debateteam_id s ->
  (forall d, In d ids -> existing_entry_applied q lo s' d)
  /\ (forall d, existing_entry_applied q lo s d -> existing_entry_applied q lo s' d)
  /\ lo <= next_debateteam_id s'.
Proof.
  induction ids as [|d0 ids IH]; intros s s' Hrun Hlo.
  - inversion Hrun; subst. split; [intros d []|]. split; [auto|exact Hlo].
  - rewrite for_each_cons in Hrun.
    destruct (edit_existing_debate q d0 s) as [[[]|e] s1] eqn:E; [|discriminate].
    apply edit_existing_debate_ok in E.
    pose proof (turn_counter E) as Hmono.
    destruct (IH s1 s' Hrun ltac:(lia)) as [Hall [Hkeep Hlo']].
    assert (Hstep : forall d, existing_entry_applied q lo s d \/ d = d0 ->
                              existing_entry_applied q lo s1 d).
    { intros d Hd. destruct (Z.eq_dec d d0) as [->|Hne].
      - apply (turn_settles_own E Hlo).
      - destruct Hd as [Hd|Hd]; [|contradiction].
        apply (turn_keeps_other E Hne Hd). }
    split; [|split; [|exact Hlo']].
    + intros d [<-|Hin]; [|apply Hall; exact Hin].
      apply Hkeep, Hstep. right. reflexivity.
    + intros d Hd. apply Hkeep, Hstep. left. exact Hd.
Qed.

(** C1: after a submission that succeeded, every existing-debate entry is
    applied.  With both team identifiers given, the debate's rows are
    exactly two rows made by this request, the affirmative one for the
    affirmative team asked for and the negative one for the negative team
    asked for, and nothing else is attached to the debate.  With a blank
    identifier, the debate and all its rows are gone. *)
Theorem C1_existing_entries_applied req s resp s' ids :
  ids_with_prefix "debate_" (POST req) = Ok ids ->
  SaveDrawMatchups_post req s = (Ok resp, s') ->
  forall d, In d ids ->
    existing_entry_applied (POST req) (next_debateteam_id s) s' d.
Proof.
  intros Hids Hrun d Hin.
  apply SaveDrawMatchups_post_ok in Hrun.
  destruct Hrun as [_ [ids' [Hids' Hloop]]].
  rewrite Hids in Hids'. inversion Hids'; subst ids'.
  destruct (@first_loop_settles (POST req) (next_debateteam_id s) ids s s' Hloop
              ltac:(lia)) as [Hall _].
  apply Hall. exact Hin.
Qed.

(** Debate 1 is given teams 3 and 4, debate 2 is sent with a blank side. *)
Lemma C1_existing_entries_applied_witness :
  existing_entry_applied Sample.swap_and_drop 7
    (snd (SaveDrawMatchups_post (Sample.on_round 2 Sample.swap_and_drop) Sample.store0)) 1
  /\ existing_entry_applied Sample.swap_and_drop 7
    (snd (SaveDrawMatchups_post (Sample.on_round 2 Sample.swap_and_drop) Sample.store0)) 2.
Proof.
  split.
  - apply (@C1_existing_entries_applied (Sample.on_round 2 Sample.swap_and_drop)
             Sample.store0 (HttpResponse "ok") _ [1; 2]);
      [reflexivity | reflexivity | simpl; tauto].
  - apply (@C1_existing_entries_applied (Sample.on_round 2 Sample.swap_and_drop)
             Sample.store0 (HttpResponse "ok") _ [1; 2]);
      [reflexivity | reflexivity | simpl; tauto].
Defined.

(** The same submission, evaluated. *)
Example swap_and_drop_result :
  let s' := snd (SaveDrawMatchups_post (Sample.on_round 2 Sample.swap_and_drop) Sample.store0) in
  debateteams_of s' 1 = [mk_debateteam 7 1 3 POSITION_AFFIRMATIVE;
                         mk_debateteam 8 1 4 POSITION_NEGATIVE]
  /\ debate_exists s' 2 = false /\ debateteams_of s' 2 = []
  /\ debateteams_of s' 3 = debateteams_of Sample.store0 3.
Proof. repeat split. Qed.

(** C2 fails on the code: a new-debate entry with both teams given makes
    the request raise [ValueError] where the debate is built, because the
    [round] handed to [Debate] is the built-in function and no [Round];
    no debate and no row is made.  Teams 5 and 6 exist. *)
Theorem C2_new_debate_raises :
  SaveDrawMatchups_post (Sample.on_round 3 Sample.one_new_debate) Sample.store0
  = (Raise Py.ValueError, Sample.store0)
  /\ team_exists Sample.store0 5 = true /\ team_exists Sample.store0 6 = true.
Proof. repeat split. Qed.

(** It is so for every new-debate entry with both teams given, whatever
    the store. *)
Lemma new_debate_entry_always_raises name q d s a n :
  QueryDict.get q ("aff_" ++ Py.str_of_int d) = Some a ->
  QueryDict.get q ("neg_" ++ Py.str_of_int d) = Some n ->
  Py.truthy (Py.replace a "team_" "") && Py.truthy (Py.replace n "team_" "") = true ->
  add_new_debate (ORM.BuiltinFunction name) q d s = (Raise Py.ValueError, s).
Proof.
  intros Ha Hn Hboth.
  unfold add_new_debate, submitted_team, bind. rewrite Ha, Hn. simpl. rewrite Hboth.
  reflexivity.
Qed.

(** An entry with a blank side makes nothing, as C2 says. *)
Lemma new_debate_entry_blank round q d s a n :
  QueryDict.get q ("aff_" ++ Py.str_of_int d) = Some a ->
  QueryDict.get q ("neg_" ++ Py.str_of_int d) = Some n ->
  Py.truthy (Py.replace a "team_" "") && Py.truthy (Py.replace n "team_" "") = false ->
  add_new_debate round q d s = (Ok tt, s).
Proof.
  intros Ha Hn Hblank.
  unfold add_new_debate, submitted_team, bind. rewrite Ha, Hn. simpl. rewrite Hblank.
  reflexivity.
Qed.

(** With a [Round] under the name [round], the same entry makes debate 4
    in round 3, without a venue, with team 5 affirmative and team 6
    negative. *)
Example new_debate_with_a_round :
  let out := SaveDrawMatchups_post_with (ORM.RoundInstance Sample.round_confirmed)
               (Sample.on_round 3 Sample.one_new_debate) Sample.store0 in
  fst out = Ok (HttpResponse "ok")
  /\ debates (snd out) = (debates Sample.store0 ++ [mk_debate 4 3 None None])%list
  /\ debateteams_of (snd out) 4 = [mk_debateteam 7 4 5 POSITION_AFFIRMATIVE;
                                   mk_debateteam 8 4 6 POSITION_NEGATIVE].
Proof. repeat split. Qed.

(** C3 fails on the code: debate 1 is sent team 3 and a negative team that
    does not exist.  The old rows are deleted and the affirmative row is
    saved before the negative team is looked up, so the request ends in
    [DoesNotExist] with debate 1 holding exactly one row. *)
Theorem C3_half_pair_persisted :
  let out := SaveDrawMatchups_post (Sample.on_round 2 Sample.unknown_negative)
               Sample.store0 in
  fst out = Raise Py.DoesNotExist
  /\ debate_exists (snd out) 1 = true
  /\ debateteams_of (snd out) 1 = [mk_debateteam 7 1 3 POSITION_AFFIRMATIVE]
  /\ debateteams_of Sample.store0 1 = [mk_debateteam 1 1 1 POSITION_AFFIRMATIVE;
                                       mk_debateteam 2 1 2 POSITION_NEGATIVE].
Proof. repeat split. Qed.

(** It is so in every store: when the affirmative team is found and the
    negative one is not, the turn ends in [DoesNotExist] and leaves the
    debate with the new affirmative row alone. *)
Lemma half_pair_whenever_negative_unknown q d s debate a n ta tn team :
  filter (fun x => debate_id x =? d) (debates s) = [debate] ->
  QueryDict.get q ("aff_" ++ Py.str_of_int d) = Some a ->
  QueryDict.get q ("neg_" ++ Py.str_of_int d) = Some n ->
  Py.truthy (Py.replace a "team_" "") && Py.truthy (Py.replace n "team_" "") = true ->
  Py.int_of_str (Py.replace a "team_" "") = Some ta ->
  Py.int_of_str (Py.replace n "team_" "") = Some tn ->
  filter (fun x => team_id x =? ta) (teams s) = [team] ->
  filter (fun x => team_id x =? tn) (teams s) = [] ->
  fst (edit_existing_debate q d s) = Raise Py.DoesNotExist
  /\ debateteams_of (snd (edit_existing_debate q d s)) d
     = [mk_debateteam (next_debateteam_id s) d ta POSITION_AFFIRMATIVE].
Proof.
  intros Hrow Ha Hn Hboth Hpa Hpn Hta Htn.
  pose proof (filter_single_in _ _ Hrow) as [_ Hid]. apply Z.eqb_eq in Hid.
  pose proof (filter_single_in _ _ Hta) as [_ Htid]. apply Z.eqb_eq in Htid.
  unfold edit_existing_debate, bind, ORM.Debate_get, ORM.get, submitted_team.
  rewrite Hrow, Ha, Hn. simpl. rewrite Hboth.
  unfold team_of_text, ORM.Team_get, ORM.get. rewrite Hpa. simpl. rewrite Hta.
  simpl. rewrite Hpn. simpl. rewrite Htn. simpl.
  split; [reflexivity|].
  unfold debateteams_of. simpl. rewrite Hid, Htid.
  rewrite filter_app, debateteams_of_removed. simpl. rewrite Z.eqb_refl. reflexivity.
Qed.

(** The second loop looks both teams up before it saves either row: with
    a [Round] under the name [round], an unknown negative team leaves the
    new debate without rows, not with one. *)
Example new_debate_unknown_negative :
  let out := SaveDrawMatchups_post_with (ORM.RoundInstance Sample.round_confirmed)
               (Sample.on_round 3 [("new_debate_1", ""); ("aff_1", "team_5");
                                   ("neg_1", "team_99")]) Sample.store0 in
  fst out = Raise Py.DoesNotExist /\ debateteams_of (snd out) 4 = [].
Proof. repeat split. Qed.

(* ====================================================================== *)
(** ** Saving edited matchups and the draw status *)
(* ====================================================================== *)

Lemma ignores_ret A (a : A) : ignores_rounds (ret a).
Proof. intros v s. reflexivity. Qed.

Lemma ignores_raise A e : ignores_rounds (@raise A e).
Proof. intros v s. reflexivity. Qed.

Lemma ignores_lift A (r : result A) : ignores_rounds (lift r).
Proof. intros v s. reflexivity. Qed.

Lemma ignores_bind A B (c : M A) (k : A -> M B) :
  ignores_rounds c -> (forall a, ignores_rounds (k a)) -> ignores_rounds (bind c k).
Proof.
  intros Hc Hk v s. unfold bind. rewrite Hc.
  destruct (c s) as [[a|e] s1]; simpl; [apply Hk|reflexivity].
Qed.

Lemma ignores_for_each A (body : A -> M unit) l :
  (forall x, ignores_rounds (body x)) -> ignores_rounds (for_each l body).
Proof.
  intros Hb. induction l as [|x l IH]; simpl.
  - apply ignores_ret.
  - apply ignores_bind; [apply Hb|intros _; exact IH].
Qed.

Lemma ignores_modify (f : store -> store) :
  (forall v s, f (set_rounds v s) = set_rounds v (f s)) -> ignores_rounds (modify f).
Proof. intros Hf v s. unfold modify. rewrite Hf. reflexivity. Qed.

Lemma ignores_get Row (pk_of : Row -> Z) (table : store -> list Row) pk :
  (forall v s, table (set_rounds v s) = table s) ->
  ignores_rounds (ORM.get pk_of table pk).
Proof.
  intros Ht v s. unfold ORM.get. rewrite Ht.
  destruct (filter _ (table s)) as [|x [|y l]]; reflexivity.
Qed.

Lemma ignores_submitted_team q side d : ignores_rounds (submitted_team q side d).
Proof.
  unfold submitted_team. destruct (QueryDict.get q _);
    [apply ignores_ret|apply ignores_raise].
Qed.

Lemma ignores_team_of_text text : ignores_rounds (team_of_text text).
Proof.
  unfold team_of_text. destruct (Py.int_of_str text); [|apply ignores_raise].
  apply ignores_get. reflexivity.
Qed.

Lemma ignores_DebateTeam_create d t p : ignores_rounds (ORM.DebateTeam_create d t p).
Proof. apply ignores_modify. reflexivity. Qed.

Lemma ignores_Debate_get pk : ignores_rounds (ORM.Debate_get pk).
Proof. apply ignores_get. reflexivity. Qed.

Lemma ignores_Debate_init round venue : ignores_rounds (ORM.Debate_init round venue).
Proof. destruct round; [apply ignores_ret|apply ignores_raise]. Qed.

Lemma ignores_Debate_insert fields : ignores_rounds (ORM.Debate_insert fields).
Proof. intros v s. reflexivity. Qed.

Create HintDb ignores.
#[local] Hint Resolve ignores_ret ignores_raise ignores_lift ignores_submitted_team
  ignores_team_of_text ignores_DebateTeam_create ignores_Debate_get
  ignores_Debate_init ignores_Debate_insert : ignores.

(** A sequence ignores the rounds when each of its statements does. *)
Ltac ignores_steps :=
  repeat (apply ignores_bind; [auto with ignores | intros ?]);
  auto with ignores.

Lemma ignores_edit_existing_debate q d : ignores_rounds (edit_existing_debate q d).
Proof.
  unfold edit_existing_debate. ignores_steps.
  match goal with |- ignores_rounds (if ?b then _ else _) => destruct b end.
  - unfold ORM.DebateTeam_delete_of, ORM.Debate_save.
    apply ignores_bind; [apply ignores_modify; reflexivity|intros _].
    apply ignores_bind; [apply ignores_modify; reflexivity|intros _].
    ignores_steps.
  - apply ignores_modify. reflexivity.
Qed.

Lemma ignores_add_new_debate round q d : ignores_rounds (add_new_debate round q d).
Proof.
  unfold add_new_debate. ignores_steps.
  match goal with |- ignores_rounds (if ?b then _ else _) => destruct b end;
    ignores_steps.
Qed.

Lemma ignores_SaveDrawMatchups_post_with round req :
  ignores_rounds (SaveDrawMatchups_post_with round req).
Proof.
  unfold SaveDrawMatchups_post_with.
  apply ignores_bind; [apply ignores_lift|intros ids].
  apply ignores_bind; [apply ignores_for_each, ignores_edit_existing_debate|intros _].
  apply ignores_bind; [apply ignores_lift|intros news].
  apply ignores_bind; [apply ignores_for_each, ignores_add_new_debate|intros _].
  apply ignores_ret.
Qed.



(** The same submission with the rounds in each status, evaluated: debate
    1 holds team 3 against team 4 and debate 2 is gone, four times. *)
Example same_in_every_status :
  forall st,
    let out := SaveDrawMatchups_post (Sample.on_round 2 Sample.swap_and_drop)
                 (with_draw_status st Sample.store0) in
    fst out = Ok (HttpResponse "ok")
    /\ debateteams_of (snd out) 1 = [mk_debateteam 7 1 3 POSITION_AFFIRMATIVE;
                                     mk_debateteam 8 1 4 POSITION_NEGATIVE]
    /\ debate_exists (snd out) 2 = false
    /\ debateteams_of (snd out) 2 = [].
Proof. intros st. destruct st; repeat split. Qed.

(* ====================================================================== *)
(** ** Saving edited matchups: one row per position, one debate per team *)
(* ====================================================================== *)

Lemma filter_filter_length A (f g : A -> bool) l :
  (List.length (filter f (filter g l)) <= List.length (filter f l))%nat.
Proof.
  induction l as [|x l IH]; simpl; [lia|].
  destruct (g x); simpl; destruct (f x); simpl; lia.
Qed.

(** A turn of the first loop keeps the rows at one per position. *)
Lemma turn_keeps_one_per_position q d0 s s' :
  existing_entry_effect q d0 s s' -> one_per_position s -> one_per_position s'.
Proof.
  intros [a [n [_ [_ [_ [_ [_ [_ Hcase]]]]]]]] Hone d p.
  specialize (Hone d p).
  destruct (Py.truthy (Py.replace a "team_" "") && Py.truthy (Py.replace n "team_" "")).
  - destruct Hcase as [ta [tn [_ [_ [_ [_ [_ [Hdt _]]]]]]]]. rewrite Hdt.
    rewrite filter_app, length_app.
    destruct (Z.eq_dec d0 d) as [->|Hne].
    + rewrite filter_of_filter, filter_none.
      * simpl. rewrite Z.eqb_refl. destruct p; simpl; lia.
      * intros x _. destruct (debateteam_debate x =? d); simpl;
          [rewrite andb_false_r|]; reflexivity.
    + simpl. destruct (Z.eqb_spec d0 d) as [E|_]; [contradiction|]. simpl.
      pose proof (filter_filter_length
                    (fun dt => (debateteam_debate dt =? d)
                               && position_eqb (debateteam_position dt) p)
                    (fun dt => negb (debateteam_debate dt =? d0)) (debateteams s)).
      lia.
  - destruct Hcase as [_ [Hdt _]]. rewrite Hdt.
    pose proof (filter_filter_length
                  (fun dt => (debateteam_debate dt =? d)
                             && position_eqb (debateteam_position dt) p)
                  (fun dt => negb (debateteam_debate dt =? d0)) (debateteams s)).
    lia.
Qed.

Lemma first_loop_keeps_one_per_position q ids : forall s s',
  for_each ids (edit_existing_debate q) s = (Ok tt, s') ->
  one_per_position s -> one_per_position s'.
Proof.
  induction ids as [|d0 ids IH]; intros s s' Hrun Hone.
  - inversion Hrun; subst. exact Hone.
  - rewrite for_each_cons in Hrun.
    destruct (edit_existing_debate q d0 s) as [[[]|e] s1] eqn:E; [|discriminate].
    apply edit_existing_debate_ok in E.
    apply (IH s1 s' Hrun). apply (turn_keeps_one_per_position E Hone).
Qed.

(** Looking a debate up after another one was deleted. *)
Lemma find_debate_after_delete (l : list Debate) d d0 x :
  find (fun y => debate_id y =? d) (filter (fun y => negb (debate_id y =? d0)) l) = Some x ->
  find (fun y => debate_id y =? d) l = Some x.
Proof.
  induction l as [|y l IH]; simpl; [discriminate|].
  destruct (Z.eqb_spec (debate_id y) d0) as [E0|E0]; simpl.
  - intros H. destruct (Z.eqb_spec (debate_id y) d) as [E|E]; [|apply IH; exact H].
    exfalso. specialize (IH H). apply find_some in H. destruct H as [Hin Hid].
    apply filter_In in Hin. destruct Hin as [_ Hin]. apply Z.eqb_eq in Hid.
    rewrite Hid, <- E, E0, Z.eqb_refl in Hin. discriminate.
  - destruct (debate_id y =? d); [auto|exact IH].
Qed.

(** The first loop changes no debate's round: a debate of round [r] at
    the end was a debate of round [r] at the start. *)
Lemma turn_round_of q d0 s s' :
  existing_entry_effect q d0 s s' ->
  forall d r, round_of s' d = Some r -> round_of s d = Some r.
Proof.
  intros [a [n [_ [_ [_ [_ [_ [_ Hcase]]]]]]]] d r. unfold round_of.
  destruct (Py.truthy (Py.replace a "team_" "") && Py.truthy (Py.replace n "team_" "")).
  - destruct Hcase as [ta [tn [_ [_ [_ [_ [Hd _]]]]]]]. rewrite Hd. auto.
  - destruct Hcase as [Hd _]. rewrite Hd.
    destruct (find _ (filter _ (debates s))) as [x|] eqn:E; [|discriminate].
    apply find_debate_after_delete in E. rewrite E. auto.
Qed.

Lemma turn_rows_accounted q s0 done d0 s s' :
  existing_entry_effect q d0 s s' ->
  rows_accounted q s0 done s ->
  rows_accounted q s0 (fun x => done x \/ x = d0) s'.
Proof.
  intros [a [n [Ha [Hn [_ [_ [_ [_ Hcase]]]]]]]] Hacc dt Hin.
  assert (Hold : In dt (debateteams s) -> debateteam_debate dt <> d0 ->
     (In dt (debateteams s0) /\ ~ (done (debateteam_debate dt) \/ debateteam_debate dt = d0))
     \/ ((done (debateteam_debate dt) \/ debateteam_debate dt = d0)
         /\ In (debateteam_team dt) (requested_teams q (debateteam_debate dt)))).
  { intros Hdt Hne. destruct (Hacc dt Hdt) as [[H0 Hnd]|[Hd Hreq]]; [left|right]; tauto. }
  assert (Hkept : In dt (filter (fun x => negb (debateteam_debate x =? d0)) (debateteams s)) ->
                  In dt (debateteams s) /\ debateteam_debate dt <> d0).
  { intros H. apply filter_In in H. destruct H as [H1 H2]. split; [exact H1|].
    intros Heq. rewrite Heq, Z.eqb_refl in H2. discriminate. }
  destruct (Py.truthy (Py.replace a "team_" "") && Py.truthy (Py.replace n "team_" "")).
  - destruct Hcase as [ta [tn [Hpa [Hpn [_ [_ [_ [Hdt _]]]]]]]].
    assert (Hreq : requested_teams q d0 = [ta; tn]).
    { unfold requested_teams. rewrite Ha, Hn, Hpa, Hpn. reflexivity. }
    rewrite Hdt in Hin. apply in_app_or in Hin. destruct Hin as [Hin|Hin].
    + apply Hkept in Hin. apply Hold; tauto.
    + right. destruct Hin as [<-|[<-|[]]]; simpl; rewrite Hreq; simpl; tauto.
  - destruct Hcase as [_ [Hdt _]]. rewrite Hdt in Hin.
    apply Hkept in Hin. apply Hold; tauto.
Qed.

Lemma rows_accounted_ext q s0 (P Q : Z -> Prop) s :
  (forall x, P x <-> Q x) -> rows_accounted q s0 P s -> rows_accounted q s0 Q s.
Proof.
  intros Hpq Hacc dt Hin. destruct (Hacc dt Hin) as [[H0 Hn]|[Hd Hreq]].
  - left. split; [exact H0|]. rewrite <- Hpq. exact Hn.
  - right. split; [|exact Hreq]. rewrite <- Hpq. exact Hd.
Qed.

Lemma first_loop_rows_accounted q s0 ids : forall done s s',
  for_each ids (edit_existing_debate q) s = (Ok tt, s') ->
  rows_accounted q s0 done s ->
  (forall d r, round_of s d = Some r -> round_of s0 d = Some r) ->
  rows_accounted q s0 (fun x => done x \/ In x ids) s'
  /\ (forall d r, round_of s' d = Some r -> round_of s0 d = Some r).
Proof.
  induction ids as [|d0 ids IH]; intros done s s' Hrun Hacc Hround.
  - inversion Hrun; subst. split; [|exact Hround].
    apply (rows_accounted_ext (P := done)); [|exact Hacc]. simpl. tauto.
  - rewrite for_each_cons in Hrun.
    destruct (edit_existing_debate q d0 s) as [[[]|e] s1] eqn:E; [|discriminate].
    apply edit_existing_debate_ok in E.
    destruct (IH (fun x => done x \/ x = d0) s1 s' Hrun (turn_rows_accounted E Hacc))
      as [Hacc' Hround'].
    { intros d r Hr. apply Hround. apply (turn_round_of E _ Hr). }
    split; [|exact Hround'].
    apply (rows_accounted_ext (P := fun x => (done x \/ x = d0) \/ In x ids));
      [|exact Hacc'].
    intros x. simpl. split; intros H; intuition congruence.
Qed.

(** C4, as the code has it.  A submission that succeeds keeps every debate
    at one row per position at most.  It keeps every team in one debate of
    a round at most when the submission itself does: no team is asked for
    in two debates, and no team asked for sits in a debate of the same
    round that the submission does not list.  The view checks neither. *)
Theorem C4_invariants_after_save req s resp s' ids :
  ids_with_prefix "debate_" (POST req) = Ok ids ->
  SaveDrawMatchups_post req s = (Ok resp, s') ->
  one_per_position s ->
  one_per_position s'
  /\ (team_in_one_debate s ->
      (forall d1 d2 t,
          In d1 ids -> In d2 ids ->
          In t (requested_teams (POST req) d1) ->
          In t (requested_teams (POST req) d2) -> d1 = d2) ->
      (forall dt d,
          In dt (debateteams s) -> ~ In (debateteam_debate dt) ids ->
          In d ids -> In (debateteam_team dt) (requested_teams (POST req) d) ->
          round_of s (debateteam_debate dt) <> round_of s d) ->
      team_in_one_debate s').
Proof.
  intros Hids Hrun Hone.
  apply SaveDrawMatchups_post_ok in Hrun.
  destruct Hrun as [_ [ids' [Hids' Hloop]]].
  rewrite Hids in Hids'. inversion Hids'; subst ids'.
  split; [apply (first_loop_keeps_one_per_position _ _ Hloop Hone)|].
  intros Hteam Hdistinct Hclear.
  destruct (@first_loop_rows_accounted (POST req) s ids (fun _ => False) s s' Hloop)
    as [Hacc Hround].
  { intros dt Hin. left. tauto. }
  { auto. }
  intros dt1 dt2 r Hin1 Hin2 Hsame Hr1 Hr2.
  apply Hround in Hr1. apply Hround in Hr2.
  destruct (Hacc dt1 Hin1) as [[Ho1 Hn1]|[Hd1 Hq1]];
    destruct (Hacc dt2 Hin2) as [[Ho2 Hn2]|[Hd2 Hq2]].
  - apply (Hteam dt1 dt2 r Ho1 Ho2 Hsame Hr1 Hr2).
  - exfalso. destruct Hd2 as [[]|Hd2].
    apply (Hclear dt1 (debateteam_debate dt2) Ho1); [tauto|exact Hd2| |congruence].
    rewrite Hsame. exact Hq2.
  - exfalso. destruct Hd1 as [[]|Hd1].
    apply (Hclear dt2 (debateteam_debate dt1) Ho2); [tauto|exact Hd1| |congruence].
    rewrite <- Hsame. exact Hq1.
  - destruct Hd1 as [[]|Hd1]. destruct Hd2 as [[]|Hd2].
    apply (Hdistinct _ _ (debateteam_team dt1) Hd1 Hd2 Hq1). rewrite Hsame. exact Hq2.
Qed.

Lemma sample_one_per_position : one_per_position Sample.store0.
Proof.
  intros d p. cbn -[Z.eqb].
  destruct (Z.eqb_spec 1 d), (Z.eqb_spec 2 d), (Z.eqb_spec 3 d);
    try lia; destruct p; cbn; lia.
Qed.

Lemma sample_team_in_one_debate : team_in_one_debate Sample.store0.
Proof.
  intros dt1 dt2 r H1 H2. simpl in H1, H2.
  repeat (destruct H1 as [<-|H1]); try contradiction;
    repeat (destruct H2 as [<-|H2]); try contradiction;
    simpl; intros; try reflexivity; discriminate.
Qed.

(** Debate 1 is given teams 3 and 4 and debate 2 is dropped: no team is
    asked for twice, and the teams of debate 3 are not asked for. *)
Lemma C4_invariants_after_save_witness :
  one_per_position
    (snd (SaveDrawMatchups_post (Sample.on_round 2 Sample.swap_and_drop) Sample.store0))
  /\ team_in_one_debate
    (snd (SaveDrawMatchups_post (Sample.on_round 2 Sample.swap_and_drop) Sample.store0)).
Proof.
  destruct (@C4_invariants_after_save (Sample.on_round 2 Sample.swap_and_drop)
              Sample.store0 (HttpResponse "ok")
              (snd (SaveDrawMatchups_post (Sample.on_round 2 Sample.swap_and_drop)
                      Sample.store0))
              [1; 2] eq_refl eq_refl sample_one_per_position) as [Hone Hteam].
  split; [exact Hone|]. apply Hteam.
  - exact sample_team_in_one_debate.
  - intros d1 d2 t [<-|[<-|[]]] [<-|[<-|[]]]; simpl; intros H1 H2;
      try reflexivity; contradiction.
  - intros dt d Hdt Hnot [<-|[<-|[]]]; simpl in *.
    + repeat (destruct Hdt as [<-|Hdt]); simpl in *; try tauto;
        intros [H|[H|[]]]; discriminate.
    + intros [].
Defined.

(** C4 as stated fails when a team is asked for twice: team 1 is sent as
    affirmative of debate 1 and of debate 2, both in round 2.  The store
    before has one row per position and one debate per team; the request
    succeeds; afterwards team 1 is in two debates of round 2. *)
Lemma C4_team_twice_counterexample :
  one_per_position Sample.store0
  /\ team_in_one_debate Sample.store0
  /\ fst (SaveDrawMatchups_post (Sample.on_round 2 Sample.team_twice) Sample.store0)
     = Ok (HttpResponse "ok")
  /\ ~ team_in_one_debate
       (snd (SaveDrawMatchups_post (Sample.on_round 2 Sample.team_twice) Sample.store0)).
Proof.
  split; [exact sample_one_per_position|].
  split; [exact sample_team_in_one_debate|].
  split; [reflexivity|].
  intros H.
  specialize (H (mk_debateteam 7 1 1 POSITION_AFFIRMATIVE)
                (mk_debateteam 9 2 1 POSITION_AFFIRMATIVE) 2).
  simpl in H. discriminate H; auto 10.
Qed.

(* ====================================================================== *)
(** ** The status commands along their edges *)
(* ====================================================================== *)

Lemma confirm_is_status_command :
  ConfirmDrawCreationView_post
  = status_command STATUS_DRAFT STATUS_CONFIRMED "Draw status is not DRAFT".
Proof. reflexivity. Qed.

Lemma release_is_status_command :
  DrawReleaseView_post
  = status_command STATUS_CONFIRMED STATUS_RELEASED "Draw status is not CONFIRMED".
Proof. reflexivity. Qed.

Lemma unrelease_is_status_command :
  DrawUnreleaseView_post
  = status_command STATUS_RELEASED STATUS_CONFIRMED "Draw status is not RELEASED".
Proof. reflexivity. Qed.

(** The store after a status command went through. *)
Lemma status_command_through guard target refusal req s round :
  find (fun r => round_id r =? url_round req) (rounds s) = Some round ->
  round_draw_status round = guard ->
  status_command guard target refusal req s
  = (Ok (HttpResponseRedirect "draw" (round_id round)),
     set_rounds (ORM.update round_id (set_draw_status target round) (rounds s)) s)
  /\ find (fun r => round_id r =? url_round req)
          (ORM.update round_id (set_draw_status target round) (rounds s))
     = Some (set_draw_status target round).
Proof.
  intros Hfind Hst.
  assert (Hid : round_id round = url_round req).
  { apply find_some in Hfind. destruct Hfind as [_ H]. now apply Z.eqb_eq in H. }
  assert (Hafter : find (fun r => round_id r =? url_round req)
          (ORM.update round_id (set_draw_status target round) (rounds s))
     = Some (set_draw_status target round)).
  { apply find_after_update with (round := round); [exact Hfind|exact Hid]. }
  split; [|exact Hafter].
  unfold status_command, bind. rewrite (@get_round_found req s round Hfind).
  rewrite Hst. replace (draw_status_eqb guard guard) with true
    by (symmetry; apply draw_status_eqb_eq; reflexivity).
  unfold ORM.Round_save, modify, DrawStatusEdit_post, bind, get_round. simpl.
  rewrite Hafter. reflexivity.
Qed.

(** Release and unrelease, and where the round is found afterwards. *)
Lemma status_commands_follow_edges_aux req s round :
  find (fun r => round_id r =? url_round req) (rounds s) = Some round ->
  let after target := set_rounds (ORM.update round_id (set_draw_status target round) (rounds s)) s in
  (round_draw_status round = STATUS_CONFIRMED ->
     DrawReleaseView_post req s
     = (Ok (HttpResponseRedirect "draw" (round_id round)), after STATUS_RELEASED))
  /\ (round_draw_status round = STATUS_RELEASED ->
     DrawUnreleaseView_post req s
     = (Ok (HttpResponseRedirect "draw" (round_id round)), after STATUS_CONFIRMED))
  /\ forall target,
      find (fun r => round_id r =? url_round req) (rounds (after target))
      = Some (set_draw_status target round).
Proof.
  intros Hfind after. split; [|split].
  - intros Hst. rewrite release_is_status_command.
    apply (@status_command_through _ _ _ req s round Hfind Hst).
  - intros Hst. rewrite unrelease_is_status_command.
    apply (@status_command_through _ _ _ req s round Hfind Hst).
  - intros target.
    apply (@status_command_through _ target "" req s round Hfind eq_refl).
Qed.

(** What a status command that went through leaves behind. *)
Lemma status_command_moved guard target refusal req s round :
  find (fun r => round_id r =? url_round req) (rounds s) = Some round ->
  round_draw_status round = guard ->
  let out := status_command guard target refusal req s in
  fst out = Ok (HttpResponseRedirect "draw" (round_id round))
  /\ (exists saved,
         find (fun r => round_id r =? url_round req) (rounds (snd out)) = Some saved
         /\ round_draw_status saved = target
         /\ round_id saved = round_id round
         /\ round_name saved = round_name round
         /\ round_tournament saved = round_tournament round
         /\ round_starts_at saved = round_starts_at round)
  /\ (forall k, k <> url_round req ->
         find (fun r => round_id r =? k) (rounds (snd out))
         = find (fun r => round_id r =? k) (rounds s))
  /\ debates (snd out) = debates s
  /\ debateteams (snd out) = debateteams s
  /\ teams (snd out) = teams s.
Proof.
  intros Hfind Hst out.
  assert (Hid : round_id round = url_round req).
  { apply find_some in Hfind. destruct Hfind as [_ H]. now apply Z.eqb_eq in H. }
  destruct (@status_command_through guard target refusal req s round Hfind Hst)
    as [Hrun Hafter].
  subst out. rewrite Hrun. cbn [fst snd]. split; [reflexivity|]. split.
  { exists (set_draw_status target round). split; [exact Hafter|]. repeat split. }
  split; [|repeat split].
  intros k Hk. simpl. apply find_other_after_update. simpl. congruence.
Qed.

(** Confirm from DRAFT, release from CONFIRMED and unrelease from RELEASED
    go through: the answer is the redirect to the draw page, the round of
    the URL is found afterwards with the new status and its other fields
    as before, the other rounds are found as before, and debates, debate
    teams and teams are as they were. *)
Theorem status_commands_follow_edges req s round :
  find (fun r => round_id r =? url_round req) (rounds s) = Some round ->
  let moved (out : result response * store) (target : draw_status) :=
    fst out = Ok (HttpResponseRedirect "draw" (round_id round))
    /\ (exists saved,
           find (fun r => round_id r =? url_round req) (rounds (snd out)) = Some saved
           /\ round_draw_status saved = target
           /\ round_id saved = round_id round
           /\ round_name saved = round_name round
           /\ round_tournament saved = round_tournament round
           /\ round_starts_at saved = round_starts_at round)
    /\ (forall k, k <> url_round req ->
           find (fun r => round_id r =? k) (rounds (snd out))
           = find (fun r => round_id r =? k) (rounds s))
    /\ debates (snd out) = debates s
    /\ debateteams (snd out) = debateteams s
    /\ teams (snd out) = teams s in
  (round_draw_status round = STATUS_DRAFT ->
     moved (ConfirmDrawCreationView_post req s) STATUS_CONFIRMED)
  /\ (round_draw_status round = STATUS_CONFIRMED ->
     moved (DrawReleaseView_post req s) STATUS_RELEASED)
  /\ (round_draw_status round = STATUS_RELEASED ->
     moved (DrawUnreleaseView_post req s) STATUS_CONFIRMED).
Proof.
  intros Hfind moved. subst moved. cbv beta.
  split; [|split]; intros Hst.
  - rewrite confirm_is_status_command.
    apply (@status_command_moved _ _ _ req s round Hfind Hst).
  - rewrite release_is_status_command.
    apply (@status_command_moved _ _ _ req s round Hfind Hst).
  - rewrite unrelease_is_status_command.
    apply (@status_command_moved _ _ _ req s round Hfind Hst).
Qed.

(** Round 2 is confirmed, round 3 released, round 4 unreleased. *)
Lemma status_commands_follow_edges_witness :
  fst (ConfirmDrawCreationView_post (Sample.on_round 2 []) Sample.store0)
  = Ok (HttpResponseRedirect "draw" 2)
  /\ fst (DrawReleaseView_post (Sample.on_round 3 []) Sample.store0)
     = Ok (HttpResponseRedirect "draw" 3)
  /\ fst (DrawUnreleaseView_post (Sample.on_round 4 []) Sample.store0)
     = Ok (HttpResponseRedirect "draw" 4).
Proof.
  destruct (@status_commands_follow_edges (Sample.on_round 2 []) Sample.store0
              Sample.round_draft eq_refl) as [Hc _].
  destruct (@status_commands_follow_edges (Sample.on_round 3 []) Sample.store0
              Sample.round_confirmed eq_refl) as [_ [Hr _]].
  destruct (@status_commands_follow_edges (Sample.on_round 4 []) Sample.store0
              Sample.round_released eq_refl) as [_ [_ Hu]].
  split; [apply (Hc eq_refl)|]. split; [apply (Hr eq_refl)|apply (Hu eq_refl)].
Defined.

Lemma set_draw_status_same round :
  set_draw_status (round_draw_status round) round = round.
Proof. destruct round. reflexivity. Qed.

Lemma set_rounds_same s : set_rounds (rounds s) s = s.
Proof. destruct s. reflexivity. Qed.

(** Writing a row over the rows of its key and then the row that was
    there before gives the table back, when the key is in one row. *)
Lemma update_back (l : list Round) round row :
  filter (fun r => round_id r =? round_id round) l = [round] ->
  round_id row = round_id round ->
  ORM.update round_id round (ORM.update round_id row l) = l.
Proof.
  intros Hone Hid.
  assert (Hin : existsb (fun r => round_id r =? round_id round) l = true).
  { apply existsb_exists. exists round. apply (filter_single_in _ _ Hone). }
  unfold ORM.update at 2. rewrite Hid, Hin.
  unfold ORM.update.
  assert (Hin' : existsb (fun r => round_id r =? round_id round)
                   (map (fun r => if round_id r =? round_id round then row else r) l) = true).
  { apply existsb_exists. exists row. split; [|rewrite Hid; apply Z.eqb_refl].
    apply in_map_iff. exists round. rewrite Z.eqb_refl. split; [reflexivity|].
    apply (filter_single_in _ _ Hone). }
  rewrite Hin', map_map. rewrite <- (map_id l) at 2. apply map_ext_in.
  intros r Hr. destruct (round_id r =? round_id round) eqn:E.
  - rewrite Hid, Z.eqb_refl.
    assert (Hf : In r (filter (fun r => round_id r =? round_id round) l)).
    { apply filter_In. auto. }
    rewrite Hone in Hf. destruct Hf as [Heq|[]]. exact Heq.
  - rewrite E. reflexivity.
Qed.

(** Release and then unrelease, on a round that is CONFIRMED and alone
    under its key, give the store back as it was; so do unrelease and then
    release on a RELEASED round. *)
Theorem release_unrelease_round_trip req s round :
  filter (fun r => round_id r =? url_round req) (rounds s) = [round] ->
  (round_draw_status round = STATUS_CONFIRMED ->
     (DrawReleaseView_post req ;; DrawUnreleaseView_post req) s
     = (Ok (HttpResponseRedirect "draw" (round_id round)), s))
  /\ (round_draw_status round = STATUS_RELEASED ->
     (DrawUnreleaseView_post req ;; DrawReleaseView_post req) s
     = (Ok (HttpResponseRedirect "draw" (round_id round)), s)).
Proof.
  intros Hone.
  pose proof (filter_single_in _ _ Hone) as [Hin Hid]. apply Z.eqb_eq in Hid.
  assert (Hfind : find (fun r => round_id r =? url_round req) (rounds s) = Some round).
  { destruct (find (fun r => round_id r =? url_round req) (rounds s)) as [x|] eqn:E.
    - apply find_some in E.
      assert (Hf : In x (filter (fun r => round_id r =? url_round req) (rounds s)))
        by (apply filter_In; exact E).
      rewrite Hone in Hf. destruct Hf as [->|[]]. reflexivity.
    - exfalso. apply (find_none _ _ E) in Hin. rewrite Hid, Z.eqb_refl in Hin.
      discriminate. }
  assert (Hback : forall first second a b,
     round_draw_status round = second ->
     (status_command second first a req ;; status_command first second b req) s
     = (Ok (HttpResponseRedirect "draw" (round_id round)), s)).
  { intros first second a b Hst. unfold bind at 1.
    destruct (@status_command_through second first a req s round Hfind Hst)
      as [Hrun Hafter].
    rewrite Hrun.
    assert (Hfind2 : find (fun r => round_id r =? url_round req)
              (rounds (set_rounds (ORM.update round_id (set_draw_status first round)
                                              (rounds s)) s))
            = Some (set_draw_status first round)) by exact Hafter.
    destruct (@status_command_through first second b req _ _ Hfind2 eq_refl)
      as [Hrun2 _].
    rewrite Hrun2. apply f_equal2; [reflexivity|].
    assert (Hr : set_draw_status second (set_draw_status first round) = round)
      by (rewrite <- Hst; destruct round; reflexivity).
    rewrite Hr.
    assert (Hb : ORM.update round_id round
                   (ORM.update round_id (set_draw_status first round) (rounds s))
                 = rounds s).
    { apply update_back; [rewrite Hid; exact Hone|reflexivity]. }
    destruct s.
    cbn [set_rounds rounds teams debates debateteams next_debate_id next_debateteam_id
         adjudicator_venue_constraints messages actionlog] in *.
    rewrite Hb. reflexivity. }
  rewrite release_is_status_command, unrelease_is_status_command.
  split; intros Hst; apply Hback; exact Hst.
Qed.

(** Round 3 is released and unreleased again. *)
Lemma release_unrelease_round_trip_witness :
  (DrawReleaseView_post (Sample.on_round 3 []) ;; DrawUnreleaseView_post (Sample.on_round 3 []))
    Sample.store0
  = (Ok (HttpResponseRedirect "draw" 3), Sample.store0).
Proof.
  apply (@release_unrelease_round_trip (Sample.on_round 3 []) Sample.store0
           Sample.round_confirmed eq_refl).
  reflexivity.
Defined.

(* ====================================================================== *)
(** ** The pages after a status command *)
(* ====================================================================== *)



(* ====================================================================== *)
(** ** Creating a draw *)
(* ====================================================================== *)

(** [CreateDrawView.post] on a round without a draw, by the outcome of
    the generator. *)
Lemma create_draw_run manager_create allocate_venues req s round :
  find (fun r => round_id r =? url_round req) (rounds s) = Some round ->
  round_draw_status round = STATUS_NONE ->
  CreateDrawView_post manager_create allocate_venues req s
  = match manager_create round s with
    | (Ok _, s1) =>
        ((if Nat.eqb (adjudicator_venue_constraints s1) 0 then allocate_venues round
          else add_message WARNING
                 ("Venues were not auto-allocated because there are one or more adjudicator venue constraints. "
                  ++ "You should run venue allocations after allocating adjudicators.")) ;;
         log_action "ACTION_TYPE_DRAW_CREATE" req ;;
         DrawStatusEdit_post req) s1
    | (Raise (Py.DrawError msg), s1) =>
        (Ok (HttpResponseRedirect "availability_index" (round_id round)),
         set_messages
           (messages s1 ++ [(ERROR, "There was a problem creating the draw: " ++ msg
                                    ++ " If this issue persists, please contact the developers.")])
           s1)
    | (Raise e, s1) => (Raise e, s1)
    end.
Proof.
  intros Hfind Hst. unfold CreateDrawView_post, bind at 1.
  rewrite (@get_round_found req s round Hfind), Hst.
  cbn [draw_status_eqb negb]. unfold bind at 1, catch_DrawError.
  destruct (manager_create round s) as [[[]|e] s1]; [reflexivity|].
  destruct e; reflexivity.
Qed.

(** Creating a draw for a round without one.  A [DrawError] of the
    pairing generator is answered with its message and the redirect to
    the availability page: nothing is logged and the venue allocator is
    not run.  Any other exception of the generator escapes the view.
    When the generator went through and there are adjudicator venue
    constraints, the venue allocator has no part in the outcome. *)
Theorem create_draw_after_generator manager_create req s round :
  find (fun r => round_id r =? url_round req) (rounds s) = Some round ->
  round_draw_status round = STATUS_NONE ->
  (forall msg s1 allocate_venues,
      manager_create round s = (Raise (Py.DrawError msg), s1) ->
      CreateDrawView_post manager_create allocate_venues req s
      = (Ok (HttpResponseRedirect "availability_index" (round_id round)),
         set_messages
           (messages s1 ++ [(ERROR, "There was a problem creating the draw: " ++ msg
                                    ++ " If this issue persists, please contact the developers.")])
           s1))
  /\ (forall e s1 allocate_venues,
      manager_create round s = (Raise e, s1) ->
      (forall msg, e <> Py.DrawError msg) ->
      CreateDrawView_post manager_create allocate_venues req s = (Raise e, s1))
  /\ (forall s1 allocate1 allocate2,
      manager_create round s = (Ok tt, s1) ->
      adjudicator_venue_constraints s1 <> O ->
      CreateDrawView_post manager_create allocate1 req s
      = CreateDrawView_post manager_create allocate2 req s).
Proof.
  intros Hfind Hst. split; [|split].
  - intros msg s1 al Hmc. rewrite (@create_draw_run manager_create al req s round Hfind Hst), Hmc. reflexivity.
  - intros e s1 al Hmc Hne. rewrite (@create_draw_run manager_create al req s round Hfind Hst), Hmc.
    destruct e; try reflexivity. exfalso. apply (Hne msg). reflexivity.
  - intros s1 al1 al2 Hmc Hn.
    rewrite (@create_draw_run manager_create al1 req s round Hfind Hst), (@create_draw_run manager_create al2 req s round Hfind Hst), Hmc.
    destruct (adjudicator_venue_constraints s1) as [|n] eqn:E; [contradiction|].
    reflexivity.
Qed.

(** Round 1 has no draw; the generator reports an odd number of teams. *)
Lemma create_draw_after_generator_witness :
  CreateDrawView_post (fun _ => raise (Py.DrawError "odd number of teams."))
                      (fun _ => raise Py.KeyError) (Sample.on_round 1 []) Sample.store0
  = (Ok (HttpResponseRedirect "availability_index" 1),
     set_messages
       [(ERROR, "There was a problem creating the draw: odd number of teams."
                ++ " If this issue persists, please contact the developers.")]
       Sample.store0)
  /\ CreateDrawView_post (fun _ => raise Py.IndexError) (fun _ => ret tt)
                         (Sample.on_round 1 []) Sample.store0
     = (Raise Py.IndexError, Sample.store0)
  /\ CreateDrawView_post
       (fun _ => modify (fun s => mk_store (rounds s) (teams s) (debates s) (debateteams s)
                                           (next_debate_id s) (next_debateteam_id s) 1
                                           (messages s) (actionlog s)))
       (fun _ => raise Py.KeyError) (Sample.on_round 1 []) Sample.store0
     = CreateDrawView_post
       (fun _ => modify (fun s => mk_store (rounds s) (teams s) (debates s) (debateteams s)
                                           (next_debate_id s) (next_debateteam_id s) 1
                                           (messages s) (actionlog s)))
       (fun _ => ret tt) (Sample.on_round 1 []) Sample.store0.
Proof.
  split; [|split].
  - destruct (@create_draw_after_generator
                (fun _ => raise (Py.DrawError "odd number of teams."))
                (Sample.on_round 1 []) Sample.store0 Sample.round_none eq_refl eq_refl)
      as [H _].
    exact (H "odd number of teams." Sample.store0 (fun _ => raise Py.KeyError) eq_refl).
  - destruct (@create_draw_after_generator
                (fun _ => raise Py.IndexError)
                (Sample.on_round 1 []) Sample.store0 Sample.round_none eq_refl eq_refl)
      as [_ [H _]].
    apply (H Py.IndexError Sample.store0 (fun _ => ret tt) eq_refl).
    intros msg. discriminate.
  - destruct (@create_draw_after_generator
                (fun _ => modify (fun s => mk_store (rounds s) (teams s) (debates s)
                                              (debateteams s)
                                              (next_debate_id s) (next_debateteam_id s) 1
                                              (messages s) (actionlog s)))
                (Sample.on_round 1 []) Sample.store0 Sample.round_none eq_refl eq_refl)
      as [_ [_ H]].
    apply (H _ (fun _ => raise Py.KeyError) (fun _ => ret tt) eq_refl).
    simpl. discriminate.
Defined.

(* ====================================================================== *)
(** ** The start time on the draw page *)
(* ====================================================================== *)

Lemma first_alt_some k alts s res :
  Datetime.first_alt k alts s = Some res ->
  exists a t r, In a alts /\ Datetime.match_alt a s = Some (t, r) /\ k t r = Some res.
Proof.
  induction alts as [|a alts IH]; simpl; [discriminate|].
  destruct (Datetime.match_alt a s) as [[t r]|] eqn:E.
  - destruct (k t r) as [res'|] eqn:K.
    + intros H. inversion H; subst. exists a, t, r. auto.
    + intros H. destruct (IH H) as [a' [t' [r' [Hin H']]]]. exists a', t', r'. auto.
  - intros H. destruct (IH H) as [a' [t' [r' [Hin H']]]]. exists a', t', r'. auto.
Qed.

(** What [strptime] with [%H:%M] returns: the first of January 1900 at an
    hour and a minute of the day, seconds at zero. *)
Lemma strptime_HM_fields text p :
  Datetime.strptime text "%H:%M" = Some p ->
  exists h m,
    p = Datetime.mk_datetime 1900 1 1 (Datetime.mk_time h m 0 0)
    /\ 0 <= h <= 23 /\ 0 <= m <= 59.
Proof.
  unfold Datetime.strptime.
  change (Datetime.compile (list_ascii_of_string "%H:%M") false)
    with (Some [Datetime.Dir Datetime.dH; Datetime.Lit ":"%char; Datetime.Dir Datetime.dM]).
  cbn [Datetime.regex_match].
  destruct (Datetime.first_alt _ _ _) as [[g rest]|] eqn:E; [|discriminate].
  apply first_alt_some in E. destruct E as [a [t [r [_ [_ Hk]]]]].
  destruct r as [|x r]; [discriminate|].
  destruct (Ascii.eqb ":" x); [|discriminate].
  destruct (Datetime.first_alt _ _ r) as [[g2 rest2]|] eqn:E2; [|discriminate].
  apply first_alt_some in E2. destruct E2 as [a2 [t2 [r2 [_ [_ Hk2]]]]].
  inversion Hk2; subst g2 rest2. inversion Hk; subst g rest. clear Hk Hk2.
  destruct r2; [|discriminate].
  cbn [Datetime.group Datetime.directive_eqb].
  destruct (Py.int_of_str (string_of_list_ascii t)) as [h|]; [|discriminate].
  destruct (Py.int_of_str (string_of_list_ascii t2)) as [m|]; [|discriminate].
  destruct (Datetime.valid_date 1900 1 1 && Datetime.valid_time h m 0) eqn:V; [|discriminate].
  intros H. inversion H; subst p. exists h, m. split; [reflexivity|].
  apply andb_prop in V. destruct V as [_ V]. unfold Datetime.valid_time in V.
  repeat (apply andb_prop in V; destruct V as [V ?]).
  repeat match goal with H : (_ <=? _) = true |- _ => apply Z.leb_le in H end. lia.
Qed.

(** Every hour and minute of the day, printed with [%H:%M] and read back
    with [%H:%M]: checked one by one. *)
Lemma strftime_strptime_all :
  forallb (fun h =>
    forallb (fun m =>
      match Datetime.strptime (strftime_HM (Datetime.mk_time (Z.of_nat h) (Z.of_nat m) 0 0))
                              "%H:%M" with
      | Some p =>
          (Datetime.year p =? 1900) && (Datetime.month p =? 1) && (Datetime.day p =? 1)
          && (Datetime.hour (Datetime.dt_time p) =? Z.of_nat h)
          && (Datetime.minute (Datetime.dt_time p) =? Z.of_nat m)
          && (Datetime.second (Datetime.dt_time p) =? 0)
          && (Datetime.microsecond (Datetime.dt_time p) =? 0)
      | None => false
      end) (seq 0 60)) (seq 0 24) = true.
Proof. vm_compute. reflexivity. Qed.

Lemma strftime_strptime h m sec us :
  0 <= h <= 23 -> 0 <= m <= 59 ->
  Datetime.strptime (strftime_HM (Datetime.mk_time h m sec us)) "%H:%M"
  = Some (Datetime.mk_datetime 1900 1 1 (Datetime.mk_time h m 0 0)).
Proof.
  intros Hh Hm.
  pose proof strftime_strptime_all as Hall.
  rewrite forallb_forall in Hall.
  specialize (Hall (Z.to_nat h)). rewrite in_seq in Hall.
  specialize (Hall ltac:(lia)). rewrite forallb_forall in Hall.
  specialize (Hall (Z.to_nat m)). rewrite in_seq in Hall.
  specialize (Hall ltac:(lia)).
  rewrite !Z2Nat.id in Hall by lia.
  change (strftime_HM (Datetime.mk_time h m sec us))
    with (strftime_HM (Datetime.mk_time h m 0 0)).
  destruct (Datetime.strptime _ _) as [p|]; [|discriminate].
  destruct p as [y mo d [hh mm ss u]]. simpl in Hall.
  repeat (apply andb_prop in Hall; destruct Hall as [Hall ?]).
  repeat match goal with H : (_ =? _) = true |- _ => apply Z.eqb_eq in H end.
  subst. reflexivity.
Qed.

(** Once a start time was accepted, the subtitle of the round's draw
    pages shows it with [%H:%M], and what the subtitle shows reads back
    as the time that was stored: "9:5" is shown as "09:05". *)
Theorem start_time_shown_reads_back req s round time_text parsed :
  QueryDict.get (POST req) "start_time" = Some time_text ->
  find (fun r => round_id r =? url_round req) (rounds s) = Some round ->
  Datetime.strptime time_text "%H:%M" = Some parsed ->
  let s' := snd (SetRoundStartTimeView_post req s) in
  BaseDrawTableView_get_page_subtitle req s'
  = (Ok ("debates start at " ++ strftime_HM (Datetime.dt_time parsed)), s')
  /\ Datetime.strptime (strftime_HM (Datetime.dt_time parsed)) "%H:%M" = Some parsed.
Proof.
  intros Hget Hfind Hparse s'.
  destruct (@start_time_stored req s round time_text parsed Hget Hfind Hparse)
    as [Hrun Hafter].
  subst s'. rewrite Hrun. cbn [snd]. split.
  - unfold BaseDrawTableView_get_page_subtitle, bind.
    rewrite (@get_round_found req _ _ Hafter). reflexivity.
  - destruct (strptime_HM_fields _ Hparse) as [h [m [-> [Hh Hm]]]].
    apply strftime_strptime; assumption.
Qed.

(** Round 2 is sent "9:5". *)
Lemma start_time_shown_reads_back_witness :
  fst (BaseDrawTableView_get_page_subtitle (Sample.on_round 2 [("start_time", "9:5")])
         (snd (SetRoundStartTimeView_post (Sample.on_round 2 [("start_time", "9:5")])
                 Sample.store0)))
  = Ok "debates start at 09:05".
Proof.
  destruct (@start_time_shown_reads_back (Sample.on_round 2 [("start_time", "9:5")])
              Sample.store0 Sample.round_draft "9:5"
              (Datetime.mk_datetime 1900 1 1 (Datetime.mk_time 9 5 0 0))
              eq_refl eq_refl eq_refl) as [H _].
  rewrite H. reflexivity.
Defined.

(* ====================================================================== *)
(** ** The keys and values of the matchup form *)
(* ====================================================================== *)

Lemma int_digits_step c cs b acc :
  Py.isdigit c = true ->
  Py.int_digits (c :: cs) b acc = Py.int_digits cs true (10 * acc + Py.digit_val c).
Proof. intros H. simpl. rewrite H. reflexivity. Qed.

(** The characters of a decimal numeral are digits. *)
Lemma uint_chars_digits d :
  Forall (fun c => Py.isdigit c = true)
         (list_ascii_of_string (NilEmpty.string_of_uint d)).
Proof. induction d; simpl; constructor; auto. Qed.

Lemma digits_from_positive d : forall p,
  Py.int_digits (list_ascii_of_string (NilEmpty.string_of_uint d)) true (Z.pos p)
  = Some (Z.pos (Pos.of_uint_acc d p)).
Proof.
  induction d; intros p; cbn [NilEmpty.string_of_uint list_ascii_of_string Pos.of_uint_acc];
    [reflexivity|..];
    rewrite int_digits_step by reflexivity;
    match goal with
    | |- context [Py.digit_val ?c] =>
        let k := eval vm_compute in (Py.digit_val c) in
        change (Py.digit_val c) with k
    end;
    match goal with
    | |- Py.int_digits _ true ?v = Some (Z.pos (Pos.of_uint_acc _ ?q)) =>
        replace v with (Z.pos q) by lia
    end;
    apply IHd.
Qed.

Lemma digits_from_zero d :
  Py.int_digits (list_ascii_of_string (NilEmpty.string_of_uint d)) true 0
  = Some (Z.of_N (Pos.of_uint d)).
Proof.
  induction d; cbn [NilEmpty.string_of_uint list_ascii_of_string Pos.of_uint];
    [reflexivity|..];
    rewrite int_digits_step by reflexivity;
    match goal with
    | |- context [Py.digit_val ?c] =>
        let k := eval vm_compute in (Py.digit_val c) in
        change (Py.digit_val c) with k
    end;
    cbn [Z.mul Z.add];
    first [ exact IHd | apply digits_from_positive ].
Qed.

Lemma digits_first d b acc :
  d <> Decimal.Nil ->
  Py.int_digits (list_ascii_of_string (NilEmpty.string_of_uint d)) b acc
  = Py.int_digits (list_ascii_of_string (NilEmpty.string_of_uint d)) true acc.
Proof.
  intros Hd. destruct d; [contradiction|..];
    cbn [NilEmpty.string_of_uint list_ascii_of_string];
    rewrite !int_digits_step by reflexivity; reflexivity.
Qed.

Lemma digit_facts c :
  Py.isdigit c = true ->
  Py.isspace_c c = false /\ Ascii.eqb c "-" = false /\ Ascii.eqb c "+" = false
  /\ c <> "d"%char /\ c <> "t"%char /\ c <> "n"%char.
Proof.
  destruct c as [[] [] [] [] [] [] [] []]; simpl; intros H; try discriminate H;
    repeat split; discriminate.
Qed.

Lemma lstrip_id l :
  Forall (fun c => Py.isspace_c c = false) l -> Py.lstrip l = l.
Proof. intros H. destruct H as [|c l Hc _]; simpl; [|rewrite Hc]; reflexivity. Qed.

Lemma strip_id l :
  Forall (fun c => Py.isspace_c c = false) l -> Py.strip l = l.
Proof.
  intros H. unfold Py.strip. rewrite (lstrip_id H).
  rewrite lstrip_id; [apply rev_involutive|].
  apply Forall_forall. intros c Hc. apply in_rev in Hc.
  rewrite Forall_forall in H. apply H. exact Hc.
Qed.

Lemma to_uint_not_nil p : Pos.to_uint p <> Decimal.Nil.
Proof.
  intros H. pose proof (DecimalPos.Unsigned.of_to p) as Hof.
  rewrite H in Hof. discriminate.
Qed.

(** The characters of [str(n)]: digits, after a minus sign for a negative
    [n]. *)
Lemma str_of_int_chars n :
  exists d,
    d <> Decimal.Nil /\ Z.of_N (Pos.of_uint d) = Z.abs n
    /\ Py.str_of_int n
       = if n <? 0 then String "-" (NilEmpty.string_of_uint d)
         else NilEmpty.string_of_uint d.
Proof.
  destruct n as [|p|p]; unfold Py.str_of_int; simpl.
  - exists (Decimal.D0 Decimal.Nil). repeat split. discriminate.
  - exists (Pos.to_uint p). split; [apply to_uint_not_nil|].
    split; [rewrite DecimalPos.Unsigned.of_to; reflexivity|].
    unfold NilZero.string_of_uint.
    destruct (Pos.to_uint p) eqn:E; try reflexivity.
    exfalso. apply (to_uint_not_nil p E).
  - exists (Pos.to_uint p). split; [apply to_uint_not_nil|].
    split; [rewrite DecimalPos.Unsigned.of_to; reflexivity|].
    unfold NilZero.string_of_uint.
    destruct (Pos.to_uint p) eqn:E; try reflexivity.
    exfalso. apply (to_uint_not_nil p E).
Qed.

(** [int(str(n)) == n] *)
Lemma int_of_str_of_int n : Py.int_of_str (Py.str_of_int n) = Some n.
Proof.
  destruct (str_of_int_chars n) as [d [Hd [Hval Hstr]]]. rewrite Hstr.
  pose proof (uint_chars_digits d) as Hdig.
  assert (Hns : Forall (fun c => Py.isspace_c c = false)
                       (list_ascii_of_string (NilEmpty.string_of_uint d))).
  { eapply Forall_impl; [|exact Hdig]. intros c Hc. apply (digit_facts c Hc). }
  unfold Py.int_of_str. destruct (n <? 0) eqn:Hneg.
  - cbn [list_ascii_of_string]. rewrite strip_id by (constructor; [reflexivity|exact Hns]).
    cbn [Ascii.eqb Bool.eqb]. rewrite (digits_first _ _ Hd), digits_from_zero, Hval.
    simpl. f_equal. apply Z.ltb_lt in Hneg. lia.
  - rewrite strip_id by exact Hns.
    destruct (list_ascii_of_string (NilEmpty.string_of_uint d)) as [|c l] eqn:E.
    { destruct d; try contradiction; discriminate E. }
    assert (Hc : Py.isdigit c = true) by (inversion Hdig; assumption).
    destruct (digit_facts c Hc) as [_ [-> [-> _]]].
    rewrite <- E, (digits_first _ _ Hd), digits_from_zero, Hval.
    f_equal. apply Z.ltb_ge in Hneg. lia.
Qed.

Lemma prefix_app a s : String.prefix a (a ++ s) = true.
Proof.
  induction a as [|c a IH]; simpl.
  - destruct s; reflexivity.
  - destruct (ascii_dec c c) as [_|H]; [exact IH|contradiction].
Qed.

Lemma replace_skip old new x s :
  Py.replace_from old new (String.length x) (x ++ s) = Py.replace_from old new O s.
Proof. induction x as [|c x IH]; simpl; [reflexivity|exact IH]. Qed.

(** [(old + s).replace(old, new) == new + s.replace(old, new)] *)
Lemma replace_prefix c old new s :
  Py.replace (String c old ++ s) (String c old) new
  = new ++ Py.replace s (String c old) new.
Proof.
  unfold Py.replace.
  change (String c old ++ s) with (String c (old ++ s)).
  cbn [Py.replace_from].
  change (String c (old ++ s)) with (String c old ++ s). rewrite prefix_app.
  cbn [String.length Nat.pred]. rewrite replace_skip. reflexivity.
Qed.

(** A text without the first character of [old] has no occurrence of
    [old]. *)
Lemma replace_clean c old new s :
  Forall (fun x => x <> c) (list_ascii_of_string s) ->
  Py.replace s (String c old) new = s.
Proof.
  unfold Py.replace. induction s as [|x s IH]; simpl; intros H; [reflexivity|].
  inversion H as [|? ? Hx Hs]; subst.
  destruct (ascii_dec c x) as [->|_]; [contradiction|].
  rewrite (IH Hs). reflexivity.
Qed.

Lemma str_of_int_clean n c :
  (forall x, Py.isdigit x = true -> x <> c) -> c <> "-"%char ->
  Forall (fun x => x <> c) (list_ascii_of_string (Py.str_of_int n)).
Proof.
  intros Hc Hminus. destruct (str_of_int_chars n) as [d [_ [_ ->]]].
  assert (H : Forall (fun x => x <> c) (list_ascii_of_string (NilEmpty.string_of_uint d))).
  { eapply Forall_impl; [|apply uint_chars_digits]. exact Hc. }
  destruct (n <? 0); [constructor; [congruence|exact H]|exact H].
Qed.

(** Every key of the form is among [keys]. *)
Lemma keys_from_complete k v q : forall seen,
  In (k, v) q -> QueryDict.mem k seen = false -> In k (QueryDict.keys_from seen q).
Proof.
  induction q as [|[k' v'] q IH]; intros seen Hin Hseen; [contradiction|].
  simpl. destruct Hin as [Heq|Hin].
  - inversion Heq; subst. rewrite Hseen. left. reflexivity.
  - destruct (QueryDict.mem k' seen) eqn:E; [apply IH; assumption|].
    destruct (String.eqb_spec k k') as [->|Hne]; [left; reflexivity|].
    right. apply IH; [exact Hin|]. simpl.
    destruct (String.eqb_spec k k'); [contradiction|exact Hseen].
Qed.

Lemma comprehension_in A B (f : A -> result B) l ys x y :
  comprehension f l = Ok ys -> In x l -> f x = Ok y -> In y ys.
Proof.
  revert ys. induction l as [|a l IH]; intros ys Hrun Hin Hx; [contradiction|].
  simpl in Hrun. destruct (f a) as [b|e] eqn:Ea; [|discriminate].
  destruct (comprehension f l) as [bs|e]; [|discriminate].
  inversion Hrun; subst. destruct Hin as [->|Hin].
  - left. congruence.
  - right. apply IH; auto.
Qed.

(** The identifiers come back out of the form as they went in.  A key
    [debate_<n>] (or [new_debate_<n>]) among the fields puts [n] among the
    identifiers the view goes through, and a value [team_<n>] is looked up
    as team [n], for every integer [n]. *)
Theorem form_identifiers_round_trip n :
  (forall q v ids,
      In ("debate_" ++ Py.str_of_int n, v) q ->
      ids_with_prefix "debate_" q = Ok ids -> In n ids)
  /\ (forall q v ids,
      In ("new_debate_" ++ Py.str_of_int n, v) q ->
      ids_with_prefix "new_debate_" q = Ok ids -> In n ids)
  /\ team_of_text (Py.replace ("team_" ++ Py.str_of_int n) "team_" "") = ORM.Team_get n.
Proof.
  assert (Hdec : forall c old,
     (forall x, Py.isdigit x = true -> x <> c) -> c <> "-"%char ->
     Py.int_of_str (Py.replace (String c old ++ Py.str_of_int n) (String c old) "") = Some n).
  { intros c old Hc Hm. rewrite replace_prefix, replace_clean.
    - apply int_of_str_of_int.
    - apply str_of_int_clean; assumption. }
  assert (Hids : forall c old q v ids,
     (forall x, Py.isdigit x = true -> x <> c) -> c <> "-"%char ->
     In (String c old ++ Py.str_of_int n, v) q ->
     ids_with_prefix (String c old) q = Ok ids -> In n ids).
  { intros c old q v ids Hc Hm Hin Hrun. unfold ids_with_prefix in Hrun.
    eapply comprehension_in; [exact Hrun| |].
    - apply filter_In. split.
      + unfold QueryDict.keys.
        apply keys_from_complete with (v := v); [exact Hin|reflexivity].
      + apply prefix_app.
    - cbv beta. rewrite (Hdec c old Hc Hm). reflexivity. }
  split; [|split].
  - intros q v ids. apply Hids; [|discriminate]. intros x Hx. apply (digit_facts x Hx).
  - intros q v ids. apply Hids; [|discriminate]. intros x Hx. apply (digit_facts x Hx).
  - unfold team_of_text.
    rewrite (Hdec "t"%char "eam_"); [reflexivity| |discriminate].
    intros x Hx. apply (digit_facts x Hx).
Qed.

(** Debate 12 and team 5. *)
Lemma form_identifiers_round_trip_witness :
  In 12 [3; 12]
  /\ team_of_text (Py.replace ("team_" ++ Py.str_of_int 5) "team_" "") Sample.store0
     = (Ok (mk_team 5 None), Sample.store0).
Proof.
  split.
  - destruct (form_identifiers_round_trip 12) as [H _].
    apply (H [("debate_3", ""); ("aff_3", "team_1"); ("debate_12", "")] "" [3; 12]).
    + right. right. left. reflexivity.
    + reflexivity.
  - destruct (form_identifiers_round_trip 5) as [_ [_ H]]. rewrite H. reflexivity.
Defined.

(* ====================================================================== *)
(** ** Saving edited matchups: what is left alone *)
(* ====================================================================== *)

Section Keeps.

Variable R : store -> store -> Prop.
Hypothesis R_refl : forall s, R s s.
Hypothesis R_trans : forall s1 s2 s3, R s1 s2 -> R s2 s3 -> R s1 s3.

Lemma keeps_ret A (a : A) : keeps R (ret a).
Proof. intros s r s' H. inversion H; subst. apply R_refl. Qed.

Lemma keeps_raise A e : keeps R (@raise A e).
Proof. intros s r s' H. inversion H; subst. apply R_refl. Qed.

Lemma keeps_get Row (pk_of : Row -> Z) table pk : keeps R (ORM.get pk_of table pk).
Proof.
  intros s r s'. unfold ORM.get.
  destruct (filter _ (table s)) as [|x [|y l]]; intros H; inversion H; subst; apply R_refl.
Qed.

Lemma keeps_modify f : (forall s, R s (f s)) -> keeps R (modify f).
Proof. intros Hf s r s' H. inversion H; subst. apply Hf. Qed.

(** The rest of a sequence has to keep [R] only for the values its first
    statement can return. *)
Lemma keeps_bind A B (c : M A) (k : A -> M B) :
  keeps R c ->
  (forall a, (exists s s1, c s = (Ok a, s1)) -> keeps R (k a)) ->
  keeps R (bind c k).
Proof.
  intros Hc Hk s r s'. unfold bind.
  destruct (c s) as [[a|e] s1] eqn:E; intros H.
  - apply R_trans with s1; [apply (Hc _ _ _ E)|].
    apply (Hk a (ex_intro _ s (ex_intro _ s1 E)) _ _ _ H).
  - inversion H; subst. apply (Hc _ _ _ E).
Qed.

Lemma keeps_for_each A (body : A -> M unit) l :
  (forall x, In x l -> keeps R (body x)) -> keeps R (for_each l body).
Proof.
  induction l as [|x l IH]; intros Hb; simpl.
  - apply keeps_ret.
  - apply keeps_bind; [apply Hb; left; reflexivity|].
    intros _ _. apply IH. intros y Hy. apply Hb. right. exact Hy.
Qed.

End Keeps.

Lemma untouched_refl ids s : untouched_outside ids s s.
Proof. repeat split. Qed.

Lemma untouched_trans ids s1 s2 s3 :
  untouched_outside ids s1 s2 -> untouched_outside ids s2 s3 -> untouched_outside ids s1 s3.
Proof.
  intros [Hr1 [Ht1 H1]] [Hr2 [Ht2 H2]]. split; [congruence|]. split; [congruence|].
  intros d Hd. destruct (H1 d Hd) as [Ha Hb]. destruct (H2 d Hd) as [Hc He].
  split; congruence.
Qed.

Lemma debate_exists_after_update (l : list Debate) row d :
  d <> debate_id row ->
  existsb (fun x => debate_id x =? d) (ORM.update debate_id row l)
  = existsb (fun x => debate_id x =? d) l.
Proof.
  intros Hne. unfold ORM.update.
  destruct (existsb (fun r => debate_id r =? debate_id row) l).
  - induction l as [|x l IH]; simpl; [reflexivity|]. rewrite IH.
    destruct (Z.eqb_spec (debate_id x) (debate_id row)) as [E|E]; [|reflexivity].
    destruct (Z.eqb_spec (debate_id row) d); [congruence|].
    destruct (Z.eqb_spec (debate_id x) d); [congruence|reflexivity].
  - rewrite existsb_app. simpl.
    destruct (Z.eqb_spec (debate_id row) d); [congruence|].
    rewrite !orb_false_r. reflexivity.
Qed.

Lemma debateteams_of_appended (l : list DebateTeam) row d :
  d <> debateteam_debate row ->
  filter (fun dt => debateteam_debate dt =? d) (l ++ [row])
  = filter (fun dt => debateteam_debate dt =? d) l.
Proof.
  intros Hne. rewrite filter_app. simpl.
  destruct (Z.eqb_spec (debateteam_debate row) d); [congruence|]. apply app_nil_r.
Qed.

(** A turn of the first loop for a debate of [ids] leaves everything
    outside [ids] alone, however it ends. *)
Lemma turn_untouched q ids d0 :
  In d0 ids -> keeps (untouched_outside ids) (edit_existing_debate q d0).
Proof.
  intros Hin.
  assert (Hother : forall d, ~ In d ids -> d <> d0) by (intros d Hd ->; contradiction).
  pose proof (untouched_refl ids) as Hrefl.
  pose proof (@untouched_trans ids) as Htrans.
  unfold edit_existing_debate.
  apply keeps_bind; [assumption..|apply keeps_get; assumption|].
  intros debate [s [s1 Hget]]. apply get_ok in Hget. destruct Hget as [_ Hrow].
  apply filter_single_in in Hrow. destruct Hrow as [_ Hid]. apply Z.eqb_eq in Hid.
  assert (Hsub : forall side, keeps (untouched_outside ids) (submitted_team q side d0)).
  { intros side. unfold submitted_team. destruct (QueryDict.get q _);
      [apply keeps_ret|apply keeps_raise]; assumption. }
  assert (Hteam : forall text, keeps (untouched_outside ids) (team_of_text text)).
  { intros text. unfold team_of_text. destruct (Py.int_of_str text);
      [apply keeps_get|apply keeps_raise]; assumption. }
  assert (Hcreate : forall t p,
             keeps (untouched_outside ids) (ORM.DebateTeam_create debate t p)).
  { intros t p. apply keeps_modify. intros s0. repeat split; simpl.
    unfold debateteams_of. simpl. apply debateteams_of_appended. simpl.
    rewrite Hid. apply Hother. assumption. }
  apply keeps_bind; [assumption..|apply Hsub|intros a _].
  apply keeps_bind; [assumption..|apply Hsub|intros n _].
  destruct (Py.truthy a && Py.truthy n).
  - apply keeps_bind; [assumption..| |intros _ _].
    { apply keeps_modify. intros s0. repeat split; simpl.
      unfold debateteams_of. simpl. rewrite Hid.
      apply debateteams_of_kept. apply Hother. assumption. }
    apply keeps_bind; [assumption..| |intros _ _].
    { apply keeps_modify. intros s0. repeat split; simpl.
      unfold debate_exists. simpl. apply debate_exists_after_update.
      rewrite Hid. apply Hother. assumption. }
    apply keeps_bind; [assumption..|apply Hteam|intros ta _].
    apply keeps_bind; [assumption..|apply Hcreate|intros _ _].
    apply keeps_bind; [assumption..|apply Hteam|intros tn _].
    apply Hcreate.
  - apply keeps_modify. intros s0. repeat split; simpl.
    + unfold debateteams_of. simpl. rewrite Hid.
      apply debateteams_of_kept. apply Hother. assumption.
    + unfold debate_exists. simpl. rewrite Hid.
      apply debate_exists_kept. apply Hother. assumption.
Qed.

Lemma matchups_frame_aux req s ids r s' :
  ids_with_prefix "debate_" (POST req) = Ok ids ->
  SaveDrawMatchups_post req s = (r, s') ->
  untouched_outside ids s s'.
Proof.
  intros Hids. unfold SaveDrawMatchups_post, SaveDrawMatchups_post_with, bind at 1, lift at 1.
  rewrite Hids. unfold bind at 1.
  destruct (for_each ids (edit_existing_debate (POST req)) s) as [[[]|e] s1] eqn:E1.
  - assert (H1 : untouched_outside ids s s1).
    { revert E1. apply keeps_for_each;
        [apply untouched_refl|apply untouched_trans|].
      intros d Hd. apply turn_untouched. exact Hd. }
    unfold bind at 1, lift at 1.
    destruct (ids_with_prefix "new_debate_" (POST req)) as [news|e].
    + unfold bind at 1.
      destruct (for_each news _ s1) as [[[]|e] s2] eqn:E2;
        apply new_loop_builtin in E2; subst s2;
        intros H; inversion H; subst; exact H1.
    + intros H; inversion H; subst; exact H1.
  - intros H. inversion H; subst.
    revert E1. apply keeps_for_each;
      [apply untouched_refl|apply untouched_trans|].
    intros d Hd. apply turn_untouched. exact Hd.
Qed.

(** Whatever a submission says and however the request ends, it leaves
    rounds and teams as they were, and every debate that no [debate_<id>]
    key names keeps its rows and stays there (or stays absent). *)
Theorem matchups_leave_other_debates req s ids r s' :
  ids_with_prefix "debate_" (POST req) = Ok ids ->
  SaveDrawMatchups_post req s = (r, s') ->
  untouched_outside ids s s'.
Proof. apply matchups_frame_aux. Qed.

(** Debate 1 is sent an unknown negative team: the request fails, and
    debates 2 and 3 have their rows as before. *)
Lemma matchups_leave_other_debates_witness :
  untouched_outside [1] Sample.store0
    (snd (SaveDrawMatchups_post (Sample.on_round 2 Sample.unknown_negative) Sample.store0)).
Proof.
  apply (@matchups_leave_other_debates (Sample.on_round 2 Sample.unknown_negative)
           Sample.store0 [1] (Raise Py.DoesNotExist)); reflexivity.
Defined.

Lemma keys_from_sound k q : forall seen,
  In k (QueryDict.keys_from seen q) -> exists v, In (k, v) q.
Proof.
  induction q as [|[k' v'] q IH]; intros seen Hin; [contradiction|].
  simpl in Hin. destruct (QueryDict.mem k' seen).
  - destruct (IH _ Hin) as [v Hv]. exists v. right. exact Hv.
  - destruct Hin as [->|Hin]; [exists v'; left; reflexivity|].
    destruct (IH _ Hin) as [v Hv]. exists v. right. exact Hv.
Qed.

Lemma comprehension_raises A B (f : A -> result B) l x :
  (forall y e, f y = Raise e -> e = Py.ValueError) ->
  In x l -> f x = Raise Py.ValueError ->
  comprehension f l = Raise Py.ValueError.
Proof.
  intros Honly. induction l as [|a l IH]; intros Hin Hx; [contradiction|].
  simpl. destruct (f a) as [b|e] eqn:Ea.
  - destruct Hin as [->|Hin]; [congruence|]. rewrite (IH Hin Hx). reflexivity.
  - rewrite (Honly _ _ Ea). reflexivity.
Qed.

(** One key that starts with [debate_] and does not go on as an integer
    makes the whole request fail with [ValueError] before anything is
    written, whatever else the form holds. *)
Theorem matchups_malformed_key_writes_nothing req s k v :
  In (k, v) (POST req) ->
  Py.startswith k "debate_" = true ->
  Py.int_of_str (Py.replace k "debate_" "") = None ->
  SaveDrawMatchups_post req s = (Raise Py.ValueError, s).
Proof.
  intros Hin Hstart Hbad.
  unfold SaveDrawMatchups_post, SaveDrawMatchups_post_with, bind at 1, lift at 1.
  unfold ids_with_prefix. rewrite (@comprehension_raises _ _ _ _ k); [reflexivity| | |].
  - intros y e. destruct (Py.int_of_str (Py.replace y "debate_" ""));
      intros H; inversion H; reflexivity.
  - apply filter_In. split; [|exact Hstart]. unfold QueryDict.keys.
    apply keys_from_complete with (v := v); [exact Hin|reflexivity].
  - rewrite Hbad. reflexivity.
Qed.

(** A good entry for debate 1 comes first, then the key [debate_x]. *)
Lemma matchups_malformed_key_writes_nothing_witness :
  SaveDrawMatchups_post
    (Sample.on_round 2 (Sample.swap_and_drop ++ [("debate_x", "")])%list) Sample.store0
  = (Raise Py.ValueError, Sample.store0).
Proof.
  apply (@matchups_malformed_key_writes_nothing
           (Sample.on_round 2 (Sample.swap_and_drop ++ [("debate_x", "")])%list)
           Sample.store0 "debate_x" "").
  - simpl. tauto.
  - reflexivity.
  - reflexivity.
Defined.

(** A form without any [debate_] or [new_debate_] key is answered "ok"
    and nothing is written. *)
Theorem matchups_nothing_submitted req s :
  (forall k v, In (k, v) (POST req) ->
               Py.startswith k "debate_" = false
               /\ Py.startswith k "new_debate_" = false) ->
  SaveDrawMatchups_post req s = (Ok (HttpResponse "ok"), s).
Proof.
  intros Hnone.
  assert (Hempty : forall prefix,
     (forall k v, In (k, v) (POST req) -> Py.startswith k prefix = false) ->
     ids_with_prefix prefix (POST req) = Ok []).
  { intros prefix Hp. unfold ids_with_prefix. rewrite filter_none; [reflexivity|].
    intros k Hk. destruct (keys_from_sound _ _ _ Hk) as [v Hv]. apply (Hp k v Hv). }
  unfold SaveDrawMatchups_post, SaveDrawMatchups_post_with, bind, lift.
  rewrite (Hempty "debate_"), (Hempty "new_debate_"); [reflexivity| |];
    intros k v Hin; apply (Hnone k v Hin).
Qed.

(** The form carries only fields of teams. *)
Lemma matchups_nothing_submitted_witness :
  SaveDrawMatchups_post (Sample.on_round 2 [("aff_1", "team_3"); ("neg_1", "team_4")])
    Sample.store0
  = (Ok (HttpResponse "ok"), Sample.store0).
Proof.
  apply matchups_nothing_submitted.
  intros k v [H|[H|[]]]; inversion H; subst; split; reflexivity.
Defined.

(* ====================================================================== *)
(** ** Saving edited matchups: what the outcome depends on *)
(* ====================================================================== *)

Lemma reads_ret A (a : A) : reads_debates_and_teams (ret a).
Proof. intros s1 s2 H. split; [reflexivity|exact H]. Qed.

Lemma reads_raise A e : reads_debates_and_teams (@raise A e).
Proof. intros s1 s2 H. split; [reflexivity|exact H]. Qed.

Lemma reads_lift A (r : result A) : reads_debates_and_teams (lift r).
Proof. intros s1 s2 H. split; [reflexivity|exact H]. Qed.

Lemma reads_bind A B (c : M A) (k : A -> M B) :
  reads_debates_and_teams c -> (forall a, reads_debates_and_teams (k a)) ->
  reads_debates_and_teams (bind c k).
Proof.
  intros Hc Hk s1 s2 H. unfold bind. destruct (Hc s1 s2 H) as [Hr Hs].
  destruct (c s1) as [[a|e] t1], (c s2) as [[a'|e'] t2]; simpl in Hr, Hs;
    try discriminate; inversion Hr; subst.
  - apply Hk. exact Hs.
  - split; [reflexivity|exact Hs].
Qed.

Lemma reads_for_each A (body : A -> M unit) l :
  (forall x, reads_debates_and_teams (body x)) ->
  reads_debates_and_teams (for_each l body).
Proof.
  intros Hb. induction l as [|x l IH]; simpl.
  - apply reads_ret.
  - apply reads_bind; [apply Hb|intros _; exact IH].
Qed.

Lemma reads_modify f :
  (forall s1 s2, same_debates_and_teams s1 s2 -> same_debates_and_teams (f s1) (f s2)) ->
  reads_debates_and_teams (modify f).
Proof. intros Hf s1 s2 H. split; [reflexivity|apply Hf; exact H]. Qed.

Lemma reads_get Row (pk_of : Row -> Z) (table : store -> list Row) pk :
  (forall s1 s2, same_debates_and_teams s1 s2 -> table s1 = table s2) ->
  reads_debates_and_teams (ORM.get pk_of table pk).
Proof.
  intros Ht s1 s2 H. unfold ORM.get. rewrite (Ht s1 s2 H).
  destruct (filter _ (table s2)) as [|x [|y l]]; split; try reflexivity; exact H.
Qed.

Lemma reads_submitted_team q side d : reads_debates_and_teams (submitted_team q side d).
Proof.
  unfold submitted_team. destruct (QueryDict.get q _); [apply reads_ret|apply reads_raise].
Qed.

Lemma reads_team_of_text text : reads_debates_and_teams (team_of_text text).
Proof.
  unfold team_of_text. destruct (Py.int_of_str text); [|apply reads_raise].
  apply reads_get. intros s1 s2 [_ [H _]]. exact H.
Qed.

Lemma reads_DebateTeam_create d t p :
  reads_debates_and_teams (ORM.DebateTeam_create d t p).
Proof. apply reads_modify. intros s1 s2 H. exact H. Qed.

Create HintDb reads.
#[local] Hint Resolve reads_ret reads_raise reads_lift reads_submitted_team
  reads_team_of_text reads_DebateTeam_create : reads.

Lemma reads_edit_existing_debate q d : reads_debates_and_teams (edit_existing_debate q d).
Proof.
  unfold edit_existing_debate.
  apply reads_bind; [apply reads_get; intros s1 s2 [H _]; exact H|intros debate].
  apply reads_bind; [auto with reads|intros a].
  apply reads_bind; [auto with reads|intros n].
  destruct (Py.truthy a && Py.truthy n).
  - apply reads_bind; [apply reads_modify; intros s1 s2 H; exact H|intros _].
    apply reads_bind.
    { apply reads_modify. intros s1 s2 [Hd [Ht Hn]]. repeat split; simpl; congruence. }
    intros _. repeat (apply reads_bind; [auto with reads|intros ?]). auto with reads.
  - apply reads_modify. intros s1 s2 [Hd [Ht Hn]]. repeat split; simpl; congruence.
Qed.

Lemma reads_add_new_debate round q d : reads_debates_and_teams (add_new_debate round q d).
Proof.
  unfold add_new_debate.
  apply reads_bind; [auto with reads|intros a].
  apply reads_bind; [auto with reads|intros n].
  destruct (Py.truthy a && Py.truthy n); [|auto with reads].
  apply reads_bind.
  { unfold ORM.Debate_init. destruct round; auto with reads. }
  intros fields. apply reads_bind.
  { intros s1 s2 [Hd [Ht Hn]]. unfold ORM.Debate_insert. simpl. rewrite Hn, Hd.
    repeat split; simpl; congruence. }
  intros debate. repeat (apply reads_bind; [auto with reads|intros ?]). auto with reads.
Qed.

Lemma matchups_outcome_reads_aux round req s1 s2 :
  same_debates_and_teams s1 s2 ->
  fst (SaveDrawMatchups_post_with round req s1) = fst (SaveDrawMatchups_post_with round req s2)
  /\ debates (snd (SaveDrawMatchups_post_with round req s1))
     = debates (snd (SaveDrawMatchups_post_with round req s2)).
Proof.
  intros Hsame.
  assert (Hreads : reads_debates_and_teams (SaveDrawMatchups_post_with round req)).
  { unfold SaveDrawMatchups_post_with.
    apply reads_bind; [auto with reads|intros ids].
    apply reads_bind; [apply reads_for_each, reads_edit_existing_debate|intros _].
    apply reads_bind; [auto with reads|intros news].
    apply reads_bind; [apply reads_for_each, reads_add_new_debate|intros _].
    auto with reads. }
  destruct (Hreads s1 s2 Hsame) as [Hr [Hd' _]].
  split; assumption.
Qed.

(** Whether a submission goes through, with which exception it fails, and
    what it does to the debates, depend on the store only through its
    debates, its teams and the next debate key: not on the pairings in
    place, nor on rounds, messages or the other counter. *)
Theorem matchups_outcome_reads round req s1 s2 :
  debates s1 = debates s2 -> teams s1 = teams s2 ->
  next_debate_id s1 = next_debate_id s2 ->
  fst (SaveDrawMatchups_post_with round req s1) = fst (SaveDrawMatchups_post_with round req s2)
  /\ debates (snd (SaveDrawMatchups_post_with round req s1))
     = debates (snd (SaveDrawMatchups_post_with round req s2)).
Proof.
  intros Hd Ht Hn. apply matchups_outcome_reads_aux. repeat split; assumption.
Qed.

(** The sample store with its pairings wiped gets the same answer. *)
Lemma matchups_outcome_reads_witness :
  fst (SaveDrawMatchups_post (Sample.on_round 2 Sample.swap_and_drop)
         (set_debateteams [] Sample.store0))
  = Ok (HttpResponse "ok").
Proof.
  destruct (@matchups_outcome_reads (ORM.BuiltinFunction "round")
              (Sample.on_round 2 Sample.swap_and_drop)
              (set_debateteams [] Sample.store0) Sample.store0 eq_refl eq_refl eq_refl)
    as [H _].
  unfold SaveDrawMatchups_post. rewrite H. reflexivity.
Defined.

(* ====================================================================== *)
(** ** Saving edited matchups: sending a form again *)
(* ====================================================================== *)

Lemma complete_condition q d a n :
  QueryDict.get q ("aff_" ++ Py.str_of_int d) = Some a ->
  QueryDict.get q ("neg_" ++ Py.str_of_int d) = Some n ->
  entry_complete q d
  = Py.truthy (Py.replace a "team_" "") && Py.truthy (Py.replace n "team_" "").
Proof. intros Ha Hn. unfold entry_complete. rewrite Ha, Hn. reflexivity. Qed.

(** A loop over complete entries leaves the debates table as it is. *)
Lemma first_loop_keeps_debates q ids : forall s s',
  for_each ids (edit_existing_debate q) s = (Ok tt, s') ->
  (forall d, In d ids -> entry_complete q d = true) ->
  same_debates_and_teams s s'.
Proof.
  induction ids as [|d0 ids IH]; intros s s' Hrun Hall.
  - inversion Hrun; subst. repeat split.
  - rewrite for_each_cons in Hrun.
    destruct (edit_existing_debate q d0 s) as [[[]|e] s1] eqn:E; [|discriminate].
    apply edit_existing_debate_ok in E.
    destruct E as [a [n [Ha [Hn [_ [_ [Ht [Hnext Hcase]]]]]]]].
    pose proof (Hall d0 (or_introl eq_refl)) as Hc.
    rewrite (@complete_condition q d0 a n Ha Hn) in Hc. rewrite Hc in Hcase.
    destruct Hcase as [ta [tn [_ [_ [_ [_ [Hd _]]]]]]].
    destruct (IH s1 s' Hrun) as [Hd' [Ht' Hn']].
    { intros d Hd0. apply Hall. right. exact Hd0. }
    repeat split; congruence.
Qed.

(** A debate that is there when a turn has gone through was there
    before: no turn makes a debate. *)
Lemma first_loop_makes_no_debate q ids : forall s s' d,
  for_each ids (edit_existing_debate q) s = (Ok tt, s') ->
  (debate_exists s' d = true -> debate_exists s d = true)
  /\ (In d ids -> debate_exists s d = true).
Proof.
  induction ids as [|d0 ids IH]; intros s s' d Hrun.
  - inversion Hrun; subst. split; [auto|intros []].
  - rewrite for_each_cons in Hrun.
    destruct (edit_existing_debate q d0 s) as [[[]|e] s1] eqn:E; [|discriminate].
    apply edit_existing_debate_ok in E.
    destruct E as [a [n [_ [_ [Hex [_ [_ [_ Hcase]]]]]]]].
    assert (Hback : debate_exists s1 d = true -> debate_exists s d = true).
    { unfold debate_exists.
      destruct (Py.truthy (Py.replace a "team_" "") && Py.truthy (Py.replace n "team_" "")).
      - destruct Hcase as [ta [tn [_ [_ [_ [_ [Hd _]]]]]]]. rewrite Hd. auto.
      - destruct Hcase as [Hd _]. rewrite Hd. intros H.
        apply existsb_exists in H. destruct H as [x [Hx Hid]].
        apply filter_In in Hx. apply existsb_exists. exists x. tauto. }
    destruct (IH s1 s' d Hrun) as [Hlater Hin].
    split; [auto|].
    intros [<-|Hd]; [exact Hex|auto].
Qed.

(** A form whose existing-debate entries all have both teams can be sent
    again after it went through: the second request goes through as well,
    leaves the debates as they are, and leaves every debate with the same
    teams in the same positions; only the keys of the rows are new. *)
Theorem matchups_resubmission req s resp s' ids :
  ids_with_prefix "debate_" (POST req) = Ok ids ->
  (forall d, In d ids -> entry_complete (POST req) d = true) ->
  SaveDrawMatchups_post req s = (Ok resp, s') ->
  exists s'',
    SaveDrawMatchups_post req s' = (Ok resp, s'')
    /\ debates s'' = debates s'
    /\ forall d, map pairing (debateteams_of s'' d) = map pairing (debateteams_of s' d).
Proof.
  intros Hids Hall Hrun.
  pose proof Hrun as Hrun1.
  apply SaveDrawMatchups_post_ok in Hrun1.
  destruct Hrun1 as [-> [ids1 [Hids1 Hloop1]]].
  rewrite Hids in Hids1. inversion Hids1; subst ids1. clear Hids1.
  destruct (@first_loop_keeps_debates (POST req) ids s s' Hloop1 Hall) as [Hd [Ht Hn]].
  destruct (@matchups_outcome_reads_aux (ORM.BuiltinFunction "round") req s' s)
    as [Hfst _]; [repeat split; congruence|].
  fold (SaveDrawMatchups_post req s') in Hfst. fold (SaveDrawMatchups_post req s) in Hfst.
  rewrite Hrun in Hfst. cbn [fst] in Hfst.
  destruct (SaveDrawMatchups_post req s') as [r2 s''] eqn:Hrun2. cbn [fst] in Hfst. subst r2.
  exists s''. split; [reflexivity|].
  pose proof Hrun2 as Hrun2'.
  apply SaveDrawMatchups_post_ok in Hrun2'.
  destruct Hrun2' as [_ [ids2 [Hids2 Hloop2]]].
  rewrite Hids in Hids2. inversion Hids2; subst ids2. clear Hids2.
  destruct (@first_loop_keeps_debates (POST req) ids s' s'' Hloop2 Hall) as [Hd2 _].
  split; [congruence|].
  intros d. destruct (in_dec Z.eq_dec d ids) as [Hin|Hout].
  - destruct (@first_loop_settles (POST req) (next_debateteam_id s) ids s s' Hloop1
                ltac:(lia)) as [Hset1 _].
    destruct (@first_loop_settles (POST req) (next_debateteam_id s') ids s' s'' Hloop2
                ltac:(lia)) as [Hset2 _].
    destruct (Hset1 d Hin) as [a [n [Ha [Hn1 H1]]]].
    destruct (Hset2 d Hin) as [a' [n' [Ha' [Hn' H2]]]].
    rewrite Ha in Ha'. rewrite Hn1 in Hn'. inversion Ha'; inversion Hn'; subst a' n'.
    pose proof (Hall d Hin) as Hc. rewrite (@complete_condition (POST req) d a n Ha Hn1) in Hc.
    rewrite Hc in H1, H2.
    destruct H1 as [ta [tn [i [j [Hpa [Hpn [_ [_ [_ [_ [_ Hrows1]]]]]]]]]]].
    destruct H2 as [ta' [tn' [i' [j' [Hpa' [Hpn' [_ [_ [_ [_ [_ Hrows2]]]]]]]]]]].
    rewrite Hrows1, Hrows2. simpl. unfold pairing. simpl. congruence.
  - destruct (@matchups_frame_aux req s' ids (Ok (HttpResponse "ok")) s'' Hids Hrun2)
      as [_ [_ Hrows]].
    destruct (Hrows d Hout) as [Hsame _]. rewrite Hsame. reflexivity.
Qed.

(** Team 1 against team 2 in debate 1 and team 1 against team 3 in debate
    2, sent twice. *)
Lemma matchups_resubmission_witness :
  exists s'',
    SaveDrawMatchups_post (Sample.on_round 2 Sample.team_twice)
      (snd (SaveDrawMatchups_post (Sample.on_round 2 Sample.team_twice) Sample.store0))
    = (Ok (HttpResponse "ok"), s'').
Proof.
  destruct (@matchups_resubmission (Sample.on_round 2 Sample.team_twice) Sample.store0
              (HttpResponse "ok")
              (snd (SaveDrawMatchups_post (Sample.on_round 2 Sample.team_twice)
                      Sample.store0))
              [1; 2]) as [s'' [H _]].
  - vm_compute. reflexivity.
  - intros d [<-|[<-|[]]]; vm_compute; reflexivity.
  - vm_compute. reflexivity.
  - exists s''. exact H.
Defined.

(** A form with an entry that has a blank side cannot be sent again
    after it went through: the debate of that entry is gone, and the
    second request ends in an exception. *)
Theorem matchups_blank_entry_sent_again req s resp s' ids d :
  ids_with_prefix "debate_" (POST req) = Ok ids ->
  In d ids -> entry_complete (POST req) d = false ->
  SaveDrawMatchups_post req s = (Ok resp, s') ->
  debate_exists s' d = false
  /\ exists e, fst (SaveDrawMatchups_post req s') = Raise e.
Proof.
  intros Hids Hin Hblank Hrun.
  apply SaveDrawMatchups_post_ok in Hrun.
  destruct Hrun as [_ [ids1 [Hids1 Hloop1]]].
  rewrite Hids in Hids1. inversion Hids1; subst ids1. clear Hids1.
  destruct (@first_loop_settles (POST req) (next_debateteam_id s) ids s s' Hloop1
              ltac:(lia)) as [Hset _].
  destruct (Hset d Hin) as [a [n [Ha [Hn H]]]].
  rewrite (@complete_condition (POST req) d a n Ha Hn) in Hblank. rewrite Hblank in H.
  destruct H as [Hgone _]. split; [exact Hgone|].
  destruct (SaveDrawMatchups_post req s') as [[r2|e] s''] eqn:Hrun2;
    [|exists e; reflexivity].
  exfalso. apply SaveDrawMatchups_post_ok in Hrun2.
  destruct Hrun2 as [_ [ids2 [Hids2 Hloop2]]].
  rewrite Hids in Hids2. inversion Hids2; subst ids2.
  destruct (@first_loop_makes_no_debate (POST req) ids s' s'' d Hloop2) as [_ Hthere].
  rewrite (Hthere Hin) in Hgone. discriminate.
Qed.

(** Debate 2 is sent with a blank side, twice: the second request does
    not find it. *)
Lemma matchups_blank_entry_sent_again_witness :
  debate_exists
    (snd (SaveDrawMatchups_post (Sample.on_round 2 Sample.swap_and_drop) Sample.store0)) 2
  = false
  /\ exists e,
      fst (SaveDrawMatchups_post (Sample.on_round 2 Sample.swap_and_drop)
             (snd (SaveDrawMatchups_post (Sample.on_round 2 Sample.swap_and_drop)
                     Sample.store0)))
      = Raise e.
Proof.
  apply (@matchups_blank_entry_sent_again (Sample.on_round 2 Sample.swap_and_drop)
           Sample.store0 (HttpResponse "ok")
           (snd (SaveDrawMatchups_post (Sample.on_round 2 Sample.swap_and_drop)
                   Sample.store0))
           [1; 2] 2).
  - vm_compute. reflexivity.
  - simpl. tauto.
  - vm_compute. reflexivity.
  - vm_compute. reflexivity.
Defined.

(** The exception of that second request. *)
Example blank_entry_sent_again_exception :
  fst (SaveDrawMatchups_post (Sample.on_round 2 Sample.swap_and_drop)
         (snd (SaveDrawMatchups_post (Sample.on_round 2 Sample.swap_and_drop)
                 Sample.store0)))
  = Raise Py.DoesNotExist.
Proof. vm_compute. reflexivity. Qed.

(* ====================================================================== *)
(** ** The draw by team *)
(* ====================================================================== *)

(** The [Team] column of the draw by team lines up with the doubled draw
    the view hands on: row [i] of a draw of [n] debates shows the
    affirmative team of debate [i], row [n + i] its negative team, and
    both rows are rows of debate [i] in the doubled draw. *)
Theorem by_team_column_lines_up (TeamObject : Type) (aff_team neg_team : Debate -> TeamObject)
        (draw : list Debate) i d :
  nth_error draw i = Some d ->
  let table := AdminDrawDisplayForRoundByTeamView_populate_table aff_team neg_team draw in
  List.length (snd table) = List.length (fst table)
  /\ List.length (fst table) = (2 * List.length draw)%nat
  /\ nth_error (fst table) i = Some d
  /\ nth_error (snd table) i = Some (aff_team d)
  /\ nth_error (fst table) (List.length draw + i) = Some d
  /\ nth_error (snd table) (List.length draw + i) = Some (neg_team d).
Proof.
  intros Hd table. subst table. unfold AdminDrawDisplayForRoundByTeamView_populate_table.
  cbv zeta. cbn [fst snd].
  assert (Hhalf : (List.length (draw ++ draw) / 2 = List.length draw)%nat).
  { rewrite length_app. replace (List.length draw + List.length draw)%nat
      with (List.length draw * 2)%nat by lia. apply Nat.div_mul. discriminate. }
  rewrite Hhalf.
  assert (Hfirst : firstn (List.length draw) (draw ++ draw) = draw).
  { rewrite firstn_app, Nat.sub_diag, firstn_all. simpl. apply app_nil_r. }
  assert (Hskip : skipn (List.length draw) (draw ++ draw) = draw).
  { rewrite skipn_app, Nat.sub_diag, skipn_all. reflexivity. }
  rewrite Hfirst, Hskip.
  assert (Hi : (i < List.length draw)%nat).
  { apply nth_error_Some. rewrite Hd. discriminate. }
  split; [rewrite !length_app, !length_map; reflexivity|].
  split; [rewrite length_app; lia|].
  split; [rewrite nth_error_app1 by exact Hi; exact Hd|].
  split.
  { rewrite nth_error_app1 by (rewrite length_map; exact Hi).
    rewrite nth_error_map, Hd. reflexivity. }
  split.
  { rewrite nth_error_app2 by lia.
    replace (List.length draw + i - List.length draw)%nat with i by lia. exact Hd. }
  rewrite nth_error_app2 by (rewrite length_map; lia).
  rewrite length_map.
  replace (List.length draw + i - List.length draw)%nat with i by lia.
  rewrite nth_error_map, Hd. reflexivity.
Qed.

(** Two debates, teams named by their rows' teams in the sample. *)
Lemma by_team_column_lines_up_witness :
  snd (AdminDrawDisplayForRoundByTeamView_populate_table
         (fun d => (debate_id d, POSITION_AFFIRMATIVE))
         (fun d => (debate_id d, POSITION_NEGATIVE))
         [mk_debate 1 2 None None; mk_debate 2 2 None None])
  = [(1, POSITION_AFFIRMATIVE); (2, POSITION_AFFIRMATIVE);
     (1, POSITION_NEGATIVE); (2, POSITION_NEGATIVE)]
  /\ nth_error
       (snd (AdminDrawDisplayForRoundByTeamView_populate_table
               (fun d => (debate_id d, POSITION_AFFIRMATIVE))
               (fun d => (debate_id d, POSITION_NEGATIVE))
               [mk_debate 1 2 None None; mk_debate 2 2 None None])) (2 + 1)
     = Some (2, POSITION_NEGATIVE).
Proof.
  split; [reflexivity|].
  apply (@by_team_column_lines_up _ (fun d => (debate_id d, POSITION_AFFIRMATIVE))
           (fun d => (debate_id d, POSITION_NEGATIVE))
           [mk_debate 1 2 None None; mk_debate 2 2 None None] 1%nat
           (mk_debate 2 2 None None) eq_refl).
Defined.

(* ====================================================================== *)
(** ** The side pre-allocations *)
(* ====================================================================== *)

Lemma key_eqb_eq a b : key_eqb a b = true <-> a = b.
Proof.
  destruct a as [a1 a2], b as [b1 b2]. unfold key_eqb. simpl.
  rewrite andb_true_iff, !Z.eqb_eq. split; [intros [-> ->]; reflexivity|].
  intros H. inversion H. auto.
Qed.

Lemma key_eqb_refl a : key_eqb a a = true.
Proof. apply key_eqb_eq. reflexivity. Qed.

(** Lookup after an assignment. *)
Lemma dict_get_set d k v k' default :
  dict_get (dict_set k v d) k' default
  = if key_eqb k' k then v else dict_get d k' default.
Proof.
  induction d as [|[k0 v0] d IH]; simpl.
  - reflexivity.
  - destruct (key_eqb k k0) eqn:E; simpl.
    + apply key_eqb_eq in E. subst k0.
      destruct (key_eqb k' k); reflexivity.
    + destruct (key_eqb k' k0) eqn:E0.
      * apply key_eqb_eq in E0. subst k0.
        destruct (key_eqb k' k) eqn:E1; [|reflexivity].
        apply key_eqb_eq in E1. subst k'. rewrite key_eqb_refl in E. discriminate.
      * exact IH.
Qed.

Lemma find_over_app A (P : A -> bool) l1 l2 :
  find P (l1 ++ l2) = match find P l1 with Some x => Some x | None => find P l2 end.
Proof.
  induction l1 as [|x l1 IH]; simpl; [reflexivity|].
  destruct (P x); [reflexivity|exact IH].
Qed.

(** What a dictionary filled from a list of allocations returns for a
    key: the text of the last allocation filed under the key. *)
Lemma dict_get_filled (l : list TeamPositionAllocation) k default : forall d,
  dict_get
    (fold_left (fun tpas tpa =>
                  dict_set (tpa_team tpa, ref_seq (tpa_round tpa))
                           (TPA_MAP (tpa_position tpa)) tpas) l d)
    k default
  = match find (fun tpa => key_eqb k (tpa_team tpa, ref_seq (tpa_round tpa))) (rev l) with
    | Some tpa => TPA_MAP (tpa_position tpa)
    | None => dict_get d k default
    end.
Proof.
  induction l as [|x l IH]; intros d; simpl; [reflexivity|].
  rewrite IH, find_over_app.
  destruct (find _ (rev l)) as [tpa|]; [reflexivity|]. simpl.
  rewrite dict_get_set. destruct (key_eqb k _); reflexivity.
Qed.

Lemma side_allocation_cells_aux teams rounds allocations :
  let table := BaseSideAllocationsView_get_table teams rounds allocations in
  fst table = map ref_abbreviation rounds
  /\ List.length (snd table) = List.length teams
  /\ Forall (fun row => List.length row = List.length rounds) (snd table)
  /\ snd table
     = map (fun team =>
              map (fun round =>
                     match find (fun tpa => (tpa_team tpa =? team_id team)
                                            && (ref_seq (tpa_round tpa) =? ref_id round))
                                (rev (filter (fun tpa =>
                                                existsb (fun r => ref_id r
                                                                  =? ref_id (tpa_round tpa))
                                                        rounds)
                                             allocations)) with
                     | Some tpa => TPA_MAP (tpa_position tpa)
                     | None => em_dash
                     end) rounds) teams.
Proof.
  cbv zeta. unfold BaseSideAllocationsView_get_table. cbn [fst snd].
  split; [reflexivity|]. split; [apply length_map|]. split.
  - apply Forall_forall. intros row Hrow. apply in_map_iff in Hrow.
    destruct Hrow as [team [<- _]]. apply length_map.
  - apply map_ext. intros team. apply map_ext. intros round.
    rewrite dict_get_filled. simpl.
    assert (Hext : forall l,
      find (fun tpa => key_eqb (team_id team, ref_id round)
                               (tpa_team tpa, ref_seq (tpa_round tpa))) l
      = find (fun tpa => (tpa_team tpa =? team_id team)
                         && (ref_seq (tpa_round tpa) =? ref_id round)) l).
    { intros l. induction l as [|x l IH]; simpl; [reflexivity|].
      unfold key_eqb at 1. simpl.
      rewrite (Z.eqb_sym (team_id team)), (Z.eqb_sym (ref_id round)), IH. reflexivity. }
    rewrite Hext. reflexivity.
Qed.

(** The cells of the table of side pre-allocations.  The cell of a team
    under a round shows the last allocation, among those of the rounds
    listed, that has this team and whose round has the listed round's key
    as its sequence number; without one it shows the dash.  There is one
    row per team and one cell per round. *)
Theorem side_allocation_cells teams rounds allocations :
  let table := BaseSideAllocationsView_get_table teams rounds allocations in
  fst table = map ref_abbreviation rounds
  /\ List.length (snd table) = List.length teams
  /\ Forall (fun row => List.length row = List.length rounds) (snd table)
  /\ snd table
     = map (fun team =>
              map (fun round =>
                     match find (fun tpa => (tpa_team tpa =? team_id team)
                                            && (ref_seq (tpa_round tpa) =? ref_id round))
                                (rev (filter (fun tpa =>
                                                existsb (fun r => ref_id r
                                                                  =? ref_id (tpa_round tpa))
                                                        rounds)
                                             allocations)) with
                     | Some tpa => TPA_MAP (tpa_position tpa)
                     | None => em_dash
                     end) rounds) teams.
Proof. apply side_allocation_cells_aux. Qed.

Lemma find_filter_implied A (P F : A -> bool) l :
  (forall x, P x = true -> F x = true) -> find P (filter F l) = find P l.
Proof.
  intros H. induction l as [|x l IH]; simpl; [reflexivity|].
  destruct (F x) eqn:EF; simpl.
  - rewrite IH. reflexivity.
  - destruct (P x) eqn:EP; [|exact IH]. rewrite (H x EP) in EF. discriminate.
Qed.

Lemma rev_filter A (F : A -> bool) l : rev (filter F l) = filter F (rev l).
Proof.
  induction l as [|x l IH]; simpl; [reflexivity|].
  rewrite filter_app. simpl. destruct (F x); simpl; rewrite IH.
  - reflexivity.
  - rewrite app_nil_r. reflexivity.
Qed.

(** When every round that has an allocation carries its key as its
    sequence number, the cell of a team under a listed round shows the
    team's last allocation for that round, and the dash without one.  The
    dictionary is filled under the sequence number and read under the key,
    so the table depends on the two being the same. *)
Theorem side_allocation_cells_by_round teams rounds allocations team round :
  Forall (fun tpa => ref_seq (tpa_round tpa) = ref_id (tpa_round tpa)) allocations ->
  In team teams -> In round rounds ->
  exists row,
    In row (snd (BaseSideAllocationsView_get_table teams rounds allocations))
    /\ In (match find (fun tpa => (tpa_team tpa =? team_id team)
                                  && (ref_id (tpa_round tpa) =? ref_id round))
                      (rev allocations) with
           | Some tpa => TPA_MAP (tpa_position tpa)
           | None => em_dash
           end) row
    /\ row = map (fun round' =>
                    match find (fun tpa => (tpa_team tpa =? team_id team)
                                           && (ref_id (tpa_round tpa) =? ref_id round'))
                               (rev allocations) with
                    | Some tpa => TPA_MAP (tpa_position tpa)
                    | None => em_dash
                    end) rounds.
Proof.
  intros Hseq Hteam Hround.
  destruct (side_allocation_cells_aux teams rounds allocations) as [_ [_ [_ Hcells]]].
  assert (Hcell : forall round', In round' rounds ->
     match find (fun tpa => (tpa_team tpa =? team_id team)
                            && (ref_seq (tpa_round tpa) =? ref_id round'))
                (rev (filter (fun tpa => existsb (fun r => ref_id r =? ref_id (tpa_round tpa))
                                                 rounds) allocations)) with
     | Some tpa => TPA_MAP (tpa_position tpa)
     | None => em_dash
     end
     = match find (fun tpa => (tpa_team tpa =? team_id team)
                              && (ref_id (tpa_round tpa) =? ref_id round'))
                  (rev allocations) with
       | Some tpa => TPA_MAP (tpa_position tpa)
       | None => em_dash
       end).
  { intros round' Hin'. rewrite rev_filter.
    assert (Hsame : forall l, Forall (fun tpa => ref_seq (tpa_round tpa)
                                                 = ref_id (tpa_round tpa)) l ->
       find (fun tpa => (tpa_team tpa =? team_id team)
                        && (ref_seq (tpa_round tpa) =? ref_id round')) l
       = find (fun tpa => (tpa_team tpa =? team_id team)
                          && (ref_id (tpa_round tpa) =? ref_id round')) l).
    { intros l Hl. induction Hl as [|x l Hx _ IH]; simpl; [reflexivity|].
      rewrite Hx, IH. reflexivity. }
    rewrite Hsame.
    - rewrite find_filter_implied; [reflexivity|].
      intros x Hx. apply andb_prop in Hx. destruct Hx as [_ Hx]. apply Z.eqb_eq in Hx.
      apply existsb_exists. exists round'. split; [exact Hin'|].
      rewrite Hx. apply Z.eqb_refl.
    - apply Forall_forall. intros x Hx. apply filter_In in Hx. destruct Hx as [Hx _].
      apply in_rev in Hx. rewrite Forall_forall in Hseq. apply Hseq. exact Hx. }
  eexists. split; [|split].
  - rewrite Hcells. apply in_map_iff. exists team. split; [reflexivity|exact Hteam].
  - apply in_map_iff. exists round. split; [|exact Hround]. apply Hcell. exact Hround.
  - apply map_ext_in. intros round' Hin'. apply Hcell. exact Hin'.
Qed.

(** Team 1 is affirmative in round 1 and, by a later allocation, negative
    in round 2. *)
Lemma side_allocation_cells_by_round_witness :
  snd (BaseSideAllocationsView_get_table
         [mk_team 1 None; mk_team 2 None]
         [mk_round_ref 1 1 "R1"; mk_round_ref 2 2 "R2"]
         [mk_tpa 1 (mk_round_ref 1 1 "R1") (Some POSITION_AFFIRMATIVE);
          mk_tpa 1 (mk_round_ref 2 2 "R2") (Some POSITION_AFFIRMATIVE);
          mk_tpa 1 (mk_round_ref 2 2 "R2") (Some POSITION_NEGATIVE)])
  = [["Aff"; "Neg"]; [em_dash; em_dash]]
  /\ exists row,
      In row (snd (BaseSideAllocationsView_get_table
                     [mk_team 1 None; mk_team 2 None]
                     [mk_round_ref 1 1 "R1"; mk_round_ref 2 2 "R2"]
                     [mk_tpa 1 (mk_round_ref 1 1 "R1") (Some POSITION_AFFIRMATIVE);
                      mk_tpa 1 (mk_round_ref 2 2 "R2") (Some POSITION_AFFIRMATIVE);
                      mk_tpa 1 (mk_round_ref 2 2 "R2") (Some POSITION_NEGATIVE)]))
      /\ In "Neg" row.
Proof.
  split; [reflexivity|].
  destruct (@side_allocation_cells_by_round
              [mk_team 1 None; mk_team 2 None]
              [mk_round_ref 1 1 "R1"; mk_round_ref 2 2 "R2"]
              [mk_tpa 1 (mk_round_ref 1 1 "R1") (Some POSITION_AFFIRMATIVE);
               mk_tpa 1 (mk_round_ref 2 2 "R2") (Some POSITION_AFFIRMATIVE);
               mk_tpa 1 (mk_round_ref 2 2 "R2") (Some POSITION_NEGATIVE)]
              (mk_team 1 None) (mk_round_ref 2 2 "R2")) as [row [Hrow [Hcell _]]].
  - repeat constructor.
  - left. reflexivity.
  - right. left. reflexivity.
  - exists row. split; [exact Hrow|exact Hcell].
Defined.

(** Where sequence number and key differ, the cell is read under the
    wrong round: round 7 is the first round, and its allocation shows
    under no round at all. *)
Example side_allocation_seq_is_not_id :
  snd (BaseSideAllocationsView_get_table
         [mk_team 1 None] [mk_round_ref 7 1 "R1"]
         [mk_tpa 1 (mk_round_ref 7 1 "R1") (Some POSITION_AFFIRMATIVE)])
  = [[em_dash]].
Proof. reflexivity. Qed.

(* ====================================================================== *)
(** ** The blank slots of the matchup form *)
(* ====================================================================== *)

(** The edit form always has a blank slot, has slots for pairing all the
    unused teams, and never more than one slot beyond that. *)
Theorem matchup_form_has_enough_slots unused_teams :
  let slots := DrawMatchupsEditView_possible_debates unused_teams in
  Forall (fun slot => slot = None) slots
  /\ (1 <= List.length slots)%nat
  /\ (List.length unused_teams < 2 * List.length slots)%nat
  /\ (2 * List.length slots <= List.length unused_teams + 2)%nat.
Proof.
  cbv zeta. unfold DrawMatchupsEditView_possible_debates.
  rewrite repeat_length. split.
  - apply Forall_forall. intros x Hx. apply repeat_spec in Hx. exact Hx.
  - pose proof (Nat.div_mod_eq (List.length unused_teams) 2) as Hdiv.
    pose proof (Nat.mod_upper_bound (List.length unused_teams) 2 ltac:(discriminate)).
    lia.
Qed.

(* ====================================================================== *)
(** ** Scheduling a round, debate by debate *)
(* ====================================================================== *)

Lemma set_debates_same s : set_debates (debates s) s = s.
Proof. destruct s; reflexivity. Qed.

(** The plan for a debate reads the request, the teams and the rows: it
    is the same after any write to the debates or the messages, and for
    any two debates with the same key. *)
Lemma planned_time_set_debates req ds s d :
  planned_time req (set_debates ds s) d = planned_time req s d.
Proof. reflexivity. Qed.

Lemma planned_time_set_messages req v s d :
  planned_time req (set_messages v s) d = planned_time req s d.
Proof. reflexivity. Qed.

Lemma planned_time_by_id req s d d' :
  debate_id d = debate_id d' -> planned_time req s d = planned_time req s d'.
Proof. intros H. unfold planned_time, ORM.Debate_teams. rewrite H. reflexivity. Qed.

(** The body of the loop carries out the plan. *)
Lemma schedule_debate_plan req d s :
  schedule_debate req d s
  = match planned_time req s d with
    | Ok (Some t) =>
        (Ok tt, set_debates (ORM.update debate_id (set_debate_time t d) (debates s)) s)
    | Ok None => (Ok tt, s)
    | Raise e => (Raise e, s)
    end.
Proof.
  unfold schedule_debate, planned_time, bind, gets.
  destruct (ORM.Debate_teams d s) as [|team0 others]; [reflexivity|].
  destruct (team_division team0) as [dv|]; [|reflexivity].
  destruct (division_time_slot dv) as [time_slot|]; [|reflexivity].
  destruct (division_venue_group dv) as [g|]; [|reflexivity].
  unfold QueryDict.getitem.
  destruct (QueryDict.get (POST req) (Py.str_of_int g)) as [date|]; [|reflexivity].
  unfold ret. destruct (Py.truthy date); [|reflexivity].
  unfold parse_schedule_time, ORM.Debate_save, modify, ret, raise.
  destruct (Datetime.strptime _ "%Y-%m-%d %H:%M:%S"); [reflexivity|].
  destruct (Datetime.strptime _ "%d/%m/%Y %H:%M:%S"); reflexivity.
Qed.

Lemma scheduled_among_id req s done d :
  debate_id (scheduled_among req s done d) = debate_id d.
Proof.
  unfold scheduled_among. destruct (existsb _ done); [|reflexivity].
  destruct (planned_time req s d) as [[t|]|e]; reflexivity.
Qed.

Lemma scheduled_among_nil req s T : map (scheduled_among req s []) T = T.
Proof. induction T as [|d T IH]; simpl; [reflexivity|]. rewrite IH. reflexivity. Qed.

Lemma same_key_same_row (T : list Debate) a b :
  NoDup (map debate_id T) -> In a T -> In b T -> debate_id a = debate_id b -> a = b.
Proof.
  induction T as [|x T IH]; intros Hnd Ha Hb Hid; [destruct Ha|].
  simpl in Hnd. inversion Hnd as [|? ? Hnot Hnd']; subst.
  destruct Ha as [Ha|Ha], Hb as [Hb|Hb].
  - congruence.
  - subst a. exfalso. apply Hnot. rewrite Hid. apply in_map. exact Hb.
  - subst b. exfalso. apply Hnot. rewrite <- Hid. apply in_map. exact Ha.
  - apply IH; assumption.
Qed.

Lemma NoDup_app_apart A (l1 l2 : list A) a :
  NoDup (l1 ++ l2)%list -> In a l1 -> In a l2 -> False.
Proof.
  induction l1 as [|x l1 IH]; intros Hnd H1 H2; [destruct H1|].
  simpl in Hnd. inversion Hnd as [|? ? Hnot Hnd']; subst.
  destruct H1 as [->|H1].
  - apply Hnot. apply in_or_app. right. exact H2.
  - apply IH; assumption.
Qed.

(** One turn of the loop on the table as the turns before left it. *)
Lemma schedule_turn req s T done d :
  NoDup (map debate_id T) -> In d T ->
  match planned_time req s d with
  | Ok (Some t) =>
      ORM.update debate_id (set_debate_time t d) (map (scheduled_among req s done) T)
  | _ => map (scheduled_among req s done) T
  end
  = map (scheduled_among req s (done ++ [d])%list) T.
Proof.
  intros Hnd Hd.
  assert (Hother : forall r, In r T -> debate_id d <> debate_id r ->
            scheduled_among req s (done ++ [d])%list r = scheduled_among req s done r).
  { intros r _ Hne. unfold scheduled_among. rewrite existsb_app. simpl.
    destruct (Z.eqb_spec (debate_id d) (debate_id r)) as [E|_]; [contradiction|].
    rewrite !orb_false_r. reflexivity. }
  assert (Hsame : forall r, In r T -> debate_id d = debate_id r ->
            scheduled_among req s (done ++ [d])%list r
            = match planned_time req s d with
              | Ok (Some t) => set_debate_time t d
              | _ => d
              end).
  { intros r Hr E. rewrite <- (@same_key_same_row T d r Hnd Hd Hr E).
    unfold scheduled_among. rewrite existsb_app. simpl. rewrite Z.eqb_refl.
    rewrite orb_true_r. reflexivity. }
  destruct (planned_time req s d) as [[t|]|e] eqn:Hp.
  - unfold ORM.update.
    assert (Hex : existsb (fun r => debate_id r =? debate_id (set_debate_time t d))
                          (map (scheduled_among req s done) T) = true).
    { apply existsb_exists. exists (scheduled_among req s done d). split.
      - apply in_map. exact Hd.
      - rewrite scheduled_among_id. simpl. apply Z.eqb_refl. }
    rewrite Hex, map_map. apply map_ext_in. intros r Hr.
    rewrite scheduled_among_id. cbn [set_debate_time debate_id].
    destruct (Z.eqb_spec (debate_id r) (debate_id d)) as [E|Hne].
    + symmetry. apply Hsame; [exact Hr|]. symmetry. exact E.
    + symmetry. apply Hother; [exact Hr|]. intros E. apply Hne. symmetry. exact E.
  - apply map_ext_in. intros r Hr.
    destruct (Z.eq_dec (debate_id d) (debate_id r)) as [E|Hne].
    + rewrite (Hsame r Hr E). rewrite <- (@same_key_same_row T d r Hnd Hd Hr E).
      unfold scheduled_among. rewrite Hp. destruct (existsb _ done); reflexivity.
    + symmetry. apply Hother; assumption.
  - apply map_ext_in. intros r Hr.
    destruct (Z.eq_dec (debate_id d) (debate_id r)) as [E|Hne].
    + rewrite (Hsame r Hr E). rewrite <- (@same_key_same_row T d r Hnd Hd Hr E).
      unfold scheduled_among. rewrite Hp. destruct (existsb _ done); reflexivity.
    + symmetry. apply Hother; assumption.
Qed.

(** The loop over debates whose plans all go through. *)
Lemma schedule_loop req s T :
  NoDup (map debate_id T) ->
  forall l done,
    (forall d, In d l -> In d T) ->
    (forall d, In d l -> forall e, planned_time req s d <> Raise e) ->
    for_each l (schedule_debate req) (set_debates (map (scheduled_among req s done) T) s)
    = (Ok tt, set_debates (map (scheduled_among req s (done ++ l)%list) T) s).
Proof.
  intros Hnd l. induction l as [|d l IH]; intros done Hin Hok.
  - rewrite app_nil_r. reflexivity.
  - rewrite for_each_cons, schedule_debate_plan, planned_time_set_debates.
    pose proof (@schedule_turn req s T done d Hnd (Hin d (or_introl eq_refl))) as Hturn.
    assert (Hrest : for_each l (schedule_debate req)
                      (set_debates (map (scheduled_among req s (done ++ [d])%list) T) s)
                    = (Ok tt, set_debates (map (scheduled_among req s (done ++ d :: l)%list) T) s)).
    { rewrite (IH (done ++ [d])%list).
      - rewrite <- app_assoc. reflexivity.
      - intros x Hx. apply Hin. right. exact Hx.
      - intros x Hx. apply Hok. right. exact Hx. }
    destruct (planned_time req s d) as [[t|]|e] eqn:Hp.
    + cbn [debates set_debates]. rewrite Hturn. exact Hrest.
    + rewrite Hturn. exact Hrest.
    + exfalso. apply (Hok d (or_introl eq_refl) e). exact Hp.
Qed.

(** The loop that meets a debate whose plan raises. *)
Lemma schedule_loop_raises req s T :
  NoDup (map debate_id T) ->
  forall before d after e,
    (forall x, In x (before ++ d :: after)%list -> In x T) ->
    (forall x, In x before -> forall e', planned_time req s x <> Raise e') ->
    planned_time req s d = Raise e ->
    for_each (before ++ d :: after)%list (schedule_debate req) (set_debates T s)
    = (Raise e, set_debates (map (scheduled_among req s before) T) s).
Proof.
  intros Hnd before d after e Hin Hok Hraise.
  assert (Hgen : forall l done,
            (forall x, In x l -> In x T) ->
            (forall x, In x l -> forall e', planned_time req s x <> Raise e') ->
            for_each (l ++ d :: after)%list (schedule_debate req)
                     (set_debates (map (scheduled_among req s done) T) s)
            = (Raise e, set_debates (map (scheduled_among req s (done ++ l)%list) T) s)).
  { intros l. induction l as [|x l IH]; intros done Hin' Hok'.
    - rewrite app_nil_r. simpl app.
      rewrite for_each_cons, schedule_debate_plan, planned_time_set_debates, Hraise.
      reflexivity.
    - simpl app.
      rewrite for_each_cons, schedule_debate_plan, planned_time_set_debates.
      pose proof (@schedule_turn req s T done x Hnd (Hin' x (or_introl eq_refl))) as Hturn.
      assert (Hrest : for_each (l ++ d :: after)%list (schedule_debate req)
                        (set_debates (map (scheduled_among req s (done ++ [x])%list) T) s)
                      = (Raise e,
                         set_debates (map (scheduled_among req s (done ++ x :: l)%list) T) s)).
      { rewrite (IH (done ++ [x])%list).
        - rewrite <- app_assoc. reflexivity.
        - intros y Hy. apply Hin'. right. exact Hy.
        - intros y Hy. apply Hok'. right. exact Hy. }
      destruct (planned_time req s x) as [[t|]|e'] eqn:Hp.
      + cbn [debates set_debates]. rewrite Hturn. exact Hrest.
      + rewrite Hturn. exact Hrest.
      + exfalso. apply (Hok' x (or_introl eq_refl) e'). exact Hp. }
  pose proof (Hgen before [] (fun x Hx => Hin x (in_or_app _ _ _ (or_introl Hx))) Hok) as H.
  rewrite scheduled_among_nil in H. exact H.
Qed.

(** Going through all the debates of a round is scheduling the round. *)
Lemma scheduled_among_round req s rid T :
  NoDup (map debate_id T) ->
  map (scheduled_among req s (filter (fun d => debate_round d =? rid) T)) T
  = map (scheduled_row req s rid) T.
Proof.
  intros Hnd. apply map_ext_in. intros r Hr.
  unfold scheduled_among, scheduled_row.
  destruct (debate_round r =? rid) eqn:E.
  - assert (Hex : existsb (fun x => debate_id x =? debate_id r)
                          (filter (fun d => debate_round d =? rid) T) = true).
    { apply existsb_exists. exists r. split; [|apply Z.eqb_refl].
      apply filter_In. split; assumption. }
    rewrite Hex. reflexivity.
  - destruct (existsb _ _) eqn:Hex; [|reflexivity].
    apply existsb_exists in Hex. destruct Hex as [x [Hx Hid]].
    apply filter_In in Hx. destruct Hx as [Hx Hround]. apply Z.eqb_eq in Hid.
    rewrite (@same_key_same_row T x r Hnd Hx Hr Hid) in Hround.
    rewrite Hround in E. discriminate.
Qed.

(** The whole view when every plan of the round goes through. *)
Lemma schedule_run req s round :
  find (fun r => round_id r =? url_round req) (rounds s) = Some round ->
  NoDup (map debate_id (debates s)) ->
  (forall d, In d (debates s) -> debate_round d = round_id round ->
             forall e, planned_time req s d <> Raise e) ->
  ApplyDebateScheduleView_post req s
  = (Ok (HttpResponseRedirect "draw" (round_id round)),
     set_messages (messages s ++ [(SUCCESS, "Applied schedules to debates")])
       (set_debates (map (scheduled_row req s (round_id round)) (debates s)) s)).
Proof.
  intros Hfind Hnd Hok.
  pose proof (@schedule_loop req s (debates s) Hnd
                (filter (fun d => debate_round d =? round_id round) (debates s)) []) as Hloop.
  rewrite scheduled_among_nil, set_debates_same in Hloop. simpl app in Hloop.
  rewrite (@scheduled_among_round req s (round_id round) (debates s) Hnd) in Hloop.
  unfold ApplyDebateScheduleView_post, bind.
  rewrite (@get_round_found req s round Hfind). unfold gets.
  rewrite Hloop.
  - unfold add_message, modify, DrawStatusEdit_post, bind, get_round.
    cbn [rounds set_messages set_debates messages]. rewrite Hfind. reflexivity.
  - intros d Hd. apply filter_In in Hd. apply Hd.
  - intros d Hd. apply filter_In in Hd. destruct Hd as [Hd Hr].
    apply Hok; [exact Hd|]. apply Z.eqb_eq. exact Hr.
Qed.

Lemma scheduled_row_fields req s rid d :
  debate_id (scheduled_row req s rid d) = debate_id d
  /\ debate_round (scheduled_row req s rid d) = debate_round d
  /\ debate_venue (scheduled_row req s rid d) = debate_venue d.
Proof.
  unfold scheduled_row. destruct (debate_round d =? rid); [|auto].
  destruct (planned_time req s d) as [[t|]|e]; auto.
Qed.

(** Scheduling a round whose debates all have a plan that goes through:
    the view redirects to the draw, adds its success message and writes
    nothing but times.  Every row keeps its key, round and venue; the
    rows of other rounds are as they were; a debate of the round whose
    plan is a time has that time, the others keep theirs.  The table as a
    whole is the old one with every row scheduled on its own, whatever
    the order of the rows. *)
Theorem schedule_writes_the_plan req s round :
  find (fun r => round_id r =? url_round req) (rounds s) = Some round ->
  NoDup (map debate_id (debates s)) ->
  (forall d, In d (debates s) -> debate_round d = round_id round ->
             forall e, planned_time req s d <> Raise e) ->
  let out := ApplyDebateScheduleView_post req s in
  fst out = Ok (HttpResponseRedirect "draw" (round_id round))
  /\ messages (snd out) = (messages s ++ [(SUCCESS, "Applied schedules to debates")])%list
  /\ rounds (snd out) = rounds s /\ teams (snd out) = teams s
  /\ debateteams (snd out) = debateteams s /\ actionlog (snd out) = actionlog s
  /\ map debate_id (debates (snd out)) = map debate_id (debates s)
  /\ map debate_round (debates (snd out)) = map debate_round (debates s)
  /\ map debate_venue (debates (snd out)) = map debate_venue (debates s)
  /\ debates (snd out) = map (scheduled_row req s (round_id round)) (debates s)
  /\ (forall d, In d (debates s) -> debate_round d <> round_id round ->
                In d (debates (snd out)))
  /\ (forall d, In d (debates s) -> debate_round d = round_id round ->
        exists d', In d' (debates (snd out))
                   /\ debate_id d' = debate_id d
                   /\ debate_time d'
                      = match planned_time req s d with
                        | Ok (Some t) => Some t
                        | _ => debate_time d
                        end).
Proof.
  intros Hfind Hnd Hok out. subst out.
  rewrite (@schedule_run req s round Hfind Hnd Hok). cbn [fst snd].
  cbn [messages rounds teams debateteams actionlog debates set_messages set_debates].
  repeat (split; [reflexivity|]).
  split; [rewrite map_map; apply map_ext; intros d; apply scheduled_row_fields|].
  split; [rewrite map_map; apply map_ext; intros d; apply scheduled_row_fields|].
  split; [rewrite map_map; apply map_ext; intros d; apply scheduled_row_fields|].
  split; [reflexivity|]. split.
  - intros d Hd Hne. apply in_map_iff. exists d. split; [|exact Hd].
    unfold scheduled_row. destruct (Z.eqb_spec (debate_round d) (round_id round)); congruence.
  - intros d Hd Hr. exists (scheduled_row req s (round_id round) d).
    split; [apply in_map; exact Hd|]. unfold scheduled_row.
    rewrite Hr, Z.eqb_refl.
    destruct (planned_time req s d) as [[t|]|e]; auto.
Qed.

(** Round 2 of the sample with the date of venue group 7 submitted: both
    debates of the round are set to half past two on that day. *)
Lemma schedule_writes_the_plan_witness :
  fst (ApplyDebateScheduleView_post (Sample.on_round 2 [("7", "2024-03-15")]) Sample.store0)
  = Ok (HttpResponseRedirect "draw" 2)
  /\ debates (snd (ApplyDebateScheduleView_post (Sample.on_round 2 [("7", "2024-03-15")])
                                                Sample.store0))
     = [mk_debate 1 2 None (Some ScheduleSample.march_15);
        mk_debate 2 2 None (Some ScheduleSample.march_15);
        mk_debate 3 3 None None]
  /\ exists d', In d' (debates (snd (ApplyDebateScheduleView_post
                                       (Sample.on_round 2 [("7", "2024-03-15")])
                                       Sample.store0)))
                /\ debate_id d' = 2
                /\ debate_time d' = Some ScheduleSample.march_15.
Proof.
  assert (Hok : forall d, In d (debates Sample.store0) ->
            debate_round d = round_id Sample.round_draft ->
            forall e, planned_time (Sample.on_round 2 [("7", "2024-03-15")])
                                   Sample.store0 d <> Raise e).
  { intros d Hd _ e. simpl in Hd.
    destruct Hd as [<-|[<-|[<-|[]]]]; vm_compute; discriminate. }
  assert (Hnd : NoDup (map debate_id (debates Sample.store0))).
  { simpl. repeat constructor; simpl; intuition discriminate. }
  destruct (@schedule_writes_the_plan (Sample.on_round 2 [("7", "2024-03-15")])
              Sample.store0 Sample.round_draft eq_refl Hnd Hok)
    as [Hfst [_ [_ [_ [_ [_ [_ [_ [_ [Htable [_ Htime]]]]]]]]]]].
  split; [exact Hfst|]. split; [rewrite Htable; vm_compute; reflexivity|].
  apply (Htime (mk_debate 2 2 None None)); [right; left; reflexivity|reflexivity].
Defined.

(** Scheduling stops at the first debate, in table order, whose plan
    raises: the view raises that exception, the debates before it keep
    the times already written, the debates after it are untouched, and
    there is no success message. *)
Theorem schedule_stops_at_first_failure req s round before d after e :
  find (fun r => round_id r =? url_round req) (rounds s) = Some round ->
  NoDup (map debate_id (debates s)) ->
  filter (fun x => debate_round x =? round_id round) (debates s) = (before ++ d :: after)%list ->
  (forall x, In x before -> forall e', planned_time req s x <> Raise e') ->
  planned_time req s d = Raise e ->
  let out := ApplyDebateScheduleView_post req s in
  fst out = Raise e
  /\ messages (snd out) = messages s
  /\ rounds (snd out) = rounds s /\ teams (snd out) = teams s
  /\ debateteams (snd out) = debateteams s /\ actionlog (snd out) = actionlog s
  /\ debates (snd out) = map (scheduled_among req s before) (debates s)
  /\ (forall x, In x before ->
        exists x', In x' (debates (snd out))
                   /\ debate_id x' = debate_id x
                   /\ debate_time x'
                      = match planned_time req s x with
                        | Ok (Some t) => Some t
                        | _ => debate_time x
                        end)
  /\ (forall x, In x (d :: after) -> In x (debates (snd out))).
Proof.
  intros Hfind Hnd Hsplit Hok Hraise out. subst out.
  assert (Hin : forall x, In x (before ++ d :: after)%list -> In x (debates s)).
  { intros x Hx. rewrite <- Hsplit in Hx. apply filter_In in Hx. apply Hx. }
  pose proof (@schedule_loop_raises req s (debates s) Hnd before d after e Hin Hok Hraise)
    as Hloop.
  rewrite set_debates_same in Hloop.
  unfold ApplyDebateScheduleView_post, bind.
  rewrite (@get_round_found req s round Hfind). unfold gets.
  rewrite Hsplit, Hloop. cbn [fst snd].
  cbn [messages rounds teams debateteams actionlog debates set_debates].
  repeat (split; [reflexivity|]).
  assert (Hnd' : NoDup (map debate_id (before ++ d :: after)%list)).
  { rewrite <- Hsplit. clear -Hnd. induction (debates s) as [|x T IH]; simpl; [constructor|].
    simpl in Hnd. inversion Hnd as [|? ? Hnot Hnd']; subst.
    destruct (debate_round x =? round_id round); simpl; [|apply IH; exact Hnd'].
    constructor; [|apply IH; exact Hnd'].
    intros Hx. apply Hnot. apply in_map_iff in Hx. destruct Hx as [y [Hy Hyin]].
    apply filter_In in Hyin. apply in_map_iff. exists y. split; [exact Hy|apply Hyin]. }
  split.
  - intros x Hx. exists (scheduled_among req s before x). split; [|split].
    + apply in_map. apply Hin. apply in_or_app. left. exact Hx.
    + apply scheduled_among_id.
    + unfold scheduled_among.
      assert (Hex : existsb (fun y => debate_id y =? debate_id x) before = true).
      { apply existsb_exists. exists x. split; [exact Hx|apply Z.eqb_refl]. }
      rewrite Hex. destruct (planned_time req s x) as [[t|]|e']; reflexivity.
  - intros x Hx. apply in_map_iff. exists x. split.
    + unfold scheduled_among.
      destruct (existsb (fun y => debate_id y =? debate_id x) before) eqn:Hex; [|reflexivity].
      exfalso. apply existsb_exists in Hex. destruct Hex as [y [Hy Hid]].
      apply Z.eqb_eq in Hid. rewrite map_app in Hnd'.
      apply (@NoDup_app_apart _ _ _ (debate_id y) Hnd').
      * apply in_map. exact Hy.
      * rewrite Hid. apply (in_map debate_id (d :: after) x Hx).
    + apply Hin. apply in_or_app. right. exact Hx.
Qed.

(** Debate 1 of round 2 is scheduled, then debate 2 asks for the date of
    venue group 9 that was not submitted: a [KeyError], and debate 1
    keeps its new time. *)
Lemma schedule_stops_at_first_failure_witness :
  exists s,
    fst (ApplyDebateScheduleView_post (Sample.on_round 2 [("7", "2024-03-15")]) s)
    = Raise Py.KeyError
    /\ debates (snd (ApplyDebateScheduleView_post (Sample.on_round 2 [("7", "2024-03-15")]) s))
       = [mk_debate 1 2 None (Some ScheduleSample.march_15);
          mk_debate 2 2 None None; mk_debate 3 3 None None]
    /\ messages (snd (ApplyDebateScheduleView_post
                        (Sample.on_round 2 [("7", "2024-03-15")]) s)) = [].
Proof.
  exists (mk_store (rounds Sample.store0)
            [mk_team 1 (Some Sample.division_a); mk_team 2 (Some Sample.division_a);
             mk_team 3 (Some (mk_division 3 (Some Sample.slot) (Some 9)));
             mk_team 4 (Some Sample.division_a)]
            (debates Sample.store0) (debateteams Sample.store0) 4 7 0 [] []).
  assert (Hok : forall x, In x [mk_debate 1 2 None None] ->
            forall e', planned_time (Sample.on_round 2 [("7", "2024-03-15")])
              (mk_store (rounds Sample.store0)
                 [mk_team 1 (Some Sample.division_a); mk_team 2 (Some Sample.division_a);
                  mk_team 3 (Some (mk_division 3 (Some Sample.slot) (Some 9)));
                  mk_team 4 (Some Sample.division_a)]
                 (debates Sample.store0) (debateteams Sample.store0) 4 7 0 [] []) x
            <> Raise e').
  { intros x [<-|[]] e'. vm_compute. discriminate. }
  assert (Hnd : NoDup (map debate_id (debates Sample.store0))).
  { simpl. repeat constructor; simpl; intuition discriminate. }
  destruct (@schedule_stops_at_first_failure (Sample.on_round 2 [("7", "2024-03-15")])
              (mk_store (rounds Sample.store0)
                 [mk_team 1 (Some Sample.division_a); mk_team 2 (Some Sample.division_a);
                  mk_team 3 (Some (mk_division 3 (Some Sample.slot) (Some 9)));
                  mk_team 4 (Some Sample.division_a)]
                 (debates Sample.store0) (debateteams Sample.store0) 4 7 0 [] [])
              Sample.round_draft [mk_debate 1 2 None None] (mk_debate 2 2 None None) []
              Py.KeyError eq_refl Hnd eq_refl Hok eq_refl)
    as [Hfst [Hmsg [_ [_ [_ [_ [Htable _]]]]]]].
  split; [exact Hfst|]. split; [rewrite Htable; vm_compute; reflexivity|exact Hmsg].
Defined.

(** Scheduling is idempotent on the debates: a second submission of the
    same form leaves every debate as the first one left it, and only adds
    its success message again. *)
Theorem schedule_twice_is_once req s round :
  find (fun r => round_id r =? url_round req) (rounds s) = Some round ->
  NoDup (map debate_id (debates s)) ->
  (forall d, In d (debates s) -> debate_round d = round_id round ->
             forall e, planned_time req s d <> Raise e) ->
  let once := snd (ApplyDebateScheduleView_post req s) in
  let twice := ApplyDebateScheduleView_post req once in
  fst twice = Ok (HttpResponseRedirect "draw" (round_id round))
  /\ debates (snd twice) = debates once
  /\ rounds (snd twice) = rounds s /\ teams (snd twice) = teams s
  /\ debateteams (snd twice) = debateteams s
  /\ messages (snd twice)
     = (messages s ++ [(SUCCESS, "Applied schedules to debates");
                       (SUCCESS, "Applied schedules to debates")])%list.
Proof.
  intros Hfind Hnd Hok once twice. subst twice once.
  rewrite (@schedule_run req s round Hfind Hnd Hok). cbn [snd].
  assert (Hids : map debate_id (map (scheduled_row req s (round_id round)) (debates s))
                 = map debate_id (debates s)).
  { rewrite map_map. apply map_ext. intros d. apply scheduled_row_fields. }
  rewrite (@schedule_run req _ round).
  - cbn [fst snd messages rounds teams debateteams debates set_messages set_debates].
    split; [reflexivity|]. split.
    + rewrite map_map. apply map_ext. intros d. unfold scheduled_row at 1.
      destruct (scheduled_row_fields req s (round_id round) d) as [Hid [Hr _]].
      rewrite Hr.
      assert (Hplan : planned_time req
                (set_messages (messages s ++ [(SUCCESS, "Applied schedules to debates")])
                   (set_debates (map (scheduled_row req s (round_id round)) (debates s)) s))
                (scheduled_row req s (round_id round) d)
              = planned_time req s d).
      { rewrite planned_time_set_messages, planned_time_set_debates.
        apply planned_time_by_id. exact Hid. }
      rewrite Hplan. unfold scheduled_row.
      destruct (debate_round d =? round_id round); [|reflexivity].
      destruct (planned_time req s d) as [[t|]|e]; reflexivity.
    + repeat (split; [reflexivity|]). rewrite <- app_assoc. reflexivity.
  - exact Hfind.
  - cbn [debates set_messages set_debates]. rewrite Hids. exact Hnd.
  - cbn [debates set_messages set_debates]. intros d' Hd' Hr' e.
    apply in_map_iff in Hd'. destruct Hd' as [d [<- Hd]].
    destruct (scheduled_row_fields req s (round_id round) d) as [Hid [Hr _]].
    rewrite planned_time_set_messages, planned_time_set_debates.
    rewrite (@planned_time_by_id req s _ d Hid).
    apply Hok; [exact Hd|]. rewrite <- Hr. exact Hr'.
Qed.

(** The form of the sample submitted twice. *)
Lemma schedule_twice_is_once_witness :
  debates (snd (ApplyDebateScheduleView_post (Sample.on_round 2 [("7", "2024-03-15")])
             (snd (ApplyDebateScheduleView_post (Sample.on_round 2 [("7", "2024-03-15")])
                                                Sample.store0))))
  = debates (snd (ApplyDebateScheduleView_post (Sample.on_round 2 [("7", "2024-03-15")])
                                               Sample.store0))
  /\ debates (snd (ApplyDebateScheduleView_post (Sample.on_round 2 [("7", "2024-03-15")])
                                                Sample.store0))
     = debates ScheduleSample.scheduled.
Proof.
  assert (Hok : forall d, In d (debates Sample.store0) ->
            debate_round d = round_id Sample.round_draft ->
            forall e, planned_time (Sample.on_round 2 [("7", "2024-03-15")])
                                   Sample.store0 d <> Raise e).
  { intros d Hd _ e. simpl in Hd.
    destruct Hd as [<-|[<-|[<-|[]]]]; vm_compute; discriminate. }
  assert (Hnd : NoDup (map debate_id (debates Sample.store0))).
  { simpl. repeat constructor; simpl; intuition discriminate. }
  destruct (@schedule_twice_is_once (Sample.on_round 2 [("7", "2024-03-15")])
              Sample.store0 Sample.round_draft eq_refl Hnd Hok) as [_ [Htwice _]].
  split; [exact Htwice|vm_compute; reflexivity].
Defined.
